(** * Candle-feed adapters of Hummingbot: Hyperliquid perpetual and OKX spot

    A shallow embedding of

      hummingbot/data_feed/candles_feed/hyperliquid_perpetual_candles/hyperliquid_perpetual_candles.py
      hummingbot/data_feed/candles_feed/okx_spot_candles/okx_spot_candles.py

    and the properties of their historical (REST) and streaming
    (websocket) translation functions.

    Values that come off the wire are dynamically typed in the source, so
    they are embedded as a JSON-like value type with the Python operations
    the adapters apply to them ([len], iteration, subscripting, [in],
    [dict.get]), each with the exception it raises.  A coroutine that awaits
    the REST assistant is a small interaction tree: it either returns,
    raises, or hands a request to the assistant and continues with the
    response. *)

From Stdlib Require Import ZArith QArith List String Ascii Bool Lia Sorted.
From stdpp Require Import base option list sorting gmap strings.

Open Scope string_scope.
Open Scope Z_scope.

(** ** Exceptions and fallible computations *)

(** A Python exception, identified by the name of its class. *)
Inductive exn : Type :=
| Exn (cls : string).

Definition KeyError : exn := Exn "KeyError".
Definition IndexError : exn := Exn "IndexError".
Definition TypeError : exn := Exn "TypeError".
Definition ValueError : exn := Exn "ValueError".
Definition AttributeError : exn := Exn "AttributeError".

Inductive result (A : Type) : Type :=
| Ok (a : A)
| Err (e : exn).
Arguments Ok {A} a.
Arguments Err {A} e.

#[global] Instance result_ret : MRet result := fun A a => Ok a.
#[global] Instance result_bind : MBind result := fun A B f m =>
  match m with
  | Ok a => f a
  | Err e => Err e
  end.

(** ** Wire values *)

#[warnings="-register-all"]
Inductive pyval : Type :=
| VNone
| VBool (b : bool)
| VInt (z : Z)
| VFloat (q : Q)
| VStr (s : string)
| VList (l : list pyval)
| VDict (d : list (string * pyval)).

(** A Python [dict] with string keys, in insertion order; the keys of a
    dict are distinct. *)
Abbreviation pydict := (list (string * pyval)).

Fixpoint dict_get (d : pydict) (k : string) : option pyval :=
  match d with
  | [] => None
  | (k', v) :: d' => if String.eqb k' k then Some v else dict_get d' k
  end.

(** [d[k] = v]: an existing key keeps its position, a new key goes last. *)
Fixpoint dict_set (d : pydict) (k : string) (v : pyval) : pydict :=
  match d with
  | [] => [(k, v)]
  | (k', v') :: d' =>
      if String.eqb k' k then (k', v) :: d' else (k', v') :: dict_set d' k v
  end.

Definition dict_keys (d : pydict) : list string := map fst d.

(** [needle in hay] on two strings: substring test. *)
Fixpoint str_contains (needle hay : string) : bool :=
  String.prefix needle hay ||
  match hay with
  | EmptyString => false
  | String _ hay' => str_contains needle hay'
  end.

(** [s.replace(c, "")] for a single character [c]. *)
Fixpoint remove_char (c : ascii) (s : string) : string :=
  match s with
  | EmptyString => EmptyString
  | String c' s' =>
      if Ascii.eqb c' c then remove_char c s' else String c' (remove_char c s')
  end.

(** [s.split(c)[0]] for a single character [c]: the part of [s] before
    the first [c], all of [s] when it has none. *)
Fixpoint split_head (c : ascii) (s : string) : string :=
  match s with
  | EmptyString => EmptyString
  | String c' s' =>
      if Ascii.eqb c' c then EmptyString else String c' (split_head c s')
  end.

Definition str_chars (s : string) : list pyval :=
  map (fun c => VStr (String c EmptyString)) (list_ascii_of_string s).

(** [seq[i]] for a Python sequence held as a list: negative indices count
    from the end, anything out of range is an [IndexError]. *)
Definition seq_index {A : Type} (l : list A) (i : Z) : result A :=
  let n := Z.of_nat (length l) in
  let j := if i <? 0 then i + n else i in
  if (0 <=? j) && (j <? n) then
    match l !! Z.to_nat j with
    | Some x => Ok x
    | None => Err IndexError
    end
  else Err IndexError.

(** [c[k]] with a string literal [k]. *)
Definition getitem_str (c : pyval) (k : string) : result pyval :=
  match c with
  | VDict d =>
      match dict_get d k with
      | Some v => Ok v
      | None => Err KeyError
      end
  | _ => Err TypeError
  end.

(** [c[i]] with an integer literal [i].  A JSON object has string keys
    only, so an integer subscript on a dict is a [KeyError]. *)
Definition getitem_int (c : pyval) (i : Z) : result pyval :=
  match c with
  | VDict _ => Err KeyError
  | VList l => seq_index l i
  | VStr s => seq_index (str_chars s) i
  | _ => Err TypeError
  end.

Definition is_str (v : pyval) (s : string) : bool :=
  match v with
  | VStr t => String.eqb t s
  | _ => false
  end.

(** [k in c] with a string literal [k]. *)
Definition py_contains (k : string) (c : pyval) : result bool :=
  match c with
  | VDict d => Ok (bool_decide (is_Some (dict_get d k)))
  | VList l => Ok (existsb (fun v => is_str v k) l)
  | VStr s => Ok (str_contains k s)
  | _ => Err TypeError
  end.

(** [c.get(k)]: only a dict has the method. *)
Definition py_get (c : pyval) (k : string) : result pyval :=
  match c with
  | VDict d => Ok (default VNone (dict_get d k))
  | _ => Err AttributeError
  end.

Definition py_len (c : pyval) : result Z :=
  match c with
  | VDict d => Ok (Z.of_nat (length d))
  | VList l => Ok (Z.of_nat (length l))
  | VStr s => Ok (Z.of_nat (String.length s))
  | _ => Err TypeError
  end.

(** [for row in c]: a dict iterates over its keys. *)
Definition py_iter (c : pyval) : result (list pyval) :=
  match c with
  | VDict d => Ok (map VStr (dict_keys d))
  | VList l => Ok l
  | VStr s => Ok (str_chars s)
  | _ => Err TypeError
  end.

(** Arithmetic and comparison on an [Optional[int]] argument: [None]
    supports neither. *)
Definition py_mul (x : option Z) (k : Z) : result Z :=
  match x with
  | Some z => Ok (z * k)
  | None => Err TypeError
  end.

Definition py_sub (x : option Z) (k : Z) : result Z :=
  match x with
  | Some z => Ok (z - k)
  | None => Err TypeError
  end.

Definition py_add (x : option Z) (k : Z) : result Z :=
  match x with
  | Some z => Ok (z + k)
  | None => Err TypeError
  end.

Definition py_lt (x : Z) (y : option Z) : result bool :=
  match y with
  | Some z => Ok (x <? z)
  | None => Err TypeError
  end.

(** Truth value of an [Optional[int]]: [None] and [0] are false. *)
Definition truthy (x : option Z) : bool :=
  match x with
  | Some z => negb (z =? 0)
  | None => false
  end.

(** [[elem(row) for row in rows if cond(row)]], evaluated left to right;
    the first exception ends the comprehension. *)
Fixpoint comprehension {A B : Type} (cond : A -> result bool)
    (elem : A -> result B) (rows : list A) : result (list B) :=
  match rows with
  | [] => Ok []
  | row :: rows' =>
      keep ← cond row;
      if keep : bool then
        x ← elem row;
        xs ← comprehension cond elem rows';
        Ok (x :: xs)
      else comprehension cond elem rows'
  end.

(** ** The REST assistant *)

(** The keyword arguments of [rest_assistant.execute_request]; an argument
    the call leaves out is [None].  [method] holds the name of the
    [RESTMethod] member. *)
Record request : Type := {
  url : string;
  method : option string;
  throttler_limit_id : string;
  params : option pydict;
  data : option pyval;
  headers : option pydict;
}.

(** A coroutine: it returns, raises, or awaits [execute_request] and goes
    on with the decoded response body.  The assistant that
    [self._api_factory.get_rest_assistant()] hands over is the one the
    coroutine is run against. *)
Inductive io (A : Type) : Type :=
| Return (a : A)
| Raise (e : exn)
| ExecuteRequest (rq : request) (k : pyval -> io A).
Arguments Return {A} a.
Arguments Raise {A} e.
Arguments ExecuteRequest {A} rq k.

Fixpoint io_bind {A B : Type} (f : A -> io B) (m : io A) : io B :=
  match m with
  | Return a => f a
  | Raise e => Raise e
  | ExecuteRequest rq k => ExecuteRequest rq (fun v => io_bind f (k v))
  end.

#[global] Instance io_ret : MRet io := fun A a => Return a.
#[global] Instance io_mbind : MBind io := fun A B f m => io_bind f m.

Definition lift {A : Type} (r : result A) : io A :=
  match r with
  | Ok a => Return a
  | Err e => Raise e
  end.

Definition execute_request (rq : request) : io pyval :=
  ExecuteRequest rq Return.

(** Running a coroutine against an assistant that answers each request
    with a body or with the exception it raises. *)
Fixpoint run {A : Type} (rest_assistant : request -> result pyval)
    (m : io A) : result A :=
  match m with
  | Return a => Ok a
  | Raise e => Err e
  | ExecuteRequest rq k =>
      match rest_assistant rq with
      | Ok body => run rest_assistant (k body)
      | Err e => Err e
      end
  end.

(** The request a coroutine hands over first, if it gets that far. *)
Definition sent_request {A : Type} (m : io A) : option request :=
  match m with
  | ExecuteRequest rq _ => Some rq
  | _ => None
  end.

(** ** numpy: [np.array(arr).astype(float)] *)

Inductive npfloat : Type :=
| NaN
| Fin (q : Q).

(** The result of [fetch_candles]: the zero-dimensional array numpy builds
    from a scalar, or an array of rows (with no rows: the empty array). *)
Inductive ndarray : Type :=
| NdScalar (x : npfloat)
| NdRows (rows : list (list npfloat)).

Section Numpy.

(** How numpy reads a string as a float; [None] when it refuses. *)
Variable float_of_str : string -> option npfloat.

(** The float of one cell of a row: a number gives its value, a string
    what numpy parses from it, [None] NaN; any other value is refused.
    The value of a number is kept exact: the rounding to the nearest
    float64 is not modelled, and the theorems below rest on which cells
    are accepted and on the shape of the array, not on the values of its
    cells.  A boolean is
    refused: numpy reads it as 1.0 or 0.0 in an array of numbers and
    refuses it in an array that holds strings, and a row of the adapters
    may be either, so no response with a boolean cell counts as
    well-formed below. *)
Definition np_float (v : pyval) : result npfloat :=
  match v with
  | VNone => Ok NaN
  | VBool _ => Err ValueError
  | VInt z => Ok (Fin (inject_Z z))
  | VFloat q => Ok (Fin q)
  | VStr s =>
      match float_of_str s with
      | Some x => Ok x
      | None => Err ValueError
      end
  | VList _ => Err ValueError
  | VDict _ => Err TypeError
  end.

(** [arr] is what the adapters build: [None], or a list of ten-cell
    rows. *)
Definition np_array_astype_float (arr : option (list (list pyval)))
    : result ndarray :=
  match arr with
  | None => Ok (NdScalar NaN)
  | Some rows => rows' ← mapM (mapM np_float) rows; Ok (NdRows rows')
  end.

End Numpy.

(** ** hummingbot.core.network_iterator *)

(** Modelled from the spec: [NetworkStatus] is imported from
    [hummingbot.core.network_iterator], which is not among the sources.
    Section 4.6 of the specification names the two health states. *)
Inductive NetworkStatus : Type :=
| CONNECTED
| DISCONNECTED.

(** ** Decimal numerals *)

Definition digit_of (c : ascii) : option Z :=
  let n := Z.of_N (N_of_ascii c) in
  if (48 <=? n) && (n <=? 57) then Some (n - 48) else None.

Fixpoint digits_value (acc : Z) (s : string) : option Z :=
  match s with
  | EmptyString => Some acc
  | String c s' =>
      match digit_of c with
      | Some d => digits_value (10 * acc + d) s'
      | None => None
      end
  end.

(** A non-empty string of decimal digits. *)
Definition decimal_digits (s : string) : option Z :=
  match s with
  | EmptyString => None
  | _ => digits_value 0 s
  end.

(** The part of [s] before the first ['.'] and the part after it. *)
Fixpoint split_point (s : string) : string * option string :=
  match s with
  | EmptyString => (EmptyString, None)
  | String c s' =>
      if Ascii.eqb c "."%char then (EmptyString, Some s')
      else let '(a, b) := split_point s' in (String c a, b)
  end.

(** Plain decimal numerals, [digits] or [digits.digits]. *)
Definition float_of_decimal (s : string) : option npfloat :=
  match split_point s with
  | (a, None) => n ← decimal_digits a; Some (Fin (inject_Z n))
  | (a, Some b) =>
      n ← decimal_digits a;
      f ← decimal_digits b;
      let scale := 10 ^ Z.of_nat (String.length b) in
      Some (Fin (Qmake (n * scale + f) (Z.to_pos scale)))
  end.

(** ** hummingbot.data_feed.candles_feed.candles_base *)

Module CandlesBase.

(** The count a wire timestamp holds: an integer, the whole part of a
    float, or the value of a string of decimal digits. *)
Definition wire_number (timestamp : pyval) : option Z :=
  match timestamp with
  | VInt z => Some z
  | VFloat q => Some (Z.quot (Qnum q) (Z.pos (Qden q)))
  | VStr s => decimal_digits s
  | _ => None
  end.

(** The units in which a source gives the time of a candle, as section 3
    of the specification lists them. *)
Inductive source_unit : Type :=
| Seconds
| Milliseconds
| IsoString.

(** A date of the Gregorian calendar and a time of day, in UTC. *)
Record datetime : Type := {
  year : Z;
  month : Z;
  day : Z;
  hour : Z;
  minute : Z;
  second : Z
}.

Definition is_leap (y : Z) : bool :=
  (y mod 4 =? 0) && (negb (y mod 100 =? 0) || (y mod 400 =? 0)).

Definition days_in_month (y m : Z) : Z :=
  if m =? 2 then (if is_leap y then 29 else 28)
  else if (m =? 4) || (m =? 6) || (m =? 9) || (m =? 11) then 30
  else 31.

(** The days from 1970-01-01 to the day [d] of the month [m] of the year
    [y]; the years are counted from March, in eras of 400 years, which
    hold 146097 days each. *)
Definition days_from_civil (y m d : Z) : Z :=
  let y' := if m <=? 2 then y - 1 else y in
  let era := y' / 400 in
  let yoe := y' - era * 400 in
  let mp := if 2 <? m then m - 3 else m + 9 in
  let doy := (153 * mp + 2) / 5 + d - 1 in
  let doe := yoe * 365 + yoe / 4 - yoe / 100 + doy in
  era * 146097 + doe - 719468.

(** The whole seconds from 1970-01-01T00:00:00 UTC to [dt]. *)
Definition epoch_seconds (dt : datetime) : Z :=
  days_from_civil dt.(year) dt.(month) dt.(day) * 86400
  + dt.(hour) * 3600 + dt.(minute) * 60 + dt.(second).

Definition valid_datetime (dt : datetime) : bool :=
  (1 <=? dt.(month)) && (dt.(month) <=? 12)
  && (1 <=? dt.(day)) && (dt.(day) <=? days_in_month dt.(year) dt.(month))
  && (dt.(hour) <=? 23) && (dt.(minute) <=? 59) && (dt.(second) <=? 59).

(** The [len] digits of [text] from position [start]. *)
Definition iso_field (start len : nat) (text : string) : option Z :=
  let digits := String.substring start len text in
  if Nat.eqb (String.length digits) len then decimal_digits digits else None.

Definition iso_separator (pos : nat) (c : ascii) (text : string) : bool :=
  match String.get pos text with
  | Some c' => Ascii.eqb c' c
  | None => false
  end.

(** What may follow the seconds: nothing, a fraction of a second, and
    after either a ["Z"]. *)
Definition iso_tail (tail : string) : bool :=
  let zone z := String.eqb z "" || String.eqb z "Z" in
  match tail with
  | String "."%char fraction =>
      let digits := split_head "Z" fraction in
      match decimal_digits digits with
      | Some _ =>
          zone (String.substring (String.length digits)
                  (String.length fraction) fraction)
      | None => false
      end
  | _ => zone tail
  end.

(** An ISO 8601 date and time in UTC, [YYYY-MM-DDTHH:MM:SS], with an
    optional fraction of a second and an optional ["Z"]. *)
Definition iso_datetime (text : string) : option datetime :=
  y ← iso_field 0 4 text;
  mo ← iso_field 5 2 text;
  d ← iso_field 8 2 text;
  h ← iso_field 11 2 text;
  mi ← iso_field 14 2 text;
  s ← iso_field 17 2 text;
  let dt := {| year := y; month := mo; day := d;
               hour := h; minute := mi; second := s |} in
  if iso_separator 4 "-" text && iso_separator 7 "-" text
     && iso_separator 10 "T" text && iso_separator 13 ":" text
     && iso_separator 16 ":" text
     && iso_tail (String.substring 19 (String.length text) text)
     && valid_datetime dt
  then Some dt else None.

(** Modelled from the spec: [CandlesBase.ensure_timestamp_in_seconds] is
    defined in [candles_base.py], which is not among the sources.
    Section 3 of the specification: "Timestamp is always normalized to
    whole seconds regardless of source unit (seconds, milliseconds, or
    ISO string)".  The specification does not say how the method learns
    the unit of its source, so the unit is an argument here:
    [ensure_timestamp_in_seconds unit] is the method of a feed whose
    exchange gives its times in [unit].  A count of seconds is cut to its
    whole part, a count of milliseconds is divided by 1000 and rounded
    down, a date and time is counted in seconds from 1970-01-01T00:00:00
    UTC.  A count is a JSON number or a string of decimal digits.
    Hyperliquid and OKX give their times in milliseconds. *)
Definition ensure_timestamp_in_seconds (unit : source_unit) (timestamp : pyval)
    : result Z :=
  match unit with
  | Seconds =>
      match wire_number timestamp with
      | Some n => Ok n
      | None => Err ValueError
      end
  | Milliseconds =>
      match wire_number timestamp with
      | Some n => Ok (n / 1000)
      | None => Err ValueError
      end
  | IsoString =>
      match timestamp with
      | VStr text =>
          match iso_datetime text with
          | Some dt => Ok (epoch_seconds dt)
          | None => Err ValueError
          end
      | _ => Err ValueError
      end
  end.

End CandlesBase.

(** [CONSTANTS.INTERVALS[token]]: a plain dict lookup. *)
Definition intervals_getitem (table : gmap string string) (token : string)
    : result string :=
  match table !! token with
  | Some native => Ok native
  | None => Err KeyError
  end.

Definition is_not_none {A : Type} (x : option A) : bool :=
  match x with
  | Some _ => true
  | None => false
  end.

(** A comprehension without an [if] clause. *)
Definition comprehension_all {A B : Type} (elem : A -> result B)
    (rows : list A) : result (list B) :=
  comprehension (fun _ => Ok true) elem rows.

(** ** hyperliquid_perpetual_candles.py *)

Module Hyperliquid.

(** The names the adapter reads from its [constants] module, which is
    not among the sources. *)
Record constants : Type := {
  REST_URL : string;
  WSS_URL : string;
  CANDLES_ENDPOINT : string;
  MAX_RESULTS_PER_CANDLESTICK_REST_REQUEST : Z;
  INTERVALS : gmap string string;
  HEALTH_CHECK_PAYLOAD : pyval;
}.

(** The attributes of an instance; [interval] and [interval_in_seconds]
    are set by the base class. *)
Record HyperliquidPerpetualCandles : Type := {
  _trading_pair : string;
  interval : string;
  interval_in_seconds : Z;
  _base_asset : string;
  _tokens : pyval;
}.

Section Adapter.

Variable CONSTANTS : constants.
(** Inherited from [CandlesBase], in [candles_base.py], which is not
    among the sources: the timestamp in seconds, or the exception it
    raises. *)
Variable ensure_timestamp_in_seconds : pyval -> result Z.
(** numpy's reading of a string as a float. *)
Variable float_of_str : string -> option npfloat.

Definition name (self : HyperliquidPerpetualCandles) : string :=
  String.append "hyperliquid_perpetual_" self.(_trading_pair).

Definition rest_url : string := CONSTANTS.(REST_URL).
Definition wss_url : string := CONSTANTS.(WSS_URL).
Definition health_check_url : string := rest_url.
Definition candles_url : string := rest_url.
Definition candles_endpoint : string := CONSTANTS.(CANDLES_ENDPOINT).
Definition candles_max_result_per_rest_request : Z :=
  CONSTANTS.(MAX_RESULTS_PER_CANDLESTICK_REST_REQUEST).
Definition intervals : gmap string string := CONSTANTS.(INTERVALS).

(** Stores the response in [self._tokens]; the instance is returned with
    the status. *)
Definition check_network (self : HyperliquidPerpetualCandles)
    : io (HyperliquidPerpetualCandles * NetworkStatus) :=
  tokens ← execute_request
    {| url := rest_url;
       method := Some "POST";
       throttler_limit_id := rest_url;
       params := None;
       data := Some CONSTANTS.(HEALTH_CHECK_PAYLOAD);
       headers := None |};
  Return ({| _trading_pair := self.(_trading_pair);
             interval := self.(interval);
             interval_in_seconds := self.(interval_in_seconds);
             _base_asset := self.(_base_asset);
             _tokens := tokens |}, CONNECTED).

Definition get_exchange_trading_pair (trading_pair : string) : string :=
  remove_char "-" trading_pair.

(** The body is [pass]. *)
Definition _get_rest_candles_params (start_time end_time limit : option Z)
    : pyval :=
  VNone.

Definition _get_rest_candles_headers : pydict :=
  [("Content-Type", VStr "application/json")].

(** The row built for one element of the response. *)
Definition rest_row (row : pyval) : result (list pyval) :=
  t ← getitem_str row "t";
  ts ← ensure_timestamp_in_seconds t;
  o ← getitem_str row "o";
  h ← getitem_str row "h";
  l ← getitem_str row "l";
  c ← getitem_str row "c";
  v ← getitem_str row "v";
  n ← getitem_str row "n";
  Ok [VInt ts; o; h; l; c; v; VFloat 0; n; VFloat 0; VFloat 0].

(** The [if] clause of the comprehension. *)
Definition rest_row_kept (end_time : option Z) (row : pyval)
    : result bool :=
  t ← getitem_str row "t";
  ts ← ensure_timestamp_in_seconds t;
  py_lt ts end_time.

(** Falls off the end, returning [None], when [data] is empty. *)
Definition _parse_rest_candles (data : pyval) (end_time : option Z)
    : result (option (list (list pyval))) :=
  n ← py_len data;
  if 0 <? n then
    rows ← py_iter data;
    arr ← comprehension (rest_row_kept end_time) rest_row rows;
    Ok (Some arr)
  else Ok None.

(** The [reqs] dict of [fetch_candles]. *)
Definition fetch_candles_reqs (self : HyperliquidPerpetualCandles)
    (start_time end_time : option Z) : result pydict :=
  let limit := CONSTANTS.(MAX_RESULTS_PER_CANDLESTICK_REST_REQUEST) in
  native ← intervals_getitem CONSTANTS.(INTERVALS) self.(interval);
  let reqs := [("interval", VStr native);
               ("coin", VStr self.(_base_asset))] in
  if is_not_none start_time || is_not_none end_time then
    startTime ← match start_time with
                | Some s => Ok s
                | None => py_sub end_time
                            (limit * self.(interval_in_seconds))
                end;
    let reqs := dict_set reqs "startTime" (VInt startTime) in
    let reqs := dict_set reqs "startTime" (VInt (startTime * 1000)) in
    endTime ← match end_time with
              | Some e => Ok e
              | None => py_add start_time
                          (limit * self.(interval_in_seconds))
              end;
    let reqs := dict_set reqs "endTime" (VInt endTime) in
    let reqs := dict_set reqs "endTime" (VInt (endTime * 1000)) in
    Ok reqs
  else Ok reqs.

Definition fetch_candles (self : HyperliquidPerpetualCandles)
    (start_time end_time : option Z) : io ndarray :=
  reqs ← lift (fetch_candles_reqs self start_time end_time);
  let payload := VDict [("type", VStr "candleSnapshot");
                        ("req", VDict reqs)] in
  let headers := _get_rest_candles_headers in
  candles ← execute_request
    {| url := candles_url;
       method := Some "POST";
       throttler_limit_id := rest_url;
       params := None;
       data := Some payload;
       headers := Some headers |};
  arr ← lift (_parse_rest_candles candles end_time);
  lift (np_array_astype_float float_of_str arr).

Definition ws_subscription_payload (self : HyperliquidPerpetualCandles)
    : result pyval :=
  interval ← intervals_getitem CONSTANTS.(INTERVALS) self.(interval);
  let payload :=
    VDict [("method", VStr "subscribe");
           ("subscription",
            VDict [("type", VStr "candle");
                   ("coin", VStr self.(_base_asset));
                   ("interval", VStr interval)])] in
  Ok payload.

(** Returns a dict for a frame of the candle channel and falls off the
    end, returning [None], for any other. *)
Definition _parse_websocket_message (data : pyval)
    : result (option pydict) :=
  let candles_row_dict : pydict := [] in
  match data with
  | VNone => Ok None
  | _ =>
      channel ← py_get data "channel";
      if is_str channel "candle" then
        candle ← getitem_str data "data";
        t ← getitem_str candle "t";
        ts ← ensure_timestamp_in_seconds t;
        let candles_row_dict :=
          dict_set candles_row_dict "timestamp" (VInt ts) in
        o ← getitem_str candle "o";
        let candles_row_dict := dict_set candles_row_dict "open" o in
        l ← getitem_str candle "l";
        let candles_row_dict := dict_set candles_row_dict "low" l in
        h ← getitem_str candle "h";
        let candles_row_dict := dict_set candles_row_dict "high" h in
        c ← getitem_str candle "c";
        let candles_row_dict := dict_set candles_row_dict "close" c in
        v ← getitem_str candle "v";
        let candles_row_dict := dict_set candles_row_dict "volume" v in
        let candles_row_dict :=
          dict_set candles_row_dict "quote_asset_volume" (VFloat 0) in
        n ← getitem_str candle "n";
        let candles_row_dict := dict_set candles_row_dict "n_trades" n in
        let candles_row_dict :=
          dict_set candles_row_dict "taker_buy_base_volume" (VFloat 0) in
        let candles_row_dict :=
          dict_set candles_row_dict "taker_buy_quote_volume" (VFloat 0) in
        Ok (Some candles_row_dict)
      else Ok None
  end.

(** What [__init__] assigns to [_tokens] and to [_base_asset] before it
    hands [trading_pair] over to the initialiser of the base class. *)
Definition init_attributes (trading_pair : string) : pyval * string :=
  (VNone, split_head "-" trading_pair).

End Adapter.

End Hyperliquid.

(** ** okx_spot_candles.py *)

Module OKX.

Record constants : Type := {
  REST_URL : string;
  WSS_URL : string;
  HEALTH_CHECK_ENDPOINT : string;
  CANDLES_ENDPOINT : string;
  MAX_RESULTS_PER_CANDLESTICK_REST_REQUEST : Z;
  INTERVALS : gmap string string;
}.

(** The attributes of an instance, all set by the base class. *)
Record OKXSpotCandles : Type := {
  _trading_pair : string;
  _ex_trading_pair : string;
  interval : string;
  interval_in_seconds : Z;
}.

Section Adapter.

Variable CONSTANTS : constants.
(** Inherited from [CandlesBase], in [candles_base.py], which is not
    among the sources: the timestamp in seconds, or the exception it
    raises. *)
Variable ensure_timestamp_in_seconds : pyval -> result Z.
(** numpy's reading of a string as a float. *)
Variable float_of_str : string -> option npfloat.

Definition name (self : OKXSpotCandles) : string :=
  String.append "okx_" self.(_trading_pair).

Definition rest_url : string := CONSTANTS.(REST_URL).
Definition wss_url : string := CONSTANTS.(WSS_URL).
Definition health_check_url : string :=
  String.append rest_url CONSTANTS.(HEALTH_CHECK_ENDPOINT).
Definition candles_url : string :=
  String.append rest_url CONSTANTS.(CANDLES_ENDPOINT).
Definition intervals : gmap string string := CONSTANTS.(INTERVALS).

Definition check_network (self : OKXSpotCandles) : io NetworkStatus :=
  _ ← execute_request
    {| url := health_check_url;
       method := None;
       throttler_limit_id := CONSTANTS.(HEALTH_CHECK_ENDPOINT);
       params := None;
       data := None;
       headers := None |};
  Return CONNECTED.

Definition get_exchange_trading_pair (trading_pair : string) : string :=
  trading_pair.

(** The [params] dict of [fetch_candles]. *)
Definition fetch_candles_params (self : OKXSpotCandles)
    (start_time end_time : option Z) : result pydict :=
  bar ← intervals_getitem CONSTANTS.(INTERVALS) self.(interval);
  let params := [("instId", VStr self.(_ex_trading_pair));
                 ("bar", VStr bar)] in
  params ← (if truthy start_time then
              before ← py_mul start_time 1000;
              Ok (dict_set params "before" (VInt before))
            else Ok params);
  after ← py_mul end_time 1000;
  let params := dict_set params "after" (VInt after) in
  Ok params.

(** The row built for one element of [candles["data"]]. *)
Definition rest_row (row : pyval) : result (list pyval) :=
  r0 ← getitem_int row 0;
  ts ← ensure_timestamp_in_seconds r0;
  r1 ← getitem_int row 1;
  r2 ← getitem_int row 2;
  r3 ← getitem_int row 3;
  r4 ← getitem_int row 4;
  r5 ← getitem_int row 5;
  r6 ← getitem_int row 6;
  Ok [VInt ts; r1; r2; r3; r4; r5; r6; VFloat 0; VFloat 0; VFloat 0].

(** The list bound to [arr] in [fetch_candles]: the comprehension over
    [candles["data"]], reversed by [[::-1]]. *)
Definition fetch_candles_arr (candles : pyval)
    : result (list (list pyval)) :=
  rows ← getitem_str candles "data";
  rows ← py_iter rows;
  arr ← comprehension_all rest_row rows;
  Ok (reverse arr).

(** [limit] is accepted and not used. *)
Definition fetch_candles (self : OKXSpotCandles)
    (start_time end_time : option Z) (limit : option Z) : io ndarray :=
  params ← lift (fetch_candles_params self start_time end_time);
  candles ← execute_request
    {| url := candles_url;
       method := None;
       throttler_limit_id := CONSTANTS.(CANDLES_ENDPOINT);
       params := Some params;
       data := None;
       headers := None |};
  arr ← lift (fetch_candles_arr candles);
  lift (np_array_astype_float float_of_str (Some arr)).

Definition ws_subscription_payload (self : OKXSpotCandles)
    : result pyval :=
  native ← intervals_getitem CONSTANTS.(INTERVALS) self.(interval);
  let candle_args :=
    VList [VDict [("channel", VStr (String.append "candle" native));
                  ("instId", VStr self.(_ex_trading_pair))]] in
  Ok (VDict [("op", VStr "subscribe"); ("args", candle_args)]).

(** Returns a dict for a frame that has a ["data"] entry and falls off
    the end, returning [None], for any other. *)
Definition _parse_websocket_message (data : pyval)
    : result (option pydict) :=
  let candles_row_dict : pydict := [] in
  match data with
  | VNone => Ok None
  | _ =>
      has_data ← py_contains "data" data;
      if has_data : bool then
        rows ← getitem_str data "data";
        candles ← getitem_int rows 0;
        c0 ← getitem_int candles 0;
        ts ← ensure_timestamp_in_seconds c0;
        let candles_row_dict :=
          dict_set candles_row_dict "timestamp" (VInt ts) in
        c1 ← getitem_int candles 1;
        let candles_row_dict := dict_set candles_row_dict "open" c1 in
        c2 ← getitem_int candles 2;
        let candles_row_dict := dict_set candles_row_dict "high" c2 in
        c3 ← getitem_int candles 3;
        let candles_row_dict := dict_set candles_row_dict "low" c3 in
        c4 ← getitem_int candles 4;
        let candles_row_dict := dict_set candles_row_dict "close" c4 in
        c5 ← getitem_int candles 5;
        let candles_row_dict := dict_set candles_row_dict "volume" c5 in
        c6 ← getitem_int candles 6;
        let candles_row_dict :=
          dict_set candles_row_dict "quote_asset_volume" c6 in
        let candles_row_dict :=
          dict_set candles_row_dict "n_trades" (VFloat 0) in
        let candles_row_dict :=
          dict_set candles_row_dict "taker_buy_base_volume" (VFloat 0) in
        let candles_row_dict :=
          dict_set candles_row_dict "taker_buy_quote_volume" (VFloat 0) in
        Ok (Some candles_row_dict)
      else Ok None
  end.

End Adapter.

End OKX.

(** ** The class loggers *)

Section Logger.

(** Python's [logging]: the type of loggers and [logging.getLogger]. *)
Variable Logger : Type.
Variable getLogger : string -> Logger.
(** The [__name__] of the module. *)
Variable module_name : string.

(** [logger] of either class.  The class attribute [_logger] is passed in
    and handed back beside the logger returned. *)
Definition logger (_logger : option Logger) : Logger * option Logger :=
  match _logger with
  | None => let created := getLogger module_name in (created, Some created)
  | Some cached => (cached, Some cached)
  end.

End Logger.

(** ** Vocabulary of the properties *)

(** The timestamp of a candle row: its first cell. *)
Definition row_timestamp (row : list pyval) : option Z :=
  match row with
  | VInt ts :: _ => Some ts
  | _ => None
  end.

Definition row_timestamps (rows : list (list pyval)) : option (list Z) :=
  mapM row_timestamp rows.

Fixpoint strictly_ascending (ts : list Z) : bool :=
  match ts with
  | a :: ts' =>
      match ts' with
      | b :: _ => (a <? b) && strictly_ascending ts'
      | [] => true
      end
  | [] => true
  end.

Fixpoint strictly_descending (ts : list Z) : bool :=
  match ts with
  | a :: ts' =>
      match ts' with
      | b :: _ => (b <? a) && strictly_descending ts'
      | [] => true
      end
  | [] => true
  end.

Definition ascending_by_timestamp (rows : list (list pyval)) : bool :=
  match row_timestamps rows with
  | Some ts => strictly_ascending ts
  | None => false
  end.

(** Every row carries a timestamp before [end_time]. *)
Definition rows_before (end_time : Z) (rows : list (list pyval)) : bool :=
  forallb (fun row => match row_timestamp row with
                      | Some ts => ts <? end_time
                      | None => false
                      end) rows.

(** The ten cells of a row, in the order of the candle record:
    timestamp, open, high, low, close, volume, quote volume, trade count,
    taker-buy base volume, taker-buy quote volume. *)
Definition candle_row (ts : Z) (open high low close volume quote_volume
    trade_count taker_base taker_quote : pyval) : list pyval :=
  [VInt ts; open; high; low; close; volume; quote_volume; trade_count;
   taker_base; taker_quote].

(** The request Hyperliquid's [fetch_candles] is to send for the native
    interval [native]: a candle snapshot for the coin, with the entries
    [bounds] after the interval and the coin. *)
Definition hl_snapshot_request (CONSTANTS : Hyperliquid.constants)
    (self : Hyperliquid.HyperliquidPerpetualCandles) (native : string)
    (bounds : pydict) : request :=
  {| url := CONSTANTS.(Hyperliquid.REST_URL);
     method := Some "POST";
     throttler_limit_id := CONSTANTS.(Hyperliquid.REST_URL);
     params := None;
     data :=
       Some (VDict [("type", VStr "candleSnapshot");
                    ("req",
                     VDict ([("interval", VStr native);
                             ("coin", VStr self.(Hyperliquid._base_asset))]
                            ++ bounds)%list)]);
     headers := Some [("Content-Type", VStr "application/json")] |}.

(** The request OKX's [fetch_candles] is to send for the native interval
    [native], with the entries [bounds] after the instrument and the
    bar. *)
Definition okx_history_request (CONSTANTS : OKX.constants)
    (self : OKX.OKXSpotCandles) (native : string) (bounds : pydict)
    : request :=
  {| url := String.append CONSTANTS.(OKX.REST_URL)
              CONSTANTS.(OKX.CANDLES_ENDPOINT);
     method := None;
     throttler_limit_id := CONSTANTS.(OKX.CANDLES_ENDPOINT);
     params := Some ([("instId", VStr self.(OKX._ex_trading_pair));
                      ("bar", VStr native)] ++ bounds)%list;
     data := None;
     headers := None |}.

(** The [before] entry of an OKX request: present for a start time other
    than [None] and [0]. *)
Definition okx_before (start_time : option Z) : pydict :=
  match start_time with
  | Some s => if s =? 0 then [] else [("before", VInt (s * 1000))]
  | None => []
  end.

(** The health-check requests of the two adapters. *)
Definition hl_health_request (CONSTANTS : Hyperliquid.constants) : request :=
  {| url := CONSTANTS.(Hyperliquid.REST_URL);
     method := Some "POST";
     throttler_limit_id := CONSTANTS.(Hyperliquid.REST_URL);
     params := None;
     data := Some CONSTANTS.(Hyperliquid.HEALTH_CHECK_PAYLOAD);
     headers := None |}.

Definition okx_health_request (CONSTANTS : OKX.constants) : request :=
  {| url := String.append CONSTANTS.(OKX.REST_URL)
              CONSTANTS.(OKX.HEALTH_CHECK_ENDPOINT);
     method := None;
     throttler_limit_id := CONSTANTS.(OKX.HEALTH_CHECK_ENDPOINT);
     params := None;
     data := None;
     headers := None |}.

(** The dict a stream parser returns, written by the order of its keys. *)
Definition stream_dict (k1 k2 k3 k4 k5 k6 k7 k8 k9 k10 : string)
    (v1 v2 v3 v4 v5 v6 v7 v8 v9 v10 : pyval) : pydict :=
  [(k1, v1); (k2, v2); (k3, v3); (k4, v4); (k5, v5); (k6, v6); (k7, v7);
   (k8, v8); (k9, v9); (k10, v10)].


(** A row carries a timestamp before [end_time]. *)
Definition row_before (end_time : Z) (row : list pyval) : bool :=
  match row_timestamp row with
  | Some ts => ts <? end_time
  | None => false
  end.

(** The requests a coroutine hands over, in order, when it is run against
    [rest_assistant]. *)
Fixpoint requests {A : Type} (rest_assistant : request -> result pyval)
    (m : io A) : list request :=
  match m with
  | ExecuteRequest rq k =>
      rq :: match rest_assistant rq with
            | Ok body => requests rest_assistant (k body)
            | Err _ => []
            end
  | _ => []
  end.

(** The values of a stream dict read by key in the order of the candle
    row. *)
Definition stream_row (d : pydict) : option (list pyval) :=
  mapM (dict_get d)
    ["timestamp"; "open"; "high"; "low"; "close"; "volume";
     "quote_asset_volume"; "n_trades"; "taker_buy_base_volume";
     "taker_buy_quote_volume"].

(** The loggers that [n] calls of [logger] return, one after the other,
    and the class attribute after the last; the call that has [k] more
    calls after it finds [getLogger k] as [logging.getLogger]. *)
Fixpoint logger_calls {Logger : Type} (getLogger : nat -> string -> Logger)
    (module_name : string) (n : nat) (_logger : option Logger)
    : list Logger * option Logger :=
  match n with
  | O => ([], _logger)
  | S n' =>
      let '(l, _logger') := logger Logger (getLogger n') module_name _logger in
      let '(ls, _logger'') :=
        logger_calls getLogger module_name n' _logger' in
      (l :: ls, _logger'')
  end.

Section WireFormat.

Variable ensure_timestamp_in_seconds : pyval -> result Z.
Variable float_of_str : string -> option npfloat.

(** The times of the rows of a response, in the order they were sent;
    [stamp] reads the timestamp field of a row. *)
Definition wire_times (stamp : pyval -> result pyval) (rows : list pyval)
    : result (list Z) :=
  comprehension_all
    (fun row => t ← stamp row; ensure_timestamp_in_seconds t) rows.

Definition accepted_timestamp (t : pyval) : bool :=
  match ensure_timestamp_in_seconds t with
  | Ok _ => true
  | Err _ => false
  end.

Definition numeric (v : pyval) : bool :=
  match np_float float_of_str v with
  | Ok _ => true
  | Err _ => false
  end.

(** A Hyperliquid candle: an object with the time ["t"] and the fields
    ["o"], ["h"], ["l"], ["c"], ["v"], ["n"]. *)
Definition hl_candle_ok (row : pyval) : bool :=
  match row with
  | VDict d =>
      match dict_get d "t" with
      | Some t => accepted_timestamp t
      | None => false
      end
      && forallb (fun k => match dict_get d k with
                           | Some v => numeric v
                           | None => false
                           end) ["o"; "h"; "l"; "c"; "v"; "n"]
  | _ => false
  end.

(** A Hyperliquid candle snapshot: an array of candles. *)
Definition hl_response_ok (body : pyval) : bool :=
  match body with
  | VList rows => forallb hl_candle_ok rows
  | _ => false
  end.

(** An OKX candle: an array that starts with the time, open, high, low,
    close, volume and quote volume. *)
Definition okx_candle_ok (row : pyval) : bool :=
  match row with
  | VList (r0 :: r1 :: r2 :: r3 :: r4 :: r5 :: r6 :: _) =>
      accepted_timestamp r0 && forallb numeric [r1; r2; r3; r4; r5; r6]
  | _ => false
  end.

(** An OKX candle response: an object whose ["data"] is an array of
    candles. *)
Definition okx_response_ok (body : pyval) : bool :=
  match body with
  | VDict d =>
      match dict_get d "data" with
      | Some (VList rows) => forallb okx_candle_ok rows
      | _ => false
      end
  | _ => false
  end.

(** What a Hyperliquid candle supplies: its time in seconds and the
    fields open, high, low, close, volume and number of trades. *)
Definition hl_candle_fields (candle : pyval) (ts : Z)
    (o h l c v n : pyval) : Prop :=
  (exists t, getitem_str candle "t" = Ok t /\
             ensure_timestamp_in_seconds t = Ok ts) /\
  getitem_str candle "o" = Ok o /\ getitem_str candle "h" = Ok h /\
  getitem_str candle "l" = Ok l /\ getitem_str candle "c" = Ok c /\
  getitem_str candle "v" = Ok v /\ getitem_str candle "n" = Ok n.

(** What an OKX candle supplies: its time in seconds and the cells
    open, high, low, close, volume and quote volume. *)
Definition okx_candle_fields (candle : pyval) (ts : Z)
    (o h l c vol volCcy : pyval) : Prop :=
  (exists t, getitem_int candle 0 = Ok t /\
             ensure_timestamp_in_seconds t = Ok ts) /\
  getitem_int candle 1 = Ok o /\ getitem_int candle 2 = Ok h /\
  getitem_int candle 3 = Ok l /\ getitem_int candle 4 = Ok c /\
  getitem_int candle 5 = Ok vol /\ getitem_int candle 6 = Ok volCcy.

End WireFormat.

(** ** Sample data

    The constants modules are not among the sources; these samples stand
    in for them in the worked examples below. *)

Module Sample.

Definition hl_constants : Hyperliquid.constants :=
  {| Hyperliquid.REST_URL := "https://api.hyperliquid.xyz/info";
     Hyperliquid.WSS_URL := "wss://api.hyperliquid.xyz/ws";
     Hyperliquid.CANDLES_ENDPOINT := "candleSnapshot";
     Hyperliquid.MAX_RESULTS_PER_CANDLESTICK_REST_REQUEST := 500;
     Hyperliquid.INTERVALS := {[ "1m" := "1m"; "1h" := "1h" ]};
     Hyperliquid.HEALTH_CHECK_PAYLOAD := VDict [("type", VStr "meta")] |}.

Definition okx_constants : OKX.constants :=
  {| OKX.REST_URL := "https://www.okx.com";
     OKX.WSS_URL := "wss://ws.okx.com:8443/ws/v5/business";
     OKX.HEALTH_CHECK_ENDPOINT := "/api/v5/public/time";
     OKX.CANDLES_ENDPOINT := "/api/v5/market/history-candles";
     OKX.MAX_RESULTS_PER_CANDLESTICK_REST_REQUEST := 100;
     OKX.INTERVALS := {[ "1m" := "1m"; "1h" := "1H" ]} |}.

Definition hl_self : Hyperliquid.HyperliquidPerpetualCandles :=
  {| Hyperliquid._trading_pair := "BTC-USD";
     Hyperliquid.interval := "1m";
     Hyperliquid.interval_in_seconds := 60;
     Hyperliquid._base_asset := "BTC";
     Hyperliquid._tokens := VNone |}.

Definition okx_self : OKX.OKXSpotCandles :=
  {| OKX._trading_pair := "BTC-USDT";
     OKX._ex_trading_pair := "BTC-USDT";
     OKX.interval := "1h";
     OKX.interval_in_seconds := 3600 |}.

(** The same feeds asked for an interval their tables do not list. *)
Definition hl_self_7m : Hyperliquid.HyperliquidPerpetualCandles :=
  {| Hyperliquid._trading_pair := "BTC-USD";
     Hyperliquid.interval := "7m";
     Hyperliquid.interval_in_seconds := 420;
     Hyperliquid._base_asset := "BTC";
     Hyperliquid._tokens := VNone |}.

Definition okx_self_7m : OKX.OKXSpotCandles :=
  {| OKX._trading_pair := "BTC-USDT";
     OKX._ex_trading_pair := "BTC-USDT";
     OKX.interval := "7m";
     OKX.interval_in_seconds := 420 |}.

Definition hl_candle (t n : Z) (o h l c v : string) : pyval :=
  VDict [("t", VInt t); ("T", VInt (t + 59999)); ("s", VStr "BTC");
         ("i", VStr "1m"); ("o", VStr o); ("c", VStr c); ("h", VStr h);
         ("l", VStr l); ("v", VStr v); ("n", VInt n)].

(** Two one-minute candles, oldest first, opening at 1718895660 s and
    1718895720 s. *)
Definition hl_response : pyval :=
  VList [hl_candle 1718895660000 754 "3512.6" "3514.1" "3510.4" "3513.8"
           "271.93";
         hl_candle 1718895720000 531 "3513.8" "3515.0" "3512.2" "3514.7"
           "198.05"].

Definition okx_candle (ts o h l c vol volCcy : string) : pyval :=
  VList [VStr ts; VStr o; VStr h; VStr l; VStr c; VStr vol; VStr volCcy;
         VStr volCcy; VStr "1"].

(** Two one-hour candles, newest first, opening at 1718899200 s and
    1718895600 s. *)
Definition okx_response : pyval :=
  VDict [("code", VStr "0"); ("msg", VStr "");
         ("data",
          VList [okx_candle "1718899200000" "64850.1" "64990.0" "64800.5"
                   "64910.2" "12.5" "811000.75";
                 okx_candle "1718895600000" "64700.0" "64900.3" "64650.9"
                   "64850.1" "15.25" "988000.5"])].

(** Frames of the two websocket feeds. *)
Definition hl_candle_frame : pyval :=
  VDict [("channel", VStr "candle");
         ("data", hl_candle 1718895660000 754 "3512.6" "3514.1" "3510.4"
                    "3513.8" "271.93")].

Definition hl_subscription_ack : pyval :=
  VDict [("channel", VStr "subscriptionResponse");
         ("data", VDict [("method", VStr "subscribe")])].

Definition okx_candle_frame : pyval :=
  VDict [("arg", VDict [("channel", VStr "candle1H");
                        ("instId", VStr "BTC-USDT")]);
         ("data",
          VList [okx_candle "1718899200000" "64850.1" "64990.0" "64800.5"
                   "64910.2" "12.5" "811000.75"])].

Definition okx_subscription_ack : pyval :=
  VDict [("event", VStr "subscribe");
         ("arg", VDict [("channel", VStr "candle1H");
                        ("instId", VStr "BTC-USDT")])].

(** A push on the trades channel: its ["data"] holds objects. *)
Definition okx_trades_frame : pyval :=
  VDict [("arg", VDict [("channel", VStr "trades");
                        ("instId", VStr "BTC-USDT")]);
         ("data",
          VList [VDict [("instId", VStr "BTC-USDT");
                        ("tradeId", VStr "130639474");
                        ("px", VStr "64910.2"); ("sz", VStr "0.01");
                        ("side", VStr "buy");
                        ("ts", VStr "1718899260123")]])].



(** An assistant that answers every request with [body]. *)
Definition answering (body : pyval) : request -> result pyval :=
  fun _ => Ok body.

End Sample.

(** * Properties *)

(** ** The adapters at work *)

Example hl_parse_rest_candles_sample :
  Hyperliquid._parse_rest_candles
    (CandlesBase.ensure_timestamp_in_seconds CandlesBase.Milliseconds)
    Sample.hl_response (Some 1718895800)
  = Ok (Some [candle_row 1718895660 (VStr "3512.6") (VStr "3514.1")
                (VStr "3510.4") (VStr "3513.8") (VStr "271.93") (VFloat 0)
                (VInt 754) (VFloat 0) (VFloat 0);
              candle_row 1718895720 (VStr "3513.8") (VStr "3515.0")
                (VStr "3512.2") (VStr "3514.7") (VStr "198.05") (VFloat 0)
                (VInt 531) (VFloat 0) (VFloat 0)]).
Proof. reflexivity. Qed.

Example okx_fetch_candles_arr_sample :
  OKX.fetch_candles_arr
    (CandlesBase.ensure_timestamp_in_seconds CandlesBase.Milliseconds)
    Sample.okx_response
  = Ok [candle_row 1718895600 (VStr "64700.0") (VStr "64900.3")
          (VStr "64650.9") (VStr "64850.1") (VStr "15.25")
          (VStr "988000.5") (VFloat 0) (VFloat 0) (VFloat 0);
        candle_row 1718899200 (VStr "64850.1") (VStr "64990.0")
          (VStr "64800.5") (VStr "64910.2") (VStr "12.5")
          (VStr "811000.75") (VFloat 0) (VFloat 0) (VFloat 0)].
Proof. reflexivity. Qed.

Example okx_parse_websocket_message_sample :
  OKX._parse_websocket_message
    (CandlesBase.ensure_timestamp_in_seconds CandlesBase.Milliseconds)
    Sample.okx_candle_frame
  = Ok (Some (stream_dict "timestamp" "open" "high" "low" "close" "volume"
                "quote_asset_volume" "n_trades" "taker_buy_base_volume"
                "taker_buy_quote_volume"
                (VInt 1718899200) (VStr "64850.1") (VStr "64990.0")
                (VStr "64800.5") (VStr "64910.2") (VStr "12.5")
                (VStr "811000.75") (VFloat 0) (VFloat 0) (VFloat 0))).
Proof. reflexivity. Qed.

Example hl_fetch_candles_sample :
  run (Sample.answering Sample.hl_response)
    (Hyperliquid.fetch_candles Sample.hl_constants
       (CandlesBase.ensure_timestamp_in_seconds CandlesBase.Milliseconds)
       float_of_decimal
       Sample.hl_self (Some 1718895600) (Some 1718895700))
  = Ok (NdRows [[Fin (inject_Z 1718895660); Fin (Qmake 35126 10);
                 Fin (Qmake 35141 10); Fin (Qmake 35104 10);
                 Fin (Qmake 35138 10); Fin (Qmake 27193 100); Fin 0;
                 Fin (inject_Z 754); Fin 0; Fin 0]]).
Proof. vm_compute. reflexivity. Qed.

(** ** Fallible computations *)

Lemma result_bind_Ok {A B : Type} (f : A -> result B) (m : result A) (b : B) :
  m ≫= f = Ok b -> exists a, m = Ok a /\ f a = Ok b.
Proof.
  destruct m as [a|e]; cbn; intros H; [eauto | discriminate].
Qed.

(** Splits a successful chain of binds in a hypothesis into its steps. *)
Ltac bind_inv H :=
  let a := fresh "x" in
  let Ha := fresh "Hx" in
  apply result_bind_Ok in H; destruct H as (a & Ha & H).

Ltac binds_inv H := repeat bind_inv H.

(** The same for one step, naming the value and the equation. *)
Tactic Notation "bind_step" hyp(H) "as" ident(a) ident(Ha) :=
  apply result_bind_Ok in H; destruct H as (a & Ha & H).

(** ** Comprehensions *)

Section Comprehension.

Context {A B : Type}.
Variable cond : A -> result bool.
Variable elem : A -> result B.

(** The output lists, in order, the images of the rows that pass the
    [if] clause. *)
Lemma comprehension_Ok (rows : list A) (out : list B) :
  comprehension cond elem rows = Ok out ->
  exists kept,
    sublist kept rows /\
    Forall2 (fun row x => cond row = Ok true /\ elem row = Ok x) kept out.
Proof.
  revert out. induction rows as [|row rows IH]; intros out H.
  - cbn in H. injection H as <-. exists []. split; constructor.
  - cbn [comprehension] in H. bind_inv H. destruct x.
    + binds_inv H. injection H as <-.
      destruct (IH _ Hx1) as (kept & Hsub & Hall).
      exists (row :: kept). split; [by constructor|].
      constructor; auto.
    + destruct (IH _ H) as (kept & Hsub & Hall).
      exists kept. split; [by constructor|done].
Qed.

(** A comprehension succeeds when its clauses succeed on every row. *)
Lemma comprehension_total (rows : list A) :
  Forall (fun row => (exists b, cond row = Ok b) /\
                     (exists x, elem row = Ok x)) rows ->
  exists out, comprehension cond elem rows = Ok out.
Proof.
  induction 1 as [|row rows [[b Hb] [x Hx]] _ [out IH]]; cbn.
  - eauto.
  - rewrite Hb. cbn. destruct b.
    + rewrite Hx. cbn. rewrite IH. cbn. eauto.
    + eauto.
Qed.

End Comprehension.

Lemma comprehension_all_Ok {A B : Type} (elem : A -> result B)
    (rows : list A) (out : list B) :
  comprehension_all elem rows = Ok out ->
  Forall2 (fun row x => elem row = Ok x) rows out.
Proof.
  unfold comprehension_all. revert out.
  induction rows as [|row rows IH]; intros out H.
  - cbn in H. injection H as <-. constructor.
  - cbn in H. binds_inv H. injection H as <-. constructor; auto.
Qed.

Lemma comprehension_all_total {A B : Type} (elem : A -> result B)
    (rows : list A) :
  Forall (fun row => exists x, elem row = Ok x) rows ->
  exists out, comprehension_all elem rows = Ok out.
Proof.
  intros H. apply comprehension_total.
  eapply Forall_impl; [exact H|]. cbn. eauto.
Qed.

(** ** What the row builders return *)

Section Rows.

Variable ensure_timestamp_in_seconds : pyval -> result Z.

Lemma hl_rest_row_Ok (row : pyval) (cells : list pyval) :
  Hyperliquid.rest_row ensure_timestamp_in_seconds row = Ok cells ->
  exists t ts o h l c v n,
    getitem_str row "t" = Ok t /\ ensure_timestamp_in_seconds t = Ok ts /\
    getitem_str row "o" = Ok o /\ getitem_str row "h" = Ok h /\
    getitem_str row "l" = Ok l /\ getitem_str row "c" = Ok c /\
    getitem_str row "v" = Ok v /\ getitem_str row "n" = Ok n /\
    cells = candle_row ts o h l c v (VFloat 0) n (VFloat 0) (VFloat 0).
Proof.
  unfold Hyperliquid.rest_row. intros H. binds_inv H.
  injection H as <-. repeat eexists; eauto.
Qed.

Lemma hl_rest_row_kept_true (end_time : option Z) (row : pyval) :
  Hyperliquid.rest_row_kept ensure_timestamp_in_seconds end_time row
    = Ok true ->
  exists t ts e,
    getitem_str row "t" = Ok t /\ ensure_timestamp_in_seconds t = Ok ts /\
    end_time = Some e /\ ts < e.
Proof.
  unfold Hyperliquid.rest_row_kept. intros H. binds_inv H.
  destruct end_time as [e|]; cbn in H; [|discriminate].
  injection H as H. apply Z.ltb_lt in H. eauto 10.
Qed.

Lemma hl_parse_rest_candles_Some (body : pyval) (end_time : option Z)
    (arr : list (list pyval)) :
  Hyperliquid._parse_rest_candles ensure_timestamp_in_seconds body end_time
    = Ok (Some arr) ->
  exists rows,
    py_iter body = Ok rows /\
    comprehension
      (Hyperliquid.rest_row_kept ensure_timestamp_in_seconds end_time)
      (Hyperliquid.rest_row ensure_timestamp_in_seconds) rows = Ok arr.
Proof.
  unfold Hyperliquid._parse_rest_candles. intros H. bind_inv H.
  destruct (0 <? x); [|discriminate].
  binds_inv H. injection H as <-. eauto.
Qed.

Lemma okx_rest_row_Ok (row : pyval) (cells : list pyval) :
  OKX.rest_row ensure_timestamp_in_seconds row = Ok cells ->
  exists r0 ts r1 r2 r3 r4 r5 r6,
    getitem_int row 0 = Ok r0 /\ ensure_timestamp_in_seconds r0 = Ok ts /\
    getitem_int row 1 = Ok r1 /\ getitem_int row 2 = Ok r2 /\
    getitem_int row 3 = Ok r3 /\ getitem_int row 4 = Ok r4 /\
    getitem_int row 5 = Ok r5 /\ getitem_int row 6 = Ok r6 /\
    cells = candle_row ts r1 r2 r3 r4 r5 r6 (VFloat 0) (VFloat 0) (VFloat 0).
Proof.
  unfold OKX.rest_row. intros H. binds_inv H.
  injection H as <-. repeat eexists; eauto.
Qed.

Lemma okx_fetch_candles_arr_Ok (candles : pyval)
    (arr : list (list pyval)) :
  OKX.fetch_candles_arr ensure_timestamp_in_seconds candles = Ok arr ->
  exists body rows,
    getitem_str candles "data" = Ok body /\ py_iter body = Ok rows /\
    Forall2 (fun row cells =>
               OKX.rest_row ensure_timestamp_in_seconds row = Ok cells)
      rows (reverse arr).
Proof.
  unfold OKX.fetch_candles_arr. intros H. binds_inv H.
  injection H as <-. rewrite reverse_involutive.
  exists x, x0. auto using comprehension_all_Ok.
Qed.

End Rows.

(** ** Rows and the end bound *)

Lemma rows_before_Forall (end_time : Z) (rows : list (list pyval)) :
  Forall (fun row => exists ts, row_timestamp row = Some ts /\ ts < end_time)
    rows ->
  rows_before end_time rows = true.
Proof.
  unfold rows_before. induction 1 as [|row rows (ts & Hts & Hlt) _ IH]; cbn.
  - reflexivity.
  - rewrite Hts, IH. apply Z.ltb_lt in Hlt. by rewrite Hlt.
Qed.

(** C1 (as amended).  When an [end_time] is supplied, every row that
    Hyperliquid's [_parse_rest_candles] returns has a timestamp strictly
    before it.  OKX's adapter does not filter the rows it parses: it sends
    [end_time * 1000] as the [after] parameter of the request and returns
    one row for every row of the response. *)
Theorem rows_before_end_time
    (ensure_timestamp_in_seconds : pyval -> result Z)
    (float_of_str : string -> option npfloat) (CONSTANTS : OKX.constants) :
  (forall body end_time arr,
     Hyperliquid._parse_rest_candles ensure_timestamp_in_seconds body
       (Some end_time) = Ok (Some arr) ->
     rows_before end_time arr = true) /\
  (forall self start_time end_time limit native,
     CONSTANTS.(OKX.INTERVALS) !! self.(OKX.interval) = Some native ->
     exists rq p,
       sent_request
         (OKX.fetch_candles CONSTANTS ensure_timestamp_in_seconds
            float_of_str self start_time (Some end_time) limit) = Some rq /\
       rq.(params) = Some p /\
       dict_get p "after" = Some (VInt (end_time * 1000))) /\
  (forall candles rows arr,
     getitem_str candles "data" = Ok (VList rows) ->
     OKX.fetch_candles_arr ensure_timestamp_in_seconds candles = Ok arr ->
     length arr = length rows).
Proof.
  split; [|split].
  - intros body end_time arr H.
    apply hl_parse_rest_candles_Some in H. destruct H as (rows & _ & H).
    apply comprehension_Ok in H. destruct H as (kept & _ & H).
    apply rows_before_Forall.
    induction H as [|row cells kept arr [Hkept Hrow] _ IH]; constructor; auto.
    apply hl_rest_row_kept_true in Hkept.
    destruct Hkept as (t & ts & e & Ht & Hts & [= <-] & Hlt).
    apply hl_rest_row_Ok in Hrow.
    destruct Hrow as (t' & ts' & o & h & l & c & v & n & Ht' & Hts' & Hrow).
    rewrite Ht in Ht'. injection Ht' as <-.
    rewrite Hts in Hts'. injection Hts' as <-.
    exists ts. split; [|done].
    destruct Hrow as (_ & _ & _ & _ & _ & _ & ->). reflexivity.
  - intros self start_time end_time limit native Hnative.
    unfold OKX.fetch_candles, OKX.fetch_candles_params, intervals_getitem.
    rewrite Hnative.
    destruct start_time as [s|]; cbn; [destruct (s =? 0); cbn|];
      do 2 eexists; repeat split; reflexivity.
  - intros candles rows arr Hdata H.
    apply okx_fetch_candles_arr_Ok in H.
    destruct H as (body & rows' & Hbody & Hrows & H).
    rewrite Hdata in Hbody. injection Hbody as <-.
    cbn in Hrows. injection Hrows as <-.
    apply Forall2_length in H. rewrite length_reverse in H. by symmetry.
Qed.

Lemma rows_before_end_time_witness :
  Hyperliquid._parse_rest_candles
    (CandlesBase.ensure_timestamp_in_seconds CandlesBase.Milliseconds)
    Sample.hl_response (Some 1718895720)
  = Ok (Some [candle_row 1718895660 (VStr "3512.6") (VStr "3514.1")
                (VStr "3510.4") (VStr "3513.8") (VStr "271.93") (VFloat 0)
                (VInt 754) (VFloat 0) (VFloat 0)]) /\
  rows_before 1718895720
    [candle_row 1718895660 (VStr "3512.6") (VStr "3514.1") (VStr "3510.4")
       (VStr "3513.8") (VStr "271.93") (VFloat 0) (VInt 754) (VFloat 0)
       (VFloat 0)] = true.
Proof.
  assert (Hparse :
    Hyperliquid._parse_rest_candles
      (CandlesBase.ensure_timestamp_in_seconds CandlesBase.Milliseconds)
      Sample.hl_response (Some 1718895720)
    = Ok (Some [candle_row 1718895660 (VStr "3512.6") (VStr "3514.1")
                  (VStr "3510.4") (VStr "3513.8") (VStr "271.93") (VFloat 0)
                  (VInt 754) (VFloat 0) (VFloat 0)]))
    by (vm_compute; reflexivity).
  split; [exact Hparse|].
  exact (proj1 (rows_before_end_time
              (CandlesBase.ensure_timestamp_in_seconds CandlesBase.Milliseconds)
                  float_of_decimal
                  Sample.okx_constants) _ _ _ Hparse).
Defined.

(** C1, as first stated, fails on OKX: asked for candles before
    1718895600 s, the adapter returns the two rows of the response, whose
    timestamps are 1718895600 s and 1718899200 s. *)
Lemma okx_rows_not_before_end_time :
  exists arr,
    OKX.fetch_candles_arr
      (CandlesBase.ensure_timestamp_in_seconds CandlesBase.Milliseconds)
      Sample.okx_response = Ok arr /\
    run (Sample.answering Sample.okx_response)
      (OKX.fetch_candles Sample.okx_constants
         (CandlesBase.ensure_timestamp_in_seconds CandlesBase.Milliseconds)
         float_of_decimal
         Sample.okx_self None (Some 1718895600) None)
    = np_array_astype_float float_of_decimal (Some arr) /\
    row_timestamps arr = Some [1718895600; 1718899200] /\
    rows_before 1718895600 arr = false.
Proof.
  eexists. split; [vm_compute; reflexivity|].
  split; [vm_compute; reflexivity|].
  split; vm_compute; reflexivity.
Qed.

(** ** Order of the rows *)

Lemma strictly_ascending_spec (ts : list Z) :
  strictly_ascending ts = true <-> Sorted Z.lt ts.
Proof.
  induction ts as [|a ts IH]; [split; auto|].
  destruct ts as [|b ts].
  - split; auto.
  - change (strictly_ascending (a :: b :: ts))
      with ((a <? b) && strictly_ascending (b :: ts)).
    rewrite andb_true_iff, Z.ltb_lt, IH. split.
    + intros [Hab Hs]. auto.
    + intros H. inversion H as [|? ? Hs Hhd]; subst.
      inversion Hhd; subst. auto.
Qed.

Lemma StronglySorted_sublist {A : Type} (R : relation A) (l k : list A) :
  sublist l k -> StronglySorted R k -> StronglySorted R l.
Proof.
  induction 1 as [|x l k Hsub IH|x l k Hsub IH]; intros Hk.
  - constructor.
  - apply StronglySorted_inv in Hk as [Hk Hx]. constructor; [auto|].
    rewrite Forall_forall in Hx |- *. intros y Hy. apply Hx.
    by eapply elem_of_sublist.
  - apply StronglySorted_inv in Hk as [Hk _]. auto.
Qed.

Lemma strictly_ascending_sublist (ts ts' : list Z) :
  sublist ts' ts -> strictly_ascending ts = true ->
  strictly_ascending ts' = true.
Proof.
  rewrite !strictly_ascending_spec. intros Hsub Hs.
  apply StronglySorted_Sorted.
  apply (StronglySorted_sublist _ _ _ Hsub).
  apply Sorted_StronglySorted; [|done]. intros x y z. lia.
Qed.

Lemma sublist_Forall2_l {A B : Type} (P : A -> B -> Prop)
    (l l' : list A) (k : list B) :
  Forall2 P l k -> sublist l' l ->
  exists k', sublist k' k /\ Forall2 P l' k'.
Proof.
  intros H. revert l'.
  induction H as [|x y l k Hxy _ IH]; intros l' Hsub.
  - apply sublist_nil_r in Hsub as ->. exists []. split; constructor.
  - apply sublist_cons_r in Hsub as [Hsub|(l'' & -> & Hsub)].
    + destruct (IH _ Hsub) as (k' & Hk' & HP).
      exists k'. split; [by constructor|done].
    + destruct (IH _ Hsub) as (k' & Hk' & HP).
      exists (y :: k'). split; [by constructor|by constructor].
Qed.

Lemma row_timestamps_Forall2 (rows : list (list pyval)) (ts : list Z) :
  Forall2 (fun row t => row_timestamp row = Some t) rows ts ->
  row_timestamps rows = Some ts.
Proof. intros H. by apply mapM_Some. Qed.

Lemma strictly_descending_spec (ts : list Z) :
  strictly_descending ts = true <-> Sorted (flip Z.lt) ts.
Proof.
  induction ts as [|a ts IH]; [split; auto|].
  destruct ts as [|b ts].
  - split; auto.
  - change (strictly_descending (a :: b :: ts))
      with ((b <? a) && strictly_descending (b :: ts)).
    rewrite andb_true_iff, Z.ltb_lt, IH. split.
    + intros [Hab Hs]. auto.
    + intros H. inversion H as [|? ? Hs Hhd]; subst.
      inversion Hhd; subst. auto.
Qed.

Lemma strictly_descending_reverse (ts : list Z) :
  strictly_descending ts = true -> strictly_ascending (reverse ts) = true.
Proof.
  rewrite strictly_descending_spec, strictly_ascending_spec.
  apply (Sorted_reverse (flip Z.lt)).
Qed.

(** Two lists related element by element to a common third one are
    related to each other. *)
Lemma Forall2_join {A B C : Type} (P : A -> B -> Prop) (Q : A -> C -> Prop)
    (R : B -> C -> Prop) (l : list A) (k : list B) (m : list C) :
  (forall x y z, P x y -> Q x z -> R y z) ->
  Forall2 P l k -> Forall2 Q l m -> Forall2 R k m.
Proof.
  intros HR HP. revert m.
  induction HP as [|x y l k Hxy _ IH]; intros m HQ; inversion HQ; subst;
    constructor; eauto.
Qed.

Section Order.

Variable ensure_timestamp_in_seconds : pyval -> result Z.

Lemma hl_rest_row_timestamp (row : pyval) (cells : list pyval) (ts : Z) :
  Hyperliquid.rest_row ensure_timestamp_in_seconds row = Ok cells ->
  (t ← getitem_str row "t"; ensure_timestamp_in_seconds t) = Ok ts ->
  row_timestamp cells = Some ts.
Proof.
  intros Hrow Hts. apply hl_rest_row_Ok in Hrow.
  destruct Hrow as (t & ts' & o & h & l & c & v & n & Ht & Hts' & Hrow).
  rewrite Ht in Hts. cbn in Hts. rewrite Hts' in Hts. injection Hts as ->.
  destruct Hrow as (_ & _ & _ & _ & _ & _ & ->). reflexivity.
Qed.

Lemma okx_rest_row_timestamp (row : pyval) (cells : list pyval) (ts : Z) :
  OKX.rest_row ensure_timestamp_in_seconds row = Ok cells ->
  (t ← getitem_int row 0; ensure_timestamp_in_seconds t) = Ok ts ->
  row_timestamp cells = Some ts.
Proof.
  intros Hrow Hts. apply okx_rest_row_Ok in Hrow.
  destruct Hrow as (t & ts' & r1 & r2 & r3 & r4 & r5 & r6 & Ht & Hts' & Hrow).
  rewrite Ht in Hts. cbn in Hts. rewrite Hts' in Hts. injection Hts as ->.
  destruct Hrow as (_ & _ & _ & _ & _ & _ & ->). reflexivity.
Qed.

(** Hyperliquid keeps the order of the wire. *)
Lemma hl_parse_rest_candles_ascending (body : pyval) (rows : list pyval)
    (ts : list Z) (end_time : option Z) (arr : list (list pyval)) :
  py_iter body = Ok rows ->
  wire_times ensure_timestamp_in_seconds
    (fun row => getitem_str row "t") rows = Ok ts ->
  strictly_ascending ts = true ->
  Hyperliquid._parse_rest_candles ensure_timestamp_in_seconds body end_time
    = Ok (Some arr) ->
  ascending_by_timestamp arr = true.
Proof.
  intros Hrows Hts Hasc H.
  apply hl_parse_rest_candles_Some in H. destruct H as (rows' & Hrows' & H).
  rewrite Hrows in Hrows'. injection Hrows' as <-.
  apply comprehension_Ok in H. destruct H as (kept & Hsub & Hkept).
  apply comprehension_all_Ok in Hts.
  destruct (sublist_Forall2_l _ _ _ _ Hts Hsub) as (ts' & Hsub' & Hts').
  unfold ascending_by_timestamp.
  rewrite (row_timestamps_Forall2 arr ts').
  - by eapply strictly_ascending_sublist.
  - eapply Forall2_join; [|exact Hkept|exact Hts'].
    cbn. intros row cells t [_ Hrow] Ht.
    by eapply hl_rest_row_timestamp.
Qed.

(** OKX turns the order of the wire around. *)
Lemma okx_fetch_candles_arr_ascending (candles body : pyval)
    (rows : list pyval) (ts : list Z) (arr : list (list pyval)) :
  getitem_str candles "data" = Ok body ->
  py_iter body = Ok rows ->
  wire_times ensure_timestamp_in_seconds
    (fun row => getitem_int row 0) rows = Ok ts ->
  strictly_descending ts = true ->
  OKX.fetch_candles_arr ensure_timestamp_in_seconds candles = Ok arr ->
  ascending_by_timestamp arr = true.
Proof.
  intros Hbody Hrows Hts Hdesc H.
  apply okx_fetch_candles_arr_Ok in H.
  destruct H as (body' & rows' & Hbody' & Hrows' & H).
  rewrite Hbody in Hbody'. injection Hbody' as <-.
  rewrite Hrows in Hrows'. injection Hrows' as <-.
  apply comprehension_all_Ok in Hts.
  unfold ascending_by_timestamp.
  rewrite (row_timestamps_Forall2 arr (reverse ts)).
  - by apply strictly_descending_reverse.
  - rewrite <- (reverse_involutive arr). apply Forall2_reverse.
    eapply Forall2_join; [|exact H|exact Hts].
    cbn. intros row cells t Hrow Ht.
    by eapply okx_rest_row_timestamp.
Qed.

End Order.

(** ** Well-formed responses are parsed without error *)

Lemma seq_index_lookup {A : Type} (l : list A) (i : nat) (x : A) :
  l !! i = Some x -> seq_index l (Z.of_nat i) = Ok x.
Proof.
  intros H. pose proof (lookup_lt_Some _ _ _ H) as Hlt.
  unfold seq_index.
  destruct (Z.ltb_spec (Z.of_nat i) 0) as [?|_]; [lia|].
  destruct (Z.leb_spec 0 (Z.of_nat i)) as [_|?]; [|lia].
  destruct (Z.ltb_spec (Z.of_nat i) (Z.of_nat (length l))) as [_|?]; [|lia].
  cbn. by rewrite Nat2Z.id, H.
Qed.

Lemma mapM_result_total {A B : Type} (g : A -> result B) (l : list A) :
  Forall (fun x => exists y, g x = Ok y) l -> exists k, mapM g l = Ok k.
Proof.
  induction 1 as [|x l [y Hy] _ [k IH]]; cbn.
  - by eexists.
  - rewrite Hy. cbn. rewrite IH. cbn. by eexists.
Qed.

Section WellFormed.

Variable ensure_timestamp_in_seconds : pyval -> result Z.
Variable float_of_str : string -> option npfloat.

Let castable (cells : list pyval) : Prop :=
  exists floats, mapM (np_float float_of_str) cells = Ok floats.

Lemma numeric_Ok (v : pyval) :
  numeric float_of_str v = true -> exists x, np_float float_of_str v = Ok x.
Proof.
  unfold numeric. destruct (np_float float_of_str v); [eauto|discriminate].
Qed.

Lemma accepted_timestamp_Ok (t : pyval) :
  accepted_timestamp ensure_timestamp_in_seconds t = true ->
  exists ts, ensure_timestamp_in_seconds t = Ok ts.
Proof.
  unfold accepted_timestamp.
  destruct (ensure_timestamp_in_seconds t); [eauto|discriminate].
Qed.

Lemma hl_field_Ok (d : pydict) (k : string) :
  match dict_get d k with
  | Some v => numeric float_of_str v
  | None => false
  end = true ->
  exists v x, dict_get d k = Some v /\ np_float float_of_str v = Ok x.
Proof.
  destruct (dict_get d k) as [v|]; [|discriminate].
  intros [x Hx]%numeric_Ok. eauto.
Qed.

Lemma hl_candle_ok_rest_row (row : pyval) :
  hl_candle_ok ensure_timestamp_in_seconds float_of_str row = true ->
  (exists cells,
     Hyperliquid.rest_row ensure_timestamp_in_seconds row = Ok cells /\
     castable cells) /\
  (forall e, exists keep,
     Hyperliquid.rest_row_kept ensure_timestamp_in_seconds (Some e) row
       = Ok keep).
Proof.
  destruct row as [| | | | | |d]; try discriminate.
  unfold hl_candle_ok. cbn [forallb]. intros H.
  apply andb_prop in H as [Ht H].
  destruct (dict_get d "t") as [t|] eqn:Hd; [|discriminate].
  apply accepted_timestamp_Ok in Ht as [ts Hts].
  repeat (let Hk := fresh "Hk" in apply andb_prop in H as [Hk H]).
  apply hl_field_Ok in Hk as (o & xo & Ho & Hxo).
  apply hl_field_Ok in Hk0 as (h & xh & Hh & Hxh).
  apply hl_field_Ok in Hk1 as (l & xl & Hl & Hxl).
  apply hl_field_Ok in Hk2 as (c & xc & Hc & Hxc).
  apply hl_field_Ok in Hk3 as (v & xv & Hv & Hxv).
  apply hl_field_Ok in Hk4 as (n & xn & Hn & Hxn).
  split.
  - unfold Hyperliquid.rest_row. cbn.
    rewrite Hd; cbn. rewrite Hts; cbn. rewrite Ho; cbn. rewrite Hh; cbn.
    rewrite Hl; cbn. rewrite Hc; cbn. rewrite Hv; cbn. rewrite Hn; cbn.
    eexists. split; [reflexivity|]. unfold castable. cbn.
    rewrite Hxo; cbn. rewrite Hxh; cbn. rewrite Hxl; cbn. rewrite Hxc; cbn.
    rewrite Hxv; cbn. rewrite Hxn; cbn. by eexists.
  - intros e. unfold Hyperliquid.rest_row_kept. cbn.
    rewrite Hd; cbn. rewrite Hts; cbn. by eexists.
Qed.

Lemma okx_candle_ok_rest_row (row : pyval) :
  okx_candle_ok ensure_timestamp_in_seconds float_of_str row = true ->
  exists cells,
    OKX.rest_row ensure_timestamp_in_seconds row = Ok cells /\
    castable cells.
Proof.
  destruct row as [| | | | |cells|]; try discriminate.
  destruct cells as [|r0 [|r1 [|r2 [|r3 [|r4 [|r5 [|r6 rest]]]]]]];
    try discriminate.
  unfold okx_candle_ok. cbn [forallb]. intros H.
  apply andb_prop in H as [Ht H].
  apply accepted_timestamp_Ok in Ht as [ts Hts].
  repeat (let Hk := fresh "Hk" in apply andb_prop in H as [Hk H]).
  apply numeric_Ok in Hk as [x1 Hx1]. apply numeric_Ok in Hk0 as [x2 Hx2].
  apply numeric_Ok in Hk1 as [x3 Hx3]. apply numeric_Ok in Hk2 as [x4 Hx4].
  apply numeric_Ok in Hk3 as [x5 Hx5]. apply numeric_Ok in Hk4 as [x6 Hx6].
  unfold OKX.rest_row, getitem_int.
  rewrite (seq_index_lookup _ 0 r0), (seq_index_lookup _ 1 r1),
    (seq_index_lookup _ 2 r2), (seq_index_lookup _ 3 r3),
    (seq_index_lookup _ 4 r4), (seq_index_lookup _ 5 r5),
    (seq_index_lookup _ 6 r6) by reflexivity.
  cbn. rewrite Hts; cbn.
  eexists. split; [reflexivity|]. unfold castable. cbn.
  rewrite Hx1; cbn. rewrite Hx2; cbn. rewrite Hx3; cbn. rewrite Hx4; cbn.
  rewrite Hx5; cbn. rewrite Hx6; cbn. by eexists.
Qed.

End WellFormed.

Lemma forallb_Forall {A : Type} (p : A -> bool) (l : list A) :
  forallb p l = true -> Forall (fun x => p x = true) l.
Proof.
  induction l as [|x l IH]; cbn; intros H; constructor;
    apply andb_prop in H as [? ?]; auto.
Qed.

Lemma Forall_sublist {A : Type} (P : A -> Prop) (l k : list A) :
  sublist l k -> Forall P k -> Forall P l.
Proof.
  rewrite !Forall_forall. intros Hsub H x Hx.
  by eapply H, elem_of_sublist.
Qed.

Section WellFormedResponses.

Variable ensure_timestamp_in_seconds : pyval -> result Z.
Variable float_of_str : string -> option npfloat.

(** With an end bound, Hyperliquid's parser and the conversion to an
    array accept every well-formed snapshot. *)
Lemma hl_parse_rest_candles_total (body : pyval) (e : Z) :
  hl_response_ok ensure_timestamp_in_seconds float_of_str body = true ->
  exists arr nd,
    Hyperliquid._parse_rest_candles ensure_timestamp_in_seconds body
      (Some e) = Ok arr /\
    np_array_astype_float float_of_str arr = Ok nd /\
    (body <> VList [] -> is_Some arr).
Proof.
  destruct body as [| | | | |rows|]; try discriminate.
  cbn [hl_response_ok]. intros Hok%forallb_Forall.
  unfold Hyperliquid._parse_rest_candles. cbn [py_len py_iter].
  cbn -[Z.ltb]. destruct (Z.ltb_spec 0 (Z.of_nat (length rows))) as [Hlen|Hlen].
  2: { exists None. eexists.
       split; [reflexivity|]. split; [reflexivity|]. intros Hne.
       destruct rows; [by destruct Hne|cbn in Hlen; lia]. }
  destruct (comprehension_total
              (Hyperliquid.rest_row_kept ensure_timestamp_in_seconds (Some e))
              (Hyperliquid.rest_row ensure_timestamp_in_seconds) rows)
    as [arr Harr].
  { eapply Forall_impl; [exact Hok|]. cbn. intros r Hr.
    apply hl_candle_ok_rest_row in Hr as [(cells & Hcells & _) Hkept].
    split; [apply Hkept|eauto]. }
  rewrite Harr. cbn.
  apply comprehension_Ok in Harr as (kept & Hsub & Hkept).
  destruct (mapM_result_total (mapM (np_float float_of_str)) arr)
    as [floats Hfloats].
  { eapply Forall2_Forall_r; [exact Hkept|].
    eapply Forall_impl; [exact (Forall_sublist _ _ _ Hsub Hok)|].
    cbn. intros r Hr cells [_ Hcells].
    apply hl_candle_ok_rest_row in Hr as [(cells' & Hcells' & Hcast) _].
    rewrite Hcells in Hcells'. by injection Hcells' as <-. }
  exists (Some arr). eexists. split; [reflexivity|].
  cbn. rewrite Hfloats. cbn. split; [reflexivity|]. by eexists.
Qed.

(** OKX's parser and the conversion to an array accept every well-formed
    response. *)
Lemma okx_fetch_candles_arr_total (candles : pyval) :
  okx_response_ok ensure_timestamp_in_seconds float_of_str candles = true ->
  exists arr floats,
    OKX.fetch_candles_arr ensure_timestamp_in_seconds candles = Ok arr /\
    np_array_astype_float float_of_str (Some arr) = Ok (NdRows floats).
Proof.
  destruct candles as [| | | | | |d]; try discriminate.
  cbn [okx_response_ok]. intros Hok.
  destruct (dict_get d "data") as [[| | | | |rows|]|] eqn:Hd;
    try discriminate.
  apply forallb_Forall in Hok.
  unfold OKX.fetch_candles_arr. cbn. rewrite Hd. cbn.
  destruct (comprehension_all_total
              (OKX.rest_row ensure_timestamp_in_seconds) rows)
    as [arr Harr].
  { eapply Forall_impl; [exact Hok|]. cbn. intros r Hr.
    apply okx_candle_ok_rest_row in Hr as (cells & Hcells & _). eauto. }
  rewrite Harr. cbn.
  apply comprehension_all_Ok in Harr.
  destruct (mapM_result_total (mapM (np_float float_of_str)) (reverse arr))
    as [floats Hfloats].
  { apply Forall_reverse.
    eapply Forall2_Forall_r; [exact Harr|].
    eapply Forall_impl; [exact Hok|].
    cbn. intros r Hr cells Hcells.
    apply okx_candle_ok_rest_row in Hr as (cells' & Hcells' & Hcast).
    rewrite Hcells in Hcells'. by injection Hcells' as <-. }
  exists (reverse arr), floats. split; [reflexivity|].
  cbn. rewrite Hfloats. reflexivity.
Qed.

End WellFormedResponses.

(** C2.  A response whose rows reach the adapter in the exchange's order
    (oldest first from Hyperliquid, newest first from OKX) is parsed into
    rows whose timestamps strictly ascend; a well-formed response does
    yield such rows (from Hyperliquid: a well-formed, non-empty response
    parsed with an end bound). *)
Theorem parsed_rows_ascending
    (ensure_timestamp_in_seconds : pyval -> result Z)
    (float_of_str : string -> option npfloat) :
  (forall body rows ts,
     py_iter body = Ok rows ->
     wire_times ensure_timestamp_in_seconds
       (fun row => getitem_str row "t") rows = Ok ts ->
     strictly_ascending ts = true ->
     (forall end_time arr,
        Hyperliquid._parse_rest_candles ensure_timestamp_in_seconds body
          end_time = Ok (Some arr) ->
        ascending_by_timestamp arr = true) /\
     (forall end_time,
        hl_response_ok ensure_timestamp_in_seconds float_of_str body = true ->
        body <> VList [] ->
        exists arr,
          Hyperliquid._parse_rest_candles ensure_timestamp_in_seconds body
            (Some end_time) = Ok (Some arr) /\
          ascending_by_timestamp arr = true)) /\
  (forall candles body rows ts,
     getitem_str candles "data" = Ok body ->
     py_iter body = Ok rows ->
     wire_times ensure_timestamp_in_seconds
       (fun row => getitem_int row 0) rows = Ok ts ->
     strictly_descending ts = true ->
     (forall arr,
        OKX.fetch_candles_arr ensure_timestamp_in_seconds candles = Ok arr ->
        ascending_by_timestamp arr = true) /\
     (okx_response_ok ensure_timestamp_in_seconds float_of_str candles = true ->
      exists arr,
        OKX.fetch_candles_arr ensure_timestamp_in_seconds candles = Ok arr /\
        ascending_by_timestamp arr = true)).
Proof.
  split.
  - intros body rows ts Hrows Hts Hasc.
    assert (Hsafe : forall end_time arr,
      Hyperliquid._parse_rest_candles ensure_timestamp_in_seconds body
        end_time = Ok (Some arr) -> ascending_by_timestamp arr = true)
      by eauto using hl_parse_rest_candles_ascending.
    split; [exact Hsafe|].
    intros end_time Hok Hne.
    destruct (hl_parse_rest_candles_total _ _ body end_time Hok)
      as (arr & nd & Hparse & _ & Hsome).
    destruct (Hsome Hne) as [arr' ->]. eauto.
  - intros candles body rows ts Hbody Hrows Hts Hdesc.
    assert (Hsafe : forall arr,
      OKX.fetch_candles_arr ensure_timestamp_in_seconds candles = Ok arr ->
      ascending_by_timestamp arr = true)
      by eauto using okx_fetch_candles_arr_ascending.
    split; [exact Hsafe|].
    intros Hok.
    destruct (okx_fetch_candles_arr_total _ _ candles Hok)
      as (arr & floats & Hparse & _). eauto.
Qed.

Lemma parsed_rows_ascending_witness :
  (exists arr,
     Hyperliquid._parse_rest_candles
       (CandlesBase.ensure_timestamp_in_seconds CandlesBase.Milliseconds)
       Sample.hl_response (Some 1718895800) = Ok (Some arr) /\
     row_timestamps arr = Some [1718895660; 1718895720] /\
     ascending_by_timestamp arr = true) /\
  (exists arr,
     OKX.fetch_candles_arr
       (CandlesBase.ensure_timestamp_in_seconds CandlesBase.Milliseconds)
       Sample.okx_response = Ok arr /\
     row_timestamps arr = Some [1718895600; 1718899200] /\
     ascending_by_timestamp arr = true).
Proof.
  destruct (parsed_rows_ascending
    (CandlesBase.ensure_timestamp_in_seconds CandlesBase.Milliseconds)
              float_of_decimal) as [Hhl Hokx].
  split.
  - eexists. split; [vm_compute; reflexivity|].
    split; [vm_compute; reflexivity|].
    refine (proj1 (Hhl Sample.hl_response _ [1718895660; 1718895720]
                     _ _ _) (Some 1718895800) _ _);
      vm_compute; reflexivity.
  - eexists. split; [vm_compute; reflexivity|].
    split; [vm_compute; reflexivity|].
    refine (proj1 (Hokx Sample.okx_response _ _ [1718899200; 1718895600]
                     _ _ _ _) _ _);
      vm_compute; reflexivity.
Defined.

(** ** The three bound modes of [fetch_candles] *)

(** C3 (as amended).  Hyperliquid's [fetch_candles] builds its request in
    each bound mode: without bounds it sends neither [startTime] nor
    [endTime]; with a start only it derives the end as the start plus the
    page limit times the interval; with an end only it derives the start
    as the end minus the page limit times the interval (all in
    milliseconds).  When an end is supplied it returns an array for every
    well-formed response.  OKX's [fetch_candles] derives no bound: given an
    end it sends it as [after], with the start as [before] when the start
    is neither absent nor zero, and returns an array of rows for every
    well-formed response. *)
Theorem fetch_candles_bound_modes
    (ensure_timestamp_in_seconds : pyval -> result Z)
    (float_of_str : string -> option npfloat)
    (HL_CONSTANTS : Hyperliquid.constants)
    (OKX_CONSTANTS : OKX.constants) :
  (forall self native,
     HL_CONSTANTS.(Hyperliquid.INTERVALS) !! self.(Hyperliquid.interval)
       = Some native ->
     let fetch_candles :=
       Hyperliquid.fetch_candles HL_CONSTANTS ensure_timestamp_in_seconds
         float_of_str self in
     let page :=
       HL_CONSTANTS.(Hyperliquid.MAX_RESULTS_PER_CANDLESTICK_REST_REQUEST)
       * self.(Hyperliquid.interval_in_seconds) in
     sent_request (fetch_candles None None)
       = Some (hl_snapshot_request HL_CONSTANTS self native []) /\
     (forall s,
        sent_request (fetch_candles (Some s) None)
        = Some (hl_snapshot_request HL_CONSTANTS self native
                  [("startTime", VInt (s * 1000));
                   ("endTime", VInt ((s + page) * 1000))])) /\
     (forall e,
        sent_request (fetch_candles None (Some e))
        = Some (hl_snapshot_request HL_CONSTANTS self native
                  [("startTime", VInt ((e - page) * 1000));
                   ("endTime", VInt (e * 1000))])) /\
     (forall start_time e rest_assistant body,
        (forall rq,
           sent_request (fetch_candles start_time (Some e)) = Some rq ->
           rest_assistant rq = Ok body) ->
        hl_response_ok ensure_timestamp_in_seconds float_of_str body = true ->
        exists nd,
          run rest_assistant (fetch_candles start_time (Some e)) = Ok nd)) /\
  (forall self native,
     OKX_CONSTANTS.(OKX.INTERVALS) !! self.(OKX.interval) = Some native ->
     let fetch_candles :=
       OKX.fetch_candles OKX_CONSTANTS ensure_timestamp_in_seconds
         float_of_str self in
     (forall start_time e limit,
        sent_request (fetch_candles start_time (Some e) limit)
        = Some (okx_history_request OKX_CONSTANTS self native
                  (okx_before start_time ++ [("after", VInt (e * 1000))]))) /\
     (forall start_time e limit rest_assistant body,
        (forall rq,
           sent_request (fetch_candles start_time (Some e) limit) = Some rq ->
           rest_assistant rq = Ok body) ->
        okx_response_ok ensure_timestamp_in_seconds float_of_str body = true ->
        exists floats,
          run rest_assistant (fetch_candles start_time (Some e) limit)
          = Ok (NdRows floats))).
Proof.
  split.
  - intros self native Hnative fetch_candles page. subst fetch_candles page.
    unfold Hyperliquid.fetch_candles, Hyperliquid.fetch_candles_reqs,
      intervals_getitem.
    rewrite Hnative.
    split; [reflexivity|]. split; [intros s; reflexivity|].
    split; [intros e; reflexivity|].
    intros start_time e rest_assistant body Hra Hok.
    destruct (hl_parse_rest_candles_total _ _ body e Hok)
      as (arr & nd & Hparse & Hnp & _).
    exists nd. revert Hra.
    destruct start_time as [s|];
      cbn -[Hyperliquid._parse_rest_candles np_array_astype_float];
      intros Hra; rewrite (Hra _ eq_refl);
      cbn -[Hyperliquid._parse_rest_candles np_array_astype_float];
      rewrite Hparse;
      cbn -[Hyperliquid._parse_rest_candles np_array_astype_float];
      by rewrite Hnp.
  - intros self native Hnative fetch_candles. subst fetch_candles.
    unfold OKX.fetch_candles, OKX.fetch_candles_params, intervals_getitem.
    rewrite Hnative. split.
    + intros [s|] e limit; cbn; [destruct (s =? 0)|]; reflexivity.
    + intros start_time e limit rest_assistant body Hra Hok.
      destruct (okx_fetch_candles_arr_total _ _ body Hok)
        as (arr & floats & Hparse & Hnp).
      exists floats. revert Hra.
      destruct start_time as [s|];
        cbn -[OKX.fetch_candles_arr np_array_astype_float];
        [destruct (s =? 0);
         cbn -[OKX.fetch_candles_arr np_array_astype_float]|];
        intros Hra; rewrite (Hra _ eq_refl);
        cbn -[OKX.fetch_candles_arr np_array_astype_float];
        rewrite Hparse;
        cbn -[OKX.fetch_candles_arr np_array_astype_float];
        by rewrite Hnp.
Qed.

Lemma fetch_candles_bound_modes_witness :
  hl_response_ok
    (CandlesBase.ensure_timestamp_in_seconds CandlesBase.Milliseconds)
    float_of_decimal
    Sample.hl_response = true /\
  (exists nd,
     run (Sample.answering Sample.hl_response)
       (Hyperliquid.fetch_candles Sample.hl_constants
          (CandlesBase.ensure_timestamp_in_seconds CandlesBase.Milliseconds)
          float_of_decimal
          Sample.hl_self None (Some 1718895800)) = Ok nd) /\
  okx_response_ok
    (CandlesBase.ensure_timestamp_in_seconds CandlesBase.Milliseconds)
    float_of_decimal
    Sample.okx_response = true /\
  (exists floats,
     run (Sample.answering Sample.okx_response)
       (OKX.fetch_candles Sample.okx_constants
          (CandlesBase.ensure_timestamp_in_seconds CandlesBase.Milliseconds)
          float_of_decimal
          Sample.okx_self (Some 1718895600) (Some 1718902800) None)
     = Ok (NdRows floats)).
Proof.
  destruct (fetch_candles_bound_modes
              (CandlesBase.ensure_timestamp_in_seconds CandlesBase.Milliseconds)
              float_of_decimal
              Sample.hl_constants Sample.okx_constants) as [Hhl Hokx].
  assert (Hhl_ok :
    hl_response_ok
      (CandlesBase.ensure_timestamp_in_seconds CandlesBase.Milliseconds)
      float_of_decimal
      Sample.hl_response = true) by (vm_compute; reflexivity).
  assert (Hokx_ok :
    okx_response_ok
      (CandlesBase.ensure_timestamp_in_seconds CandlesBase.Milliseconds)
      float_of_decimal
      Sample.okx_response = true) by (vm_compute; reflexivity).
  split; [exact Hhl_ok|]. split.
  - destruct (Hhl Sample.hl_self "1m" ltac:(vm_compute; reflexivity))
      as (_ & _ & _ & Hrun).
    exact (Hrun None 1718895800 (Sample.answering Sample.hl_response)
             Sample.hl_response (fun _ _ => eq_refl) Hhl_ok).
  - split; [exact Hokx_ok|].
    destruct (Hokx Sample.okx_self "1H" ltac:(vm_compute; reflexivity))
      as (_ & Hrun).
    exact (Hrun (Some 1718895600) 1718902800 None
             (Sample.answering Sample.okx_response) Sample.okx_response
             (fun _ _ => eq_refl) Hokx_ok).
Defined.

(** C3, as first stated, fails.  OKX's adapter derives no start from an
    end: its request carries [after] alone.  Without an end it raises
    before any request is sent.  Hyperliquid's adapter, called without an
    end, raises when it compares the first row of a well-formed response
    with [None]. *)
Lemma fetch_candles_bound_modes_counterexample :
  sent_request
    (OKX.fetch_candles Sample.okx_constants
       (CandlesBase.ensure_timestamp_in_seconds CandlesBase.Milliseconds)
       float_of_decimal
       Sample.okx_self None (Some 1718902800) None)
  = Some (okx_history_request Sample.okx_constants Sample.okx_self "1H"
            [("after", VInt 1718902800000)]) /\
  OKX.fetch_candles Sample.okx_constants
    (CandlesBase.ensure_timestamp_in_seconds CandlesBase.Milliseconds)
    float_of_decimal
    Sample.okx_self (Some 1718895600) None None = Raise TypeError /\
  OKX.fetch_candles Sample.okx_constants
    (CandlesBase.ensure_timestamp_in_seconds CandlesBase.Milliseconds)
    float_of_decimal
    Sample.okx_self None None None = Raise TypeError /\
  hl_response_ok
    (CandlesBase.ensure_timestamp_in_seconds CandlesBase.Milliseconds)
    float_of_decimal
    Sample.hl_response = true /\
  run (Sample.answering Sample.hl_response)
    (Hyperliquid.fetch_candles Sample.hl_constants
       (CandlesBase.ensure_timestamp_in_seconds CandlesBase.Milliseconds)
       float_of_decimal
       Sample.hl_self None None) = Err TypeError /\
  run (Sample.answering Sample.hl_response)
    (Hyperliquid.fetch_candles Sample.hl_constants
       (CandlesBase.ensure_timestamp_in_seconds CandlesBase.Milliseconds)
       float_of_decimal
       Sample.hl_self (Some 1718895660) None) = Err TypeError.
Proof.
  repeat split; vm_compute; reflexivity.
Qed.

(** ** Stream frames that carry no candle *)

Lemma is_str_true (v : pyval) (s : string) :
  is_str v s = true -> v = VStr s.
Proof.
  destruct v; try discriminate. cbn. by intros ->%String.eqb_eq.
Qed.

(** C4 (as amended).  Hyperliquid's stream parser returns nothing, without
    raising, for a [None] payload and for every object whose channel is
    not ["candle"]: acknowledgements, heartbeats, frames of other
    channels.  OKX's stream parser returns nothing, without raising, for a
    [None] payload, for every object without a ["data"] entry
    (acknowledgements, errors) and for every text frame that does not
    contain ["data"] (the heartbeat); it does not look at the channel. *)
Theorem stream_parser_skips_control_frames
    (ensure_timestamp_in_seconds : pyval -> result Z) :
  (forall frame,
     frame = VNone \/
     (exists d, frame = VDict d /\
                dict_get d "channel" <> Some (VStr "candle")) ->
     Hyperliquid._parse_websocket_message ensure_timestamp_in_seconds frame
       = Ok None) /\
  (forall frame,
     frame = VNone \/
     (exists d, frame = VDict d /\ dict_get d "data" = None) \/
     (exists s, frame = VStr s /\ str_contains "data" s = false) ->
     OKX._parse_websocket_message ensure_timestamp_in_seconds frame
       = Ok None).
Proof.
  split.
  - intros frame [->|(d & -> & Hchannel)]; [reflexivity|].
    unfold Hyperliquid._parse_websocket_message. cbn.
    destruct (is_str (default VNone (dict_get d "channel")) "candle")
      eqn:Hstr; [|reflexivity].
    apply is_str_true in Hstr.
    destruct (dict_get d "channel") as [v|]; cbn in Hstr; [|discriminate].
    by subst v.
  - intros frame [->|[(d & -> & Hdata)|(s & -> & Hsub)]]; [reflexivity| |].
    + unfold OKX._parse_websocket_message. cbn. rewrite Hdata. reflexivity.
    + unfold OKX._parse_websocket_message. cbn -[str_contains].
      rewrite Hsub. reflexivity.
Qed.

Lemma stream_parser_skips_control_frames_witness :
  Hyperliquid._parse_websocket_message
    (CandlesBase.ensure_timestamp_in_seconds CandlesBase.Milliseconds)
    Sample.hl_subscription_ack = Ok None /\
  OKX._parse_websocket_message
    (CandlesBase.ensure_timestamp_in_seconds CandlesBase.Milliseconds)
    Sample.okx_subscription_ack = Ok None /\
  OKX._parse_websocket_message
    (CandlesBase.ensure_timestamp_in_seconds CandlesBase.Milliseconds)
    (VStr "pong") = Ok None.
Proof.
  destruct (stream_parser_skips_control_frames
             (CandlesBase.ensure_timestamp_in_seconds CandlesBase.Milliseconds))
              as [Hhl Hokx].
  split; [|split].
  - apply Hhl. right. eexists. split; [reflexivity|]. cbn. discriminate.
  - apply Hokx. right. left. eexists. split; reflexivity.
  - apply Hokx. right. right. eexists. split; reflexivity.
Defined.

(** C4, as first stated, fails on OKX: a push of the trades channel has a
    ["data"] entry, is read as a candle, and the parser raises when it
    subscripts the trade object with [0]. *)
Lemma okx_stream_parser_raises_on_other_channel :
  (exists arg, getitem_str Sample.okx_trades_frame "arg" = Ok arg /\
               getitem_str arg "channel" = Ok (VStr "trades")) /\
  OKX._parse_websocket_message
    (CandlesBase.ensure_timestamp_in_seconds CandlesBase.Milliseconds)
    Sample.okx_trades_frame = Err KeyError.
Proof.
  split; [eexists; split; reflexivity|reflexivity].
Qed.

(** ** The shape of a candle row *)

Section Shape.

Variable ensure_timestamp_in_seconds : pyval -> result Z.

Lemma hl_rest_row_fields (row : pyval) (cells : list pyval) :
  Hyperliquid.rest_row ensure_timestamp_in_seconds row = Ok cells ->
  exists ts o h l c v n,
    hl_candle_fields ensure_timestamp_in_seconds row ts o h l c v n /\
    cells = candle_row ts o h l c v (VFloat 0) n (VFloat 0) (VFloat 0).
Proof.
  intros H. apply hl_rest_row_Ok in H.
  destruct H as (t & ts & o & h & l & c & v & n & Ht & Hts & Ho & Hh & Hl
                 & Hc & Hv & Hn & ->).
  exists ts, o, h, l, c, v, n. unfold hl_candle_fields. eauto 10.
Qed.

Lemma okx_rest_row_fields (row : pyval) (cells : list pyval) :
  OKX.rest_row ensure_timestamp_in_seconds row = Ok cells ->
  exists ts o h l c vol volCcy,
    okx_candle_fields ensure_timestamp_in_seconds row ts o h l c vol volCcy /\
    cells = candle_row ts o h l c vol volCcy (VFloat 0) (VFloat 0)
              (VFloat 0).
Proof.
  intros H. apply okx_rest_row_Ok in H.
  destruct H as (t & ts & o & h & l & c & v & n & Ht & Hts & Ho & Hh & Hl
                 & Hc & Hv & Hn & ->).
  exists ts, o, h, l, c, v, n. unfold okx_candle_fields. eauto 10.
Qed.

Lemma hl_parse_websocket_message_Some (frame : pyval) (d : pydict) :
  Hyperliquid._parse_websocket_message ensure_timestamp_in_seconds frame
    = Ok (Some d) ->
  exists candle ts o h l c v n,
    getitem_str frame "data" = Ok candle /\
    hl_candle_fields ensure_timestamp_in_seconds candle ts o h l c v n /\
    d = stream_dict "timestamp" "open" "low" "high" "close" "volume"
          "quote_asset_volume" "n_trades" "taker_buy_base_volume"
          "taker_buy_quote_volume"
          (VInt ts) o l h c v (VFloat 0) n (VFloat 0) (VFloat 0).
Proof.
  unfold Hyperliquid._parse_websocket_message. intros H.
  assert (Hbody :
    (channel ← py_get frame "channel";
     if is_str channel "candle" then
       candle ← getitem_str frame "data";
       t ← getitem_str candle "t";
       ts ← ensure_timestamp_in_seconds t;
       o ← getitem_str candle "o";
       l ← getitem_str candle "l";
       h ← getitem_str candle "h";
       c ← getitem_str candle "c";
       v ← getitem_str candle "v";
       n ← getitem_str candle "n";
       Ok (Some (stream_dict "timestamp" "open" "low" "high" "close"
                   "volume" "quote_asset_volume" "n_trades"
                   "taker_buy_base_volume" "taker_buy_quote_volume"
                   (VInt ts) o l h c v (VFloat 0) n (VFloat 0) (VFloat 0)))
     else Ok None) = Ok (Some d))
    by (destruct frame; first [discriminate | exact H]).
  clear H. bind_step Hbody as channel Hchannel.
  destruct (is_str channel "candle"); [|discriminate].
  bind_step Hbody as candle Hcandle. bind_step Hbody as t Ht.
  bind_step Hbody as ts Hts. bind_step Hbody as o Ho.
  bind_step Hbody as l Hl. bind_step Hbody as h Hh.
  bind_step Hbody as c Hc. bind_step Hbody as v Hv.
  bind_step Hbody as n Hn. injection Hbody as <-.
  exists candle, ts, o, h, l, c, v, n.
  unfold hl_candle_fields. eauto 12.
Qed.

Lemma okx_parse_websocket_message_Some (frame : pyval) (d : pydict) :
  OKX._parse_websocket_message ensure_timestamp_in_seconds frame
    = Ok (Some d) ->
  exists rows candle ts o h l c vol volCcy,
    getitem_str frame "data" = Ok rows /\
    getitem_int rows 0 = Ok candle /\
    okx_candle_fields ensure_timestamp_in_seconds candle ts o h l c vol
      volCcy /\
    d = stream_dict "timestamp" "open" "high" "low" "close" "volume"
          "quote_asset_volume" "n_trades" "taker_buy_base_volume"
          "taker_buy_quote_volume"
          (VInt ts) o h l c vol volCcy (VFloat 0) (VFloat 0) (VFloat 0).
Proof.
  unfold OKX._parse_websocket_message. intros H.
  assert (Hbody :
    (has_data ← py_contains "data" frame;
     if has_data : bool then
       rows ← getitem_str frame "data";
       candles ← getitem_int rows 0;
       c0 ← getitem_int candles 0;
       ts ← ensure_timestamp_in_seconds c0;
       c1 ← getitem_int candles 1;
       c2 ← getitem_int candles 2;
       c3 ← getitem_int candles 3;
       c4 ← getitem_int candles 4;
       c5 ← getitem_int candles 5;
       c6 ← getitem_int candles 6;
       Ok (Some (stream_dict "timestamp" "open" "high" "low" "close"
                   "volume" "quote_asset_volume" "n_trades"
                   "taker_buy_base_volume" "taker_buy_quote_volume"
                   (VInt ts) c1 c2 c3 c4 c5 c6 (VFloat 0) (VFloat 0)
                   (VFloat 0)))
     else Ok None) = Ok (Some d))
    by (destruct frame; first [discriminate | exact H]).
  clear H. bind_step Hbody as has_data Hhas.
  destruct has_data; [|discriminate].
  bind_step Hbody as rows Hrows. bind_step Hbody as candle Hcandle.
  bind_step Hbody as t Ht. bind_step Hbody as ts Hts.
  bind_step Hbody as o Ho. bind_step Hbody as h Hh.
  bind_step Hbody as l Hl. bind_step Hbody as c Hc.
  bind_step Hbody as vol Hvol. bind_step Hbody as volCcy HvolCcy.
  injection Hbody as <-.
  exists rows, candle, ts, o, h, l, c, vol, volCcy.
  unfold okx_candle_fields. eauto 12.
Qed.

End Shape.

Lemma Forall2_image {A B : Type} (P : A -> B -> Prop) (l l' : list A)
    (k : list B) :
  Forall2 P l k -> (forall x, x ∈ l -> x ∈ l') ->
  Forall (fun y => exists x, In x l' /\ P x y) k.
Proof.
  intros H Hsub. eapply Forall2_Forall_r; [exact H|].
  apply Forall_forall. intros x Hx y Hxy.
  exists x. split; [by apply list_elem_of_In, Hsub|done].
Qed.

Section RowsOfResponses.

Variable ensure_timestamp_in_seconds : pyval -> result Z.

(** Every row Hyperliquid's parser returns is built from a row of the
    response. *)
Lemma hl_parse_rest_candles_rows (body : pyval) (rows : list pyval)
    (end_time : option Z) (arr : list (list pyval)) :
  py_iter body = Ok rows ->
  Hyperliquid._parse_rest_candles ensure_timestamp_in_seconds body end_time
    = Ok (Some arr) ->
  Forall (fun cells => exists row,
            In row rows /\
            Hyperliquid.rest_row ensure_timestamp_in_seconds row = Ok cells)
    arr.
Proof.
  intros Hrows H.
  apply hl_parse_rest_candles_Some in H as (rows' & Hrows' & H).
  rewrite Hrows in Hrows'. injection Hrows' as <-.
  apply comprehension_Ok in H as (kept & Hsub & Hkept).
  eapply Forall_impl.
  - eapply Forall2_image; [exact Hkept|].
    intros x Hx. by eapply elem_of_sublist.
  - cbn. intros cells (row & Hin & _ & Hrow). eauto.
Qed.

(** Every row OKX's parser returns is built from a row of the
    response. *)
Lemma okx_fetch_candles_arr_rows (candles body : pyval)
    (rows : list pyval) (arr : list (list pyval)) :
  getitem_str candles "data" = Ok body ->
  py_iter body = Ok rows ->
  OKX.fetch_candles_arr ensure_timestamp_in_seconds candles = Ok arr ->
  Forall (fun cells => exists row,
            In row rows /\
            OKX.rest_row ensure_timestamp_in_seconds row = Ok cells) arr.
Proof.
  intros Hbody Hrows H.
  apply okx_fetch_candles_arr_Ok in H as (body' & rows' & Hbody' & Hrows' & H).
  rewrite Hbody in Hbody'. injection Hbody' as <-.
  rewrite Hrows in Hrows'. injection Hrows' as <-.
  apply Forall_reverse.
  eapply Forall2_image; [exact H|auto].
Qed.

End RowsOfResponses.

(** C5 (as amended).  Every row of a historical parse is the list of ten
    cells timestamp, open, high, low, close, volume, quote volume, trade
    count, taker-buy base volume, taker-buy quote volume, in that order;
    the cells the exchange does not supply are [0.]: quote volume and the
    taker volumes for Hyperliquid, trade count and the taker volumes for
    OKX.  A stream parse returns a dict of the same ten fields under the
    keys [timestamp], [open], [high], [low], [close], [volume],
    [quote_asset_volume], [n_trades], [taker_buy_base_volume],
    [taker_buy_quote_volume], with the same fields [0.]; Hyperliquid's
    dict holds [low] before [high]. *)
Theorem candle_row_shape (ensure_timestamp_in_seconds : pyval -> result Z) :
  (forall body rows end_time arr,
     py_iter body = Ok rows ->
     Hyperliquid._parse_rest_candles ensure_timestamp_in_seconds body end_time
       = Ok (Some arr) ->
     Forall (fun cells => exists row ts o h l c v n,
               In row rows /\
               hl_candle_fields ensure_timestamp_in_seconds row ts o h l c v
                 n /\
               cells = candle_row ts o h l c v (VFloat 0) n (VFloat 0)
                         (VFloat 0)) arr) /\
  (forall candles body rows arr,
     getitem_str candles "data" = Ok body ->
     py_iter body = Ok rows ->
     OKX.fetch_candles_arr ensure_timestamp_in_seconds candles = Ok arr ->
     Forall (fun cells => exists row ts o h l c vol volCcy,
               In row rows /\
               okx_candle_fields ensure_timestamp_in_seconds row ts o h l c
                 vol volCcy /\
               cells = candle_row ts o h l c vol volCcy (VFloat 0) (VFloat 0)
                         (VFloat 0)) arr) /\
  (forall frame d,
     Hyperliquid._parse_websocket_message ensure_timestamp_in_seconds frame
       = Ok (Some d) ->
     exists candle ts o h l c v n,
       getitem_str frame "data" = Ok candle /\
       hl_candle_fields ensure_timestamp_in_seconds candle ts o h l c v n /\
       d = stream_dict "timestamp" "open" "low" "high" "close" "volume"
             "quote_asset_volume" "n_trades" "taker_buy_base_volume"
             "taker_buy_quote_volume"
             (VInt ts) o l h c v (VFloat 0) n (VFloat 0) (VFloat 0)) /\
  (forall frame d,
     OKX._parse_websocket_message ensure_timestamp_in_seconds frame
       = Ok (Some d) ->
     exists rows candle ts o h l c vol volCcy,
       getitem_str frame "data" = Ok rows /\
       getitem_int rows 0 = Ok candle /\
       okx_candle_fields ensure_timestamp_in_seconds candle ts o h l c vol
         volCcy /\
       d = stream_dict "timestamp" "open" "high" "low" "close" "volume"
             "quote_asset_volume" "n_trades" "taker_buy_base_volume"
             "taker_buy_quote_volume"
             (VInt ts) o h l c vol volCcy (VFloat 0) (VFloat 0) (VFloat 0)).
Proof.
  split; [|split; [|split]].
  - intros body rows end_time arr Hrows H.
    eapply Forall_impl; [by eapply hl_parse_rest_candles_rows|].
    cbn. intros cells (row & Hin & Hrow).
    apply hl_rest_row_fields in Hrow
      as (ts & o & h & l & c & v & n & Hfields & ->).
    exists row, ts, o, h, l, c, v, n. auto.
  - intros candles body rows arr Hbody Hrows H.
    eapply Forall_impl; [by eapply okx_fetch_candles_arr_rows|].
    cbn. intros cells (row & Hin & Hrow).
    apply okx_rest_row_fields in Hrow
      as (ts & o & h & l & c & vol & volCcy & Hfields & ->).
    exists row, ts, o, h, l, c, vol, volCcy. auto.
  - apply hl_parse_websocket_message_Some.
  - apply okx_parse_websocket_message_Some.
Qed.

Lemma candle_row_shape_witness :
  Hyperliquid._parse_websocket_message
    (CandlesBase.ensure_timestamp_in_seconds CandlesBase.Milliseconds)
    Sample.hl_candle_frame
  = Ok (Some (stream_dict "timestamp" "open" "low" "high" "close" "volume"
                "quote_asset_volume" "n_trades" "taker_buy_base_volume"
                "taker_buy_quote_volume"
                (VInt 1718895660) (VStr "3512.6") (VStr "3510.4")
                (VStr "3514.1") (VStr "3513.8") (VStr "271.93") (VFloat 0)
                (VInt 754) (VFloat 0) (VFloat 0))) /\
  (exists candle ts o h l c v n,
     getitem_str Sample.hl_candle_frame "data" = Ok candle /\
     hl_candle_fields
       (CandlesBase.ensure_timestamp_in_seconds CandlesBase.Milliseconds)
       candle ts o h l
       c v n /\
     stream_dict "timestamp" "open" "low" "high" "close" "volume"
       "quote_asset_volume" "n_trades" "taker_buy_base_volume"
       "taker_buy_quote_volume"
       (VInt 1718895660) (VStr "3512.6") (VStr "3510.4") (VStr "3514.1")
       (VStr "3513.8") (VStr "271.93") (VFloat 0) (VInt 754) (VFloat 0)
       (VFloat 0)
     = stream_dict "timestamp" "open" "low" "high" "close" "volume"
         "quote_asset_volume" "n_trades" "taker_buy_base_volume"
         "taker_buy_quote_volume"
         (VInt ts) o l h c v (VFloat 0) n (VFloat 0) (VFloat 0)).
Proof.
  assert (Hparse :
    Hyperliquid._parse_websocket_message
      (CandlesBase.ensure_timestamp_in_seconds CandlesBase.Milliseconds)
      Sample.hl_candle_frame
    = Ok (Some (stream_dict "timestamp" "open" "low" "high" "close" "volume"
                  "quote_asset_volume" "n_trades" "taker_buy_base_volume"
                  "taker_buy_quote_volume"
                  (VInt 1718895660) (VStr "3512.6") (VStr "3510.4")
                  (VStr "3514.1") (VStr "3513.8") (VStr "271.93") (VFloat 0)
                  (VInt 754) (VFloat 0) (VFloat 0))))
    by (vm_compute; reflexivity).
  split; [exact Hparse|].
  exact (proj1 (proj2 (proj2 (candle_row_shape
           (CandlesBase.ensure_timestamp_in_seconds CandlesBase.Milliseconds))))
           _ _ Hparse).
Defined.

(** C5, as first stated, fails on the stream parse: what Hyperliquid's
    parser returns for a candle frame is a dict, and its values in order
    are timestamp, open, low, high: not the order of the row. *)
Lemma hl_stream_dict_order :
  exists d,
    Hyperliquid._parse_websocket_message
      (CandlesBase.ensure_timestamp_in_seconds CandlesBase.Milliseconds)
      Sample.hl_candle_frame
    = Ok (Some d) /\
    dict_keys d
    = ["timestamp"; "open"; "low"; "high"; "close"; "volume";
       "quote_asset_volume"; "n_trades"; "taker_buy_base_volume";
       "taker_buy_quote_volume"] /\
    map snd d
    = candle_row 1718895660 (VStr "3512.6") (VStr "3510.4") (VStr "3514.1")
        (VStr "3513.8") (VStr "271.93") (VFloat 0) (VInt 754) (VFloat 0)
        (VFloat 0) /\
    map snd d
    <> candle_row 1718895660 (VStr "3512.6") (VStr "3514.1") (VStr "3510.4")
         (VStr "3513.8") (VStr "271.93") (VFloat 0) (VInt 754) (VFloat 0)
         (VFloat 0).
Proof.
  eexists. split; [vm_compute; reflexivity|].
  split; [reflexivity|]. split; [reflexivity|]. discriminate.
Qed.

(** ** Timestamps in whole seconds *)

(** The day count of the ISO reading is the calendar's: day 0 is
    1970-01-01, and each day, within a month, from the last day of a month
    to the first of the next, and from 31 December to 1 January, is one
    more than the day before. *)
Lemma days_from_civil_epoch : CandlesBase.days_from_civil 1970 1 1 = 0.
Proof. reflexivity. Qed.

Lemma days_from_civil_next_day (y m d : Z) :
  CandlesBase.days_from_civil y m (d + 1)
  = CandlesBase.days_from_civil y m d + 1.
Proof. unfold CandlesBase.days_from_civil. lia. Qed.

Lemma days_from_civil_march (y : Z) :
  CandlesBase.days_from_civil y 3 1
  = CandlesBase.days_from_civil y 2 (CandlesBase.days_in_month y 2) + 1.
Proof.
  unfold CandlesBase.days_from_civil, CandlesBase.days_in_month,
    CandlesBase.is_leap.
  cbn -[Z.div Z.modulo Z.mul Z.add Z.sub].
  change ((153 * (3 - 3) + 2) / 5) with 0.
  change ((153 * (2 + 9) + 2) / 5) with 337.
  destruct (Z.eqb_spec (y mod 4) 0), (Z.eqb_spec (y mod 100) 0),
    (Z.eqb_spec (y mod 400) 0); cbn [andb orb negb];
    Z.div_mod_to_equations; lia.
Qed.

Lemma days_from_civil_next_month (y m : Z) :
  1 <= m < 12 ->
  CandlesBase.days_from_civil y (m + 1) 1
  = CandlesBase.days_from_civil y m (CandlesBase.days_in_month y m) + 1.
Proof.
  intros Hm.
  assert (Hcases : m = 1 \/ m = 2 \/ m = 3 \/ m = 4 \/ m = 5 \/ m = 6 \/
                   m = 7 \/ m = 8 \/ m = 9 \/ m = 10 \/ m = 11) by lia.
  destruct Hcases as [->|[->|[->|[->|[->|[->|[->|[->|[->|[->| ->]]]]]]]]]];
    try exact (days_from_civil_march y).
  all: match goal with
       | |- context [CandlesBase.days_from_civil _ (?a + 1) 1] =>
           let v := eval vm_compute in (a + 1) in change (a + 1) with v
       end.
  all: unfold CandlesBase.days_from_civil, CandlesBase.days_in_month;
    cbn -[Z.div Z.modulo Z.mul Z.add Z.sub CandlesBase.is_leap].
  all: repeat match goal with
       | |- context [(153 * ?a + 2) / 5] =>
           let v := eval vm_compute in ((153 * a + 2) / 5) in
           change ((153 * a + 2) / 5) with v
       end.
  all: lia.
Qed.

Lemma days_from_civil_next_year (y : Z) :
  CandlesBase.days_from_civil (y + 1) 1 1
  = CandlesBase.days_from_civil y 12 31 + 1.
Proof.
  unfold CandlesBase.days_from_civil.
  cbn -[Z.div Z.modulo Z.mul Z.add Z.sub].
  replace (y + 1 - 1) with y by lia.
  change ((153 * (1 + 9) + 2) / 5) with 306.
  change ((153 * (12 - 3) + 2) / 5) with 275. lia.
Qed.





(** ** Interval tokens *)

(** C7 (as amended).  For an interval token that the exchange's table does
    not list, building the subscription payload fails with the
    [KeyError] of the table lookup, and so does [fetch_candles], before
    any request is sent; the adapters have no error of their own for an
    unsupported interval.  For a listed token, the native token of the
    table is the one in the subscribe frame and in every request
    [fetch_candles] sends. *)
Theorem interval_token_lookup
    (ensure_timestamp_in_seconds : pyval -> result Z)
    (float_of_str : string -> option npfloat)
    (HL_CONSTANTS : Hyperliquid.constants)
    (OKX_CONSTANTS : OKX.constants) :
  (forall self,
     HL_CONSTANTS.(Hyperliquid.INTERVALS) !! self.(Hyperliquid.interval)
       = None ->
     Hyperliquid.ws_subscription_payload HL_CONSTANTS self = Err KeyError /\
     forall start_time end_time,
       Hyperliquid.fetch_candles HL_CONSTANTS ensure_timestamp_in_seconds
         float_of_str self start_time end_time = Raise KeyError) /\
  (forall self,
     OKX_CONSTANTS.(OKX.INTERVALS) !! self.(OKX.interval) = None ->
     OKX.ws_subscription_payload OKX_CONSTANTS self = Err KeyError /\
     forall start_time end_time limit,
       OKX.fetch_candles OKX_CONSTANTS ensure_timestamp_in_seconds
         float_of_str self start_time end_time limit = Raise KeyError) /\
  (forall self native,
     HL_CONSTANTS.(Hyperliquid.INTERVALS) !! self.(Hyperliquid.interval)
       = Some native ->
     Hyperliquid.ws_subscription_payload HL_CONSTANTS self
     = Ok (VDict [("method", VStr "subscribe");
                  ("subscription",
                   VDict [("type", VStr "candle");
                          ("coin", VStr self.(Hyperliquid._base_asset));
                          ("interval", VStr native)])]) /\
     forall start_time end_time rq,
       sent_request
         (Hyperliquid.fetch_candles HL_CONSTANTS ensure_timestamp_in_seconds
            float_of_str self start_time end_time) = Some rq ->
       exists bounds,
         rq = hl_snapshot_request HL_CONSTANTS self native bounds) /\
  (forall self native,
     OKX_CONSTANTS.(OKX.INTERVALS) !! self.(OKX.interval) = Some native ->
     OKX.ws_subscription_payload OKX_CONSTANTS self
     = Ok (VDict [("op", VStr "subscribe");
                  ("args",
                   VList [VDict [("channel",
                                  VStr (String.append "candle" native));
                                 ("instId",
                                  VStr self.(OKX._ex_trading_pair))]])]) /\
     forall start_time end_time limit rq,
       sent_request
         (OKX.fetch_candles OKX_CONSTANTS ensure_timestamp_in_seconds
            float_of_str self start_time end_time limit) = Some rq ->
       exists bounds,
         rq = okx_history_request OKX_CONSTANTS self native bounds).
Proof.
  split; [|split; [|split]].
  - intros self Hnone.
    unfold Hyperliquid.ws_subscription_payload, Hyperliquid.fetch_candles,
      Hyperliquid.fetch_candles_reqs, intervals_getitem.
    rewrite Hnone. split; [reflexivity|]. intros; reflexivity.
  - intros self Hnone.
    unfold OKX.ws_subscription_payload, OKX.fetch_candles,
      OKX.fetch_candles_params, intervals_getitem.
    rewrite Hnone. split; [reflexivity|]. intros; reflexivity.
  - intros self native Hnative.
    unfold Hyperliquid.ws_subscription_payload, Hyperliquid.fetch_candles,
      Hyperliquid.fetch_candles_reqs, intervals_getitem.
    rewrite Hnative. split; [reflexivity|].
    intros [s|] [e|] rq; cbn; intros [= <-]; eexists; reflexivity.
  - intros self native Hnative.
    unfold OKX.ws_subscription_payload, OKX.fetch_candles,
      OKX.fetch_candles_params, intervals_getitem.
    rewrite Hnative. split; [reflexivity|].
    intros [s|] [e|] limit rq; cbn; try destruct (s =? 0); cbn;
      try discriminate; intros [= <-]; eexists; reflexivity.
Qed.

Lemma interval_token_lookup_witness :
  Hyperliquid.ws_subscription_payload Sample.hl_constants Sample.hl_self_7m
    = Err KeyError /\
  OKX.ws_subscription_payload Sample.okx_constants Sample.okx_self_7m
    = Err KeyError /\
  OKX.ws_subscription_payload Sample.okx_constants Sample.okx_self
    = Ok (VDict [("op", VStr "subscribe");
                 ("args",
                  VList [VDict [("channel", VStr "candle1H");
                                ("instId", VStr "BTC-USDT")]])]).
Proof.
  destruct (interval_token_lookup
    (CandlesBase.ensure_timestamp_in_seconds CandlesBase.Milliseconds)
              float_of_decimal Sample.hl_constants Sample.okx_constants)
    as (Hhl & Hokx & _ & Hokx').
  split; [|split].
  - apply Hhl. vm_compute. reflexivity.
  - apply Hokx. vm_compute. reflexivity.
  - apply (Hokx' Sample.okx_self "1H"). vm_compute. reflexivity.
Defined.

(** C7, as first stated, fails: for a token outside the table both
    adapters fail with the [KeyError] of the lookup, not with an error
    named [UnsupportedInterval]. *)
Lemma unlisted_interval_raises_KeyError :
  Sample.hl_constants.(Hyperliquid.INTERVALS) !! "7m" = None /\
  Sample.okx_constants.(OKX.INTERVALS) !! "7m" = None /\
  Hyperliquid.ws_subscription_payload Sample.hl_constants Sample.hl_self_7m
    = Err (Exn "KeyError") /\
  OKX.ws_subscription_payload Sample.okx_constants Sample.okx_self_7m
    = Err (Exn "KeyError") /\
  Exn "KeyError" <> Exn "UnsupportedInterval".
Proof.
  repeat split; try (vm_compute; reflexivity). discriminate.
Qed.

(** ** An empty response from Hyperliquid *)

(** C8.  For a response without rows Hyperliquid's [_parse_rest_candles]
    returns [None], not an empty list, and [fetch_candles], whatever its
    bounds, then returns the zero-dimensional array numpy makes of [None]:
    not the array without rows. *)
Theorem hyperliquid_empty_response
    (ensure_timestamp_in_seconds : pyval -> result Z)
    (float_of_str : string -> option npfloat)
    (CONSTANTS : Hyperliquid.constants) :
  (forall end_time,
     Hyperliquid._parse_rest_candles ensure_timestamp_in_seconds (VList [])
       end_time = Ok None) /\
  (forall self native start_time end_time rest_assistant,
     CONSTANTS.(Hyperliquid.INTERVALS) !! self.(Hyperliquid.interval)
       = Some native ->
     (forall rq, rest_assistant rq = Ok (VList [])) ->
     run rest_assistant
       (Hyperliquid.fetch_candles CONSTANTS ensure_timestamp_in_seconds
          float_of_str self start_time end_time) = Ok (NdScalar NaN) /\
     run rest_assistant
       (Hyperliquid.fetch_candles CONSTANTS ensure_timestamp_in_seconds
          float_of_str self start_time end_time) <> Ok (NdRows [])).
Proof.
  split; [reflexivity|].
  intros self native start_time end_time rest_assistant Hnative Hra.
  assert (Hrun :
    run rest_assistant
      (Hyperliquid.fetch_candles CONSTANTS ensure_timestamp_in_seconds
         float_of_str self start_time end_time) = Ok (NdScalar NaN)).
  { unfold Hyperliquid.fetch_candles, Hyperliquid.fetch_candles_reqs,
      intervals_getitem.
    rewrite Hnative.
    destruct start_time as [s|], end_time as [e|]; cbn;
      rewrite Hra; reflexivity. }
  split; [exact Hrun|]. rewrite Hrun. discriminate.
Qed.

Lemma hyperliquid_empty_response_witness :
  Sample.hl_constants.(Hyperliquid.INTERVALS) !! "1m" = Some "1m" /\
  run (Sample.answering (VList []))
    (Hyperliquid.fetch_candles Sample.hl_constants
       (CandlesBase.ensure_timestamp_in_seconds CandlesBase.Milliseconds)
       float_of_decimal
       Sample.hl_self None (Some 1718895800)) = Ok (NdScalar NaN).
Proof.
  assert (H : Sample.hl_constants.(Hyperliquid.INTERVALS) !! "1m"
              = Some "1m") by (vm_compute; reflexivity).
  split; [exact H|].
  exact (proj1 (proj2 (hyperliquid_empty_response
              (CandlesBase.ensure_timestamp_in_seconds CandlesBase.Milliseconds)
                         float_of_decimal Sample.hl_constants)
                  Sample.hl_self "1m" None (Some 1718895800)
                  (Sample.answering (VList [])) H (fun _ => eq_refl))).
Defined.

(** ** A zero start time on OKX *)

(** C9.  OKX's [fetch_candles] with a start time of [0] is the same
    coroutine as with no start time: it sends no [before].  With any other
    start time, the request carries [before], the start time times
    1000. *)
Theorem okx_zero_start_time
    (ensure_timestamp_in_seconds : pyval -> result Z)
    (float_of_str : string -> option npfloat)
    (CONSTANTS : OKX.constants) :
  (forall self end_time limit,
     OKX.fetch_candles CONSTANTS ensure_timestamp_in_seconds float_of_str
       self (Some 0) end_time limit
     = OKX.fetch_candles CONSTANTS ensure_timestamp_in_seconds float_of_str
         self None end_time limit) /\
  (forall self native start_time e limit,
     CONSTANTS.(OKX.INTERVALS) !! self.(OKX.interval) = Some native ->
     truthy start_time = false ->
     exists rq p,
       sent_request
         (OKX.fetch_candles CONSTANTS ensure_timestamp_in_seconds
            float_of_str self start_time (Some e) limit) = Some rq /\
       rq.(params) = Some p /\ dict_get p "before" = None) /\
  (forall self native s e limit,
     CONSTANTS.(OKX.INTERVALS) !! self.(OKX.interval) = Some native ->
     s <> 0 ->
     exists rq p,
       sent_request
         (OKX.fetch_candles CONSTANTS ensure_timestamp_in_seconds
            float_of_str self (Some s) (Some e) limit) = Some rq /\
       rq.(params) = Some p /\
       dict_get p "before" = Some (VInt (s * 1000))).
Proof.
  split; [reflexivity|]. split.
  - intros self native start_time e limit Hnative Hfalsy.
    unfold OKX.fetch_candles, OKX.fetch_candles_params, intervals_getitem.
    rewrite Hnative, Hfalsy. cbn. do 2 eexists. repeat split; reflexivity.
  - intros self native s e limit Hnative Hs.
    unfold OKX.fetch_candles, OKX.fetch_candles_params, intervals_getitem.
    rewrite Hnative. cbn.
    destruct (Z.eqb_spec s 0) as [?|_]; [done|].
    cbn. do 2 eexists. repeat split; reflexivity.
Qed.

Lemma okx_zero_start_time_witness :
  Sample.okx_constants.(OKX.INTERVALS) !! "1h" = Some "1H" /\
  (exists rq p,
     sent_request
       (OKX.fetch_candles Sample.okx_constants
          (CandlesBase.ensure_timestamp_in_seconds CandlesBase.Milliseconds)
          float_of_decimal
          Sample.okx_self (Some 0) (Some 1718902800) None) = Some rq /\
     rq.(params) = Some p /\ dict_get p "before" = None) /\
  (exists rq p,
     sent_request
       (OKX.fetch_candles Sample.okx_constants
          (CandlesBase.ensure_timestamp_in_seconds CandlesBase.Milliseconds)
          float_of_decimal
          Sample.okx_self (Some 1718895600) (Some 1718902800) None)
     = Some rq /\
     rq.(params) = Some p /\
     dict_get p "before" = Some (VInt (1718895600 * 1000))).
Proof.
  assert (H : Sample.okx_constants.(OKX.INTERVALS) !! "1h" = Some "1H")
    by (vm_compute; reflexivity).
  destruct (okx_zero_start_time
    (CandlesBase.ensure_timestamp_in_seconds CandlesBase.Milliseconds)
              float_of_decimal Sample.okx_constants) as (_ & Hzero & Hsome).
  split; [exact H|]. split.
  - exact (Hzero Sample.okx_self "1H" (Some 0) 1718902800 None H eq_refl).
  - refine (Hsome Sample.okx_self "1H" 1718895600 1718902800 None H _).
    discriminate.
Defined.

(** ** Health checks *)

(** C10.  [check_network] of either adapter returns [CONNECTED] when the
    assistant answers the health-check request, and raises what the
    assistant raises when it does not; it never returns
    [DISCONNECTED]. *)
Theorem check_network_never_disconnected
    (HL_CONSTANTS : Hyperliquid.constants) (OKX_CONSTANTS : OKX.constants) :
  (forall rest_assistant self,
     run rest_assistant (Hyperliquid.check_network HL_CONSTANTS self)
     = match rest_assistant (hl_health_request HL_CONSTANTS) with
       | Ok tokens =>
           Ok ({| Hyperliquid._trading_pair :=
                    self.(Hyperliquid._trading_pair);
                  Hyperliquid.interval := self.(Hyperliquid.interval);
                  Hyperliquid.interval_in_seconds :=
                    self.(Hyperliquid.interval_in_seconds);
                  Hyperliquid._base_asset := self.(Hyperliquid._base_asset);
                  Hyperliquid._tokens := tokens |}, CONNECTED)
       | Err e => Err e
       end) /\
  (forall rest_assistant self,
     run rest_assistant (OKX.check_network OKX_CONSTANTS self)
     = match rest_assistant (okx_health_request OKX_CONSTANTS) with
       | Ok _ => Ok CONNECTED
       | Err e => Err e
       end) /\
  (forall rest_assistant self self',
     run rest_assistant (Hyperliquid.check_network HL_CONSTANTS self)
     <> Ok (self', DISCONNECTED)) /\
  (forall rest_assistant self,
     run rest_assistant (OKX.check_network OKX_CONSTANTS self)
     <> Ok DISCONNECTED).
Proof.
  split; [|split; [|split]].
  - intros rest_assistant self. cbn.
    unfold hl_health_request, Hyperliquid.rest_url.
    by destruct (rest_assistant _).
  - intros rest_assistant self. cbn.
    unfold okx_health_request, OKX.health_check_url, OKX.rest_url.
    by destruct (rest_assistant _).
  - intros rest_assistant self self'. cbn.
    by destruct (rest_assistant _).
  - intros rest_assistant self. cbn.
    by destruct (rest_assistant _).
Qed.


(** * Further properties of the adapters *)

(** ** Hyperliquid's filter on the end bound *)

Section EndBoundFilter.

Variable ensure_timestamp_in_seconds : pyval -> result Z.

Lemma hl_rest_row_kept_Ok (e : Z) (row : pyval) (keep : bool) :
  Hyperliquid.rest_row_kept ensure_timestamp_in_seconds (Some e) row
    = Ok keep ->
  exists ts,
    (t ← getitem_str row "t"; ensure_timestamp_in_seconds t) = Ok ts /\
    keep = (ts <? e).
Proof.
  unfold Hyperliquid.rest_row_kept. intros H.
  bind_step H as t Ht. bind_step H as ts Hts. injection H as <-.
  exists ts. rewrite Ht. cbn. by rewrite Hts.
Qed.

Lemma hl_comprehension_filter (e : Z) (rows : list pyval)
    (arr : list (list pyval)) :
  comprehension
    (Hyperliquid.rest_row_kept ensure_timestamp_in_seconds (Some e))
    (Hyperliquid.rest_row ensure_timestamp_in_seconds) rows = Ok arr ->
  exists ts,
    wire_times ensure_timestamp_in_seconds
      (fun row => getitem_str row "t") rows = Ok ts /\
    row_timestamps arr = Some (List.filter (fun t => t <? e) ts).
Proof.
  unfold wire_times, comprehension_all, row_timestamps. revert arr.
  induction rows as [|row rows IH]; intros arr H.
  - cbn in H. injection H as <-. by exists [].
  - cbn [comprehension] in H. bind_step H as keep Hkeep.
    apply hl_rest_row_kept_Ok in Hkeep as (ts0 & Hts0 & ->).
    destruct (ts0 <? e) eqn:Hlt.
    + bind_step H as cells Hcells. bind_step H as arr' Harr'.
      injection H as <-.
      destruct (IH _ Harr') as (ts & Hts & Hfilter).
      exists (ts0 :: ts). split.
      * cbn. rewrite Hts0. cbn. by rewrite Hts.
      * change (mapM row_timestamp (cells :: arr'))
          with (y ← row_timestamp cells;
                k ← mapM row_timestamp arr'; mret (y :: k)).
        rewrite (hl_rest_row_timestamp _ _ _ _ Hcells Hts0), Hfilter.
        cbn [List.filter]. by rewrite Hlt.
    + destruct (IH _ H) as (ts & Hts & Hfilter).
      exists (ts0 :: ts). split.
      * cbn. rewrite Hts0. cbn. by rewrite Hts.
      * cbn [List.filter]. by rewrite Hlt.
Qed.

Lemma hl_comprehension_narrow (e1 e2 : Z) (rows : list pyval)
    (arr : list (list pyval)) :
  e1 <= e2 ->
  comprehension
    (Hyperliquid.rest_row_kept ensure_timestamp_in_seconds (Some e2))
    (Hyperliquid.rest_row ensure_timestamp_in_seconds) rows = Ok arr ->
  comprehension
    (Hyperliquid.rest_row_kept ensure_timestamp_in_seconds (Some e1))
    (Hyperliquid.rest_row ensure_timestamp_in_seconds) rows
  = Ok (List.filter (row_before e1) arr).
Proof.
  intros Hle. revert arr.
  induction rows as [|row rows IH]; intros arr H.
  - cbn in H. injection H as <-. reflexivity.
  - cbn [comprehension] in H |- *. bind_step H as keep Hkeep.
    apply hl_rest_row_kept_Ok in Hkeep as (ts0 & Hts0 & ->).
    assert (Hkept1 :
      Hyperliquid.rest_row_kept ensure_timestamp_in_seconds (Some e1) row
      = Ok (ts0 <? e1)).
    { unfold Hyperliquid.rest_row_kept.
      destruct (getitem_str row "t") as [t|]; [|discriminate].
      cbn in Hts0 |- *. by rewrite Hts0. }
    rewrite Hkept1. cbn.
    destruct (Z.ltb_spec ts0 e2) as [Hlt2|Hge2].
    + bind_step H as cells Hcells. bind_step H as arr' Harr'.
      injection H as <-. rewrite (IH _ Harr').
      assert (Hbefore : row_before e1 cells = (ts0 <? e1)).
      { unfold row_before.
        by rewrite (hl_rest_row_timestamp _ _ _ _ Hcells Hts0). }
      cbn [List.filter]. rewrite Hbefore.
      destruct (ts0 <? e1); [|reflexivity].
      rewrite Hcells. reflexivity.
    + destruct (Z.ltb_spec ts0 e1) as [?|_]; [lia|]. by apply IH.
Qed.

End EndBoundFilter.

(** X1.  With an end bound, the rows Hyperliquid's [_parse_rest_candles]
    returns are exactly the rows of the response whose time is before the
    bound, in the order of the response: none of them is dropped and no
    other is kept. *)
Theorem hl_parse_keeps_exactly_rows_before
    (ensure_timestamp_in_seconds : pyval -> result Z)
    (body : pyval) (rows : list pyval) (e : Z) (arr : list (list pyval)) :
  py_iter body = Ok rows ->
  Hyperliquid._parse_rest_candles ensure_timestamp_in_seconds body (Some e)
    = Ok (Some arr) ->
  exists ts,
    wire_times ensure_timestamp_in_seconds
      (fun row => getitem_str row "t") rows = Ok ts /\
    row_timestamps arr = Some (List.filter (fun t => t <? e) ts).
Proof.
  intros Hrows H.
  apply hl_parse_rest_candles_Some in H as (rows' & Hrows' & H).
  rewrite Hrows in Hrows'. injection Hrows' as <-.
  by apply hl_comprehension_filter.
Qed.

Lemma hl_parse_keeps_exactly_rows_before_witness :
  py_iter Sample.hl_response
    = Ok [Sample.hl_candle 1718895660000 754 "3512.6" "3514.1" "3510.4"
            "3513.8" "271.93";
          Sample.hl_candle 1718895720000 531 "3513.8" "3515.0" "3512.2"
            "3514.7" "198.05"] /\
  exists arr ts,
    Hyperliquid._parse_rest_candles
      (CandlesBase.ensure_timestamp_in_seconds CandlesBase.Milliseconds)
      Sample.hl_response (Some 1718895720) = Ok (Some arr) /\
    wire_times
      (CandlesBase.ensure_timestamp_in_seconds CandlesBase.Milliseconds)
      (fun row => getitem_str row "t")
      [Sample.hl_candle 1718895660000 754 "3512.6" "3514.1" "3510.4"
         "3513.8" "271.93";
       Sample.hl_candle 1718895720000 531 "3513.8" "3515.0" "3512.2"
         "3514.7" "198.05"] = Ok ts /\
    row_timestamps arr
    = Some (List.filter (fun t => t <? 1718895720) ts).
Proof.
  split; [reflexivity|].
  eexists.
  assert (Hparse :
    Hyperliquid._parse_rest_candles
      (CandlesBase.ensure_timestamp_in_seconds CandlesBase.Milliseconds)
      Sample.hl_response (Some 1718895720)
    = Ok (Some [candle_row 1718895660 (VStr "3512.6") (VStr "3514.1")
                  (VStr "3510.4") (VStr "3513.8") (VStr "271.93") (VFloat 0)
                  (VInt 754) (VFloat 0) (VFloat 0)]))
    by (vm_compute; reflexivity).
  destruct (hl_parse_keeps_exactly_rows_before
              (CandlesBase.ensure_timestamp_in_seconds CandlesBase.Milliseconds)
              Sample.hl_response _
              1718895720 _ eq_refl Hparse) as (ts & Hts & Harr).
  exists ts. split; [exact Hparse|]. split; [exact Hts|exact Harr].
Defined.

(** X2.  Lowering Hyperliquid's end bound only removes rows: parsing a
    response with the bound [e1] gives what is left of the parse with a
    later bound [e2] when the rows at or after [e1] are taken out (and
    nothing where that parse gives nothing). *)
Theorem hl_parse_narrower_bound
    (ensure_timestamp_in_seconds : pyval -> result Z)
    (body : pyval) (e1 e2 : Z) (parsed : option (list (list pyval))) :
  e1 <= e2 ->
  Hyperliquid._parse_rest_candles ensure_timestamp_in_seconds body (Some e2)
    = Ok parsed ->
  Hyperliquid._parse_rest_candles ensure_timestamp_in_seconds body (Some e1)
  = Ok (option_map (List.filter (row_before e1)) parsed).
Proof.
  intros Hle. unfold Hyperliquid._parse_rest_candles. intros H.
  bind_step H as n Hn. rewrite Hn. cbn -[Z.ltb].
  destruct (0 <? n).
  - bind_step H as rows Hrows. bind_step H as arr Harr. injection H as <-.
    rewrite Hrows. cbn.
    by rewrite (hl_comprehension_narrow _ _ _ _ _ Hle Harr).
  - by injection H as <-.
Qed.

Lemma hl_parse_narrower_bound_witness :
  1718895700 <= 1718895800 /\
  Hyperliquid._parse_rest_candles
    (CandlesBase.ensure_timestamp_in_seconds CandlesBase.Milliseconds)
    Sample.hl_response (Some 1718895700)
  = Ok (option_map (List.filter (row_before 1718895700))
          (Some [candle_row 1718895660 (VStr "3512.6") (VStr "3514.1")
                   (VStr "3510.4") (VStr "3513.8") (VStr "271.93")
                   (VFloat 0) (VInt 754) (VFloat 0) (VFloat 0);
                 candle_row 1718895720 (VStr "3513.8") (VStr "3515.0")
                   (VStr "3512.2") (VStr "3514.7") (VStr "198.05")
                   (VFloat 0) (VInt 531) (VFloat 0) (VFloat 0)])).
Proof.
  assert (Hle : 1718895700 <= 1718895800) by (vm_compute; discriminate).
  split; [exact Hle|].
  exact (hl_parse_narrower_bound
    (CandlesBase.ensure_timestamp_in_seconds CandlesBase.Milliseconds)
           Sample.hl_response 1718895700 1718895800 _ Hle
           hl_parse_rest_candles_sample).
Defined.

(** ** Rows that are skipped, rows that fail *)

Section ComprehensionEdges.

Context {A B : Type}.
Variable cond : A -> result bool.
Variable elem : A -> result B.

Lemma comprehension_skip (l1 l2 : list A) (r : A) :
  cond r = Ok false ->
  comprehension cond elem (l1 ++ r :: l2)%list
  = comprehension cond elem (l1 ++ l2)%list.
Proof.
  intros Hr. induction l1 as [|x l1 IH]; cbn.
  - by rewrite Hr.
  - by rewrite IH.
Qed.

Lemma comprehension_none (rows : list A) :
  Forall (fun r => cond r = Ok false) rows ->
  comprehension cond elem rows = Ok [].
Proof.
  induction 1 as [|r rows Hr _ IH]; cbn; [reflexivity|].
  by rewrite Hr.
Qed.

Lemma comprehension_raises (rows : list A) (r : A) (x : exn) :
  In r rows ->
  cond r = Err x \/ (cond r = Ok true /\ elem r = Err x) ->
  exists x', comprehension cond elem rows = Err x'.
Proof.
  intros Hin Hr. induction rows as [|r' rows IH]; [destruct Hin|].
  cbn. destruct Hin as [->|Hin].
  - destruct Hr as [Hr|[Hr Hr']].
    + rewrite Hr. cbn. eauto.
    + rewrite Hr. cbn. rewrite Hr'. cbn. eauto.
  - destruct (IH Hin) as [x' Hx'].
    destruct (cond r') as [[|]|]; cbn; [|by eauto|by eauto].
    destruct (elem r'); cbn; [|by eauto].
    rewrite Hx'. cbn. eauto.
Qed.

End ComprehensionEdges.

Lemma hl_rest_row_kept_of_time
    (ensure_timestamp_in_seconds : pyval -> result Z) (e : Z) (row : pyval)
    (ts : Z) :
  (t ← getitem_str row "t"; ensure_timestamp_in_seconds t) = Ok ts ->
  Hyperliquid.rest_row_kept ensure_timestamp_in_seconds (Some e) row
  = Ok (ts <? e).
Proof.
  unfold Hyperliquid.rest_row_kept. intros H.
  destruct (getitem_str row "t") as [t|]; [|discriminate].
  cbn in H |- *. by rewrite H.
Qed.

Lemma length_pos_ltb {A : Type} (l : list A) :
  l <> [] -> (0 <? Z.of_nat (length l)) = true.
Proof.
  intros Hne. apply Z.ltb_lt. destruct l; [done|cbn; lia].
Qed.

(** X3.  A row of the response that Hyperliquid's filter leaves out is not
    read any further: whatever else it holds or lacks, the parse of a
    response that holds other rows too gives what it gives without that
    row.  Where it is the only row of the response the parse gives the
    empty list: not what the response without it gives, which is empty
    and parsed to [None]. *)
Theorem hl_parse_skipped_row_unread
    (ensure_timestamp_in_seconds : pyval -> result Z)
    (l1 l2 : list pyval) (r : pyval) (end_time : option Z) :
  Hyperliquid.rest_row_kept ensure_timestamp_in_seconds end_time r
    = Ok false ->
  Hyperliquid._parse_rest_candles ensure_timestamp_in_seconds
    (VList (l1 ++ r :: l2)%list) end_time
  = match (l1 ++ l2)%list with
    | [] => Ok (Some [])
    | _ :: _ =>
        Hyperliquid._parse_rest_candles ensure_timestamp_in_seconds
          (VList (l1 ++ l2)%list) end_time
    end.
Proof.
  intros Hr. destruct (l1 ++ l2)%list as [|r' l] eqn:Hrows.
  - apply app_eq_nil in Hrows as [-> ->].
    unfold Hyperliquid._parse_rest_candles. cbn.
    change (0 <? Z.of_nat 1) with true. cbv iota. rewrite Hr.
    reflexivity.
  - assert (Hne : (l1 ++ l2)%list <> []) by (rewrite Hrows; discriminate).
    rewrite <- Hrows. unfold Hyperliquid._parse_rest_candles.
    cbn -[Z.ltb]. rewrite !length_pos_ltb by (done || by destruct l1).
    by rewrite comprehension_skip.
Qed.

Lemma hl_parse_skipped_row_unread_witness :
  Hyperliquid.rest_row_kept
    (CandlesBase.ensure_timestamp_in_seconds CandlesBase.Milliseconds)
    (Some 1718895720) (VDict [("t", VInt 1718895720000)]) = Ok false /\
  Hyperliquid._parse_rest_candles
    (CandlesBase.ensure_timestamp_in_seconds CandlesBase.Milliseconds)
    (VList ([Sample.hl_candle 1718895660000 754 "3512.6" "3514.1" "3510.4"
               "3513.8" "271.93"]
            ++ VDict [("t", VInt 1718895720000)] :: [])%list)
    (Some 1718895720)
  = Hyperliquid._parse_rest_candles
    (CandlesBase.ensure_timestamp_in_seconds CandlesBase.Milliseconds)
      (VList ([Sample.hl_candle 1718895660000 754 "3512.6" "3514.1"
                 "3510.4" "3513.8" "271.93"] ++ [])%list)
      (Some 1718895720) /\
  Hyperliquid._parse_rest_candles
    (CandlesBase.ensure_timestamp_in_seconds CandlesBase.Milliseconds)
    (VList ([] ++ VDict [("t", VInt 1718895720000)] :: [])%list)
    (Some 1718895720)
  = Ok (Some []) /\
  Hyperliquid._parse_rest_candles
    (CandlesBase.ensure_timestamp_in_seconds CandlesBase.Milliseconds)
    (VList ([] ++ [])%list) (Some 1718895720)
  = Ok None.
Proof.
  assert (Hskip :
    Hyperliquid.rest_row_kept
      (CandlesBase.ensure_timestamp_in_seconds CandlesBase.Milliseconds)
      (Some 1718895720) (VDict [("t", VInt 1718895720000)]) = Ok false)
    by (vm_compute; reflexivity).
  split; [exact Hskip|]. split.
  - exact (hl_parse_skipped_row_unread
             (CandlesBase.ensure_timestamp_in_seconds CandlesBase.Milliseconds)
             [Sample.hl_candle 1718895660000 754 "3512.6" "3514.1"
                "3510.4" "3513.8" "271.93"] [] _ _ Hskip).
  - split; [|reflexivity].
    exact (hl_parse_skipped_row_unread
             (CandlesBase.ensure_timestamp_in_seconds CandlesBase.Milliseconds)
             [] [] _ _ Hskip).
Defined.

(** X4.  Hyperliquid's [_parse_rest_candles] returns no part of a response
    it cannot read in full: when the filter raises on some row (its time
    is missing or not a timestamp, or there is no end bound to compare it
    with), or a row that passes the filter lacks a field, the parse
    raises. *)
Theorem hl_parse_raises_on_bad_row
    (ensure_timestamp_in_seconds : pyval -> result Z)
    (rows : list pyval) (r : pyval) (end_time : option Z) (x : exn) :
  In r rows ->
  Hyperliquid.rest_row_kept ensure_timestamp_in_seconds end_time r = Err x \/
  (Hyperliquid.rest_row_kept ensure_timestamp_in_seconds end_time r
     = Ok true /\
   Hyperliquid.rest_row ensure_timestamp_in_seconds r = Err x) ->
  exists x',
    Hyperliquid._parse_rest_candles ensure_timestamp_in_seconds (VList rows)
      end_time = Err x'.
Proof.
  intros Hin Hr. unfold Hyperliquid._parse_rest_candles.
  cbn -[Z.ltb]. rewrite length_pos_ltb by (by destruct rows).
  destruct (comprehension_raises _ _ rows r x Hin Hr) as [x' Hx'].
  rewrite Hx'. cbn. eauto.
Qed.

Lemma hl_parse_raises_on_bad_row_witness :
  exists x',
    Hyperliquid._parse_rest_candles
      (CandlesBase.ensure_timestamp_in_seconds CandlesBase.Milliseconds)
      (VList [Sample.hl_candle 1718895660000 754 "3512.6" "3514.1" "3510.4"
                "3513.8" "271.93";
              VDict [("t", VInt 1718895720000); ("o", VStr "3513.8")]])
      (Some 1718895800) = Err x'.
Proof.
  apply (hl_parse_raises_on_bad_row
    (CandlesBase.ensure_timestamp_in_seconds CandlesBase.Milliseconds)
           _ (VDict [("t", VInt 1718895720000); ("o", VStr "3513.8")])
           _ KeyError).
  - right. left. reflexivity.
  - right. split; vm_compute; reflexivity.
Defined.

(** ** [fetch_candles] as a whole *)

Lemma mapM_result_Forall2 {A B : Type} (g : A -> result B) (l : list A)
    (k : list B) :
  mapM g l = Ok k -> Forall2 (fun x y => g x = Ok y) l k.
Proof.
  revert k. induction l as [|x l IH]; intros k H.
  - cbn in H. injection H as <-. constructor.
  - change (mapM g (x :: l)) with (y ← g x; k ← mapM g l; mret (y :: k)) in H.
    bind_step H as y Hy. bind_step H as k' Hk'. injection H as <-.
    constructor; auto.
Qed.

Section FetchCandles.

Variable ensure_timestamp_in_seconds : pyval -> result Z.
Variable float_of_str : string -> option npfloat.
Variable HL_CONSTANTS : Hyperliquid.constants.
Variable OKX_CONSTANTS : OKX.constants.

(** Once its request is built, Hyperliquid's [fetch_candles] is the
    request, the parse of the answer and the conversion, one after the
    other. *)
Lemma hl_fetch_candles_run (self : Hyperliquid.HyperliquidPerpetualCandles)
    (start_time end_time : option Z)
    (rest_assistant : request -> result pyval) (rq : request) :
  sent_request
    (Hyperliquid.fetch_candles HL_CONSTANTS ensure_timestamp_in_seconds
       float_of_str self start_time end_time) = Some rq ->
  run rest_assistant
    (Hyperliquid.fetch_candles HL_CONSTANTS ensure_timestamp_in_seconds
       float_of_str self start_time end_time)
  = (body ← rest_assistant rq;
     arr ← Hyperliquid._parse_rest_candles ensure_timestamp_in_seconds body
             end_time;
     np_array_astype_float float_of_str arr) /\
  requests rest_assistant
    (Hyperliquid.fetch_candles HL_CONSTANTS ensure_timestamp_in_seconds
       float_of_str self start_time end_time) = [rq].
Proof.
  unfold Hyperliquid.fetch_candles.
  destruct (Hyperliquid.fetch_candles_reqs HL_CONSTANTS self start_time
              end_time) as [reqs|x];
    cbn -[Hyperliquid._parse_rest_candles np_array_astype_float];
    [|discriminate].
  intros [= <-].
  destruct (rest_assistant _) as [body|x];
    cbn -[Hyperliquid._parse_rest_candles np_array_astype_float];
    [|by split].
  destruct (Hyperliquid._parse_rest_candles _ body end_time) as [arr|x];
    cbn -[np_array_astype_float]; [|by split].
  by destruct (np_array_astype_float float_of_str arr).
Qed.

Lemma hl_fetch_candles_unsent (self : Hyperliquid.HyperliquidPerpetualCandles)
    (start_time end_time : option Z)
    (rest_assistant : request -> result pyval) :
  sent_request
    (Hyperliquid.fetch_candles HL_CONSTANTS ensure_timestamp_in_seconds
       float_of_str self start_time end_time) = None ->
  requests rest_assistant
    (Hyperliquid.fetch_candles HL_CONSTANTS ensure_timestamp_in_seconds
       float_of_str self start_time end_time) = [] /\
  exists x,
    run rest_assistant
      (Hyperliquid.fetch_candles HL_CONSTANTS ensure_timestamp_in_seconds
         float_of_str self start_time end_time) = Err x.
Proof.
  unfold Hyperliquid.fetch_candles.
  destruct (Hyperliquid.fetch_candles_reqs HL_CONSTANTS self start_time
              end_time) as [reqs|x]; cbn; [discriminate|].
  intros _. eauto.
Qed.

Lemma okx_fetch_candles_run (self : OKX.OKXSpotCandles)
    (start_time end_time limit : option Z)
    (rest_assistant : request -> result pyval) (rq : request) :
  sent_request
    (OKX.fetch_candles OKX_CONSTANTS ensure_timestamp_in_seconds
       float_of_str self start_time end_time limit) = Some rq ->
  run rest_assistant
    (OKX.fetch_candles OKX_CONSTANTS ensure_timestamp_in_seconds
       float_of_str self start_time end_time limit)
  = (body ← rest_assistant rq;
     arr ← OKX.fetch_candles_arr ensure_timestamp_in_seconds body;
     np_array_astype_float float_of_str (Some arr)) /\
  requests rest_assistant
    (OKX.fetch_candles OKX_CONSTANTS ensure_timestamp_in_seconds
       float_of_str self start_time end_time limit) = [rq].
Proof.
  unfold OKX.fetch_candles.
  destruct (OKX.fetch_candles_params OKX_CONSTANTS self start_time end_time)
    as [ps|x];
    cbn -[OKX.fetch_candles_arr np_array_astype_float]; [|discriminate].
  intros [= <-].
  destruct (rest_assistant _) as [body|x];
    cbn -[OKX.fetch_candles_arr np_array_astype_float]; [|by split].
  destruct (OKX.fetch_candles_arr _ body) as [arr|x];
    cbn -[np_array_astype_float]; [|by split].
  by destruct (np_array_astype_float float_of_str (Some arr)).
Qed.

Lemma okx_fetch_candles_unsent (self : OKX.OKXSpotCandles)
    (start_time end_time limit : option Z)
    (rest_assistant : request -> result pyval) :
  sent_request
    (OKX.fetch_candles OKX_CONSTANTS ensure_timestamp_in_seconds
       float_of_str self start_time end_time limit) = None ->
  requests rest_assistant
    (OKX.fetch_candles OKX_CONSTANTS ensure_timestamp_in_seconds
       float_of_str self start_time end_time limit) = [] /\
  exists x,
    run rest_assistant
      (OKX.fetch_candles OKX_CONSTANTS ensure_timestamp_in_seconds
         float_of_str self start_time end_time limit) = Err x.
Proof.
  unfold OKX.fetch_candles.
  destruct (OKX.fetch_candles_params OKX_CONSTANTS self start_time end_time)
    as [ps|x]; cbn; [discriminate|].
  intros _. eauto.
Qed.

End FetchCandles.

(** X5.  One call of [fetch_candles], of either adapter, hands over at
    most one request, whatever the answer: there is no second page and no
    retry.  An exception of the REST call is raised to the caller as it
    is. *)
Theorem fetch_candles_single_request
    (ensure_timestamp_in_seconds : pyval -> result Z)
    (float_of_str : string -> option npfloat)
    (HL_CONSTANTS : Hyperliquid.constants) (OKX_CONSTANTS : OKX.constants)
    (rest_assistant : request -> result pyval) :
  (forall self start_time end_time,
     (length
        (requests rest_assistant
           (Hyperliquid.fetch_candles HL_CONSTANTS
              ensure_timestamp_in_seconds float_of_str self start_time
              end_time)) <= 1)%nat /\
     forall rq x,
       sent_request
         (Hyperliquid.fetch_candles HL_CONSTANTS ensure_timestamp_in_seconds
            float_of_str self start_time end_time) = Some rq ->
       rest_assistant rq = Err x ->
       run rest_assistant
         (Hyperliquid.fetch_candles HL_CONSTANTS ensure_timestamp_in_seconds
            float_of_str self start_time end_time) = Err x) /\
  (forall self start_time end_time limit,
     (length
        (requests rest_assistant
           (OKX.fetch_candles OKX_CONSTANTS ensure_timestamp_in_seconds
              float_of_str self start_time end_time limit)) <= 1)%nat /\
     forall rq x,
       sent_request
         (OKX.fetch_candles OKX_CONSTANTS ensure_timestamp_in_seconds
            float_of_str self start_time end_time limit) = Some rq ->
       rest_assistant rq = Err x ->
       run rest_assistant
         (OKX.fetch_candles OKX_CONSTANTS ensure_timestamp_in_seconds
            float_of_str self start_time end_time limit) = Err x).
Proof.
  split.
  - intros self start_time end_time. split.
    + destruct (sent_request
                  (Hyperliquid.fetch_candles HL_CONSTANTS
                     ensure_timestamp_in_seconds float_of_str self start_time
                     end_time)) as [rq|] eqn:Hsent.
      * destruct (hl_fetch_candles_run _ _ _ _ _ _ rest_assistant _ Hsent)
          as [_ ->]. cbn. lia.
      * destruct (hl_fetch_candles_unsent _ _ _ _ _ _ rest_assistant Hsent)
          as [-> _]. cbn. lia.
    + intros rq x Hsent Hraise.
      destruct (hl_fetch_candles_run _ _ _ _ _ _ rest_assistant _ Hsent)
        as [-> _]. by rewrite Hraise.
  - intros self start_time end_time limit. split.
    + destruct (sent_request
                  (OKX.fetch_candles OKX_CONSTANTS
                     ensure_timestamp_in_seconds float_of_str self start_time
                     end_time limit)) as [rq|] eqn:Hsent.
      * destruct (okx_fetch_candles_run _ _ _ _ _ _ _ rest_assistant _ Hsent)
          as [_ ->]. cbn. lia.
      * destruct (okx_fetch_candles_unsent _ _ _ _ _ _ _ rest_assistant Hsent)
          as [-> _]. cbn. lia.
    + intros rq x Hsent Hraise.
      destruct (okx_fetch_candles_run _ _ _ _ _ _ _ rest_assistant _ Hsent)
        as [-> _]. by rewrite Hraise.
Qed.

Lemma fetch_candles_single_request_witness :
  run (fun _ => Err (Exn "TimeoutError"))
    (OKX.fetch_candles Sample.okx_constants
       (CandlesBase.ensure_timestamp_in_seconds CandlesBase.Milliseconds)
       float_of_decimal
       Sample.okx_self None (Some 1718902800) None)
  = Err (Exn "TimeoutError").
Proof.
  destruct (fetch_candles_single_request
              (CandlesBase.ensure_timestamp_in_seconds CandlesBase.Milliseconds)
              float_of_decimal
              Sample.hl_constants Sample.okx_constants
              (fun _ => Err (Exn "TimeoutError"))) as [_ Hokx].
  destruct (Hokx Sample.okx_self None (Some 1718902800) None) as [_ Hraise].
  eapply Hraise; [vm_compute|]; reflexivity.
Defined.

(** ** The shape of the array *)

Lemma np_array_rows (float_of_str : string -> option npfloat)
    (arr : list (list pyval)) (nd : ndarray) :
  np_array_astype_float float_of_str (Some arr) = Ok nd ->
  exists floats,
    nd = NdRows floats /\
    Forall2 (fun cells row => length row = length cells) arr floats.
Proof.
  cbn. intros H. bind_step H as floats Hfloats. injection H as <-.
  exists floats. split; [reflexivity|].
  apply mapM_result_Forall2 in Hfloats.
  eapply Forall2_impl; [exact Hfloats|].
  cbn. intros cells row Hrow.
  apply mapM_result_Forall2 in Hrow. symmetry. by eapply Forall2_length.
Qed.

Lemma Forall2_Forall_length {A B : Type} (n : nat) (l : list (list A))
    (k : list (list B)) :
  Forall2 (fun x y => length y = length x) l k ->
  Forall (fun x => length x = n) l ->
  Forall (fun y => length y = n) k /\ length k = length l.
Proof.
  induction 1 as [|x y l k Hxy _ IH]; intros Hl.
  - split; [constructor|reflexivity].
  - apply Forall_cons in Hl as [Hx Hl]. destruct (IH Hl) as [Hk Hlen].
    split; [constructor; [congruence|done]|cbn; congruence].
Qed.

Section Shapes.

Variable ensure_timestamp_in_seconds : pyval -> result Z.

Lemma hl_parse_rest_candles_shape (body : pyval) (end_time : option Z)
    (arr : list (list pyval)) :
  Hyperliquid._parse_rest_candles ensure_timestamp_in_seconds body end_time
    = Ok (Some arr) ->
  Forall (fun cells => length cells = 10%nat) arr /\
  forall rows, py_iter body = Ok rows -> (length arr <= length rows)%nat.
Proof.
  intros H.
  apply hl_parse_rest_candles_Some in H as (rows & Hrows & H).
  apply comprehension_Ok in H as (kept & Hsub & Hkept). split.
  - eapply Forall2_Forall_r; [exact Hkept|].
    apply Forall_forall. intros row _ cells [_ Hcells].
    apply hl_rest_row_Ok in Hcells
      as (t & ts & o & h & l & c & v & n & _ & _ & _ & _ & _ & _ & _ & _
          & ->).
    reflexivity.
  - intros rows' Hrows'. rewrite Hrows in Hrows'. injection Hrows' as <-.
    rewrite <- (Forall2_length _ _ _ Hkept). by apply sublist_length.
Qed.

Lemma okx_fetch_candles_arr_shape (body : pyval) (arr : list (list pyval)) :
  OKX.fetch_candles_arr ensure_timestamp_in_seconds body = Ok arr ->
  Forall (fun cells => length cells = 10%nat) arr /\
  forall rows_value rows,
    getitem_str body "data" = Ok rows_value ->
    py_iter rows_value = Ok rows -> length arr = length rows.
Proof.
  intros H.
  apply okx_fetch_candles_arr_Ok in H as (rows_value & rows & Hv & Hrows & H).
  split.
  - apply Forall_reverse. eapply Forall2_Forall_r; [exact H|].
    apply Forall_forall. intros row _ cells Hcells.
    apply okx_rest_row_Ok in Hcells
      as (t & ts & o & h & l & c & v & n & _ & _ & _ & _ & _ & _ & _ & _
          & ->).
    reflexivity.
  - intros rows_value' rows' Hv' Hrows'.
    rewrite Hv in Hv'. injection Hv' as <-.
    rewrite Hrows in Hrows'. injection Hrows' as <-.
    apply Forall2_length in H. rewrite length_reverse in H. by symmetry.
Qed.

End Shapes.

(** X6.  Whenever [fetch_candles] returns an array of rows, every row has
    ten columns.  From OKX the array has one row for each candle of the
    response; from Hyperliquid it has at most one row for each. *)
Theorem fetch_candles_array_shape
    (ensure_timestamp_in_seconds : pyval -> result Z)
    (float_of_str : string -> option npfloat)
    (HL_CONSTANTS : Hyperliquid.constants) (OKX_CONSTANTS : OKX.constants)
    (rest_assistant : request -> result pyval) :
  (forall self start_time end_time floats,
     run rest_assistant
       (Hyperliquid.fetch_candles HL_CONSTANTS ensure_timestamp_in_seconds
          float_of_str self start_time end_time) = Ok (NdRows floats) ->
     Forall (fun row => length row = 10%nat) floats /\
     exists rq body,
       sent_request
         (Hyperliquid.fetch_candles HL_CONSTANTS ensure_timestamp_in_seconds
            float_of_str self start_time end_time) = Some rq /\
       rest_assistant rq = Ok body /\
       forall rows,
         py_iter body = Ok rows -> (length floats <= length rows)%nat) /\
  (forall self start_time end_time limit nd,
     run rest_assistant
       (OKX.fetch_candles OKX_CONSTANTS ensure_timestamp_in_seconds
          float_of_str self start_time end_time limit) = Ok nd ->
     exists floats rq body,
       nd = NdRows floats /\
       Forall (fun row => length row = 10%nat) floats /\
       sent_request
         (OKX.fetch_candles OKX_CONSTANTS ensure_timestamp_in_seconds
            float_of_str self start_time end_time limit) = Some rq /\
       rest_assistant rq = Ok body /\
       forall rows_value rows,
         getitem_str body "data" = Ok rows_value ->
         py_iter rows_value = Ok rows -> length floats = length rows).
Proof.
  split.
  - intros self start_time end_time floats Hrun.
    destruct (sent_request
                (Hyperliquid.fetch_candles HL_CONSTANTS
                   ensure_timestamp_in_seconds float_of_str self start_time
                   end_time)) as [rq|] eqn:Hsent.
    2: { destruct (hl_fetch_candles_unsent _ _ _ _ _ _ rest_assistant Hsent)
           as [_ [x Hx]]. congruence. }
    destruct (hl_fetch_candles_run _ _ _ _ _ _ rest_assistant _ Hsent)
      as [Heq _].
    rewrite Heq in Hrun. bind_step Hrun as body Hbody.
    bind_step Hrun as arr Harr.
    destruct arr as [arr|]; [|discriminate].
    apply np_array_rows in Hrun as (floats' & [= <-] & Hrows).
    apply hl_parse_rest_candles_shape in Harr as [Hten Hcount].
    destruct (Forall2_Forall_length _ _ _ Hrows Hten) as [Hten' Hlen].
    split; [exact Hten'|].
    exists rq, body. repeat split; [done|].
    intros rows Hiter. rewrite Hlen. by apply Hcount.
  - intros self start_time end_time limit nd Hrun.
    destruct (sent_request
                (OKX.fetch_candles OKX_CONSTANTS
                   ensure_timestamp_in_seconds float_of_str self start_time
                   end_time limit)) as [rq|] eqn:Hsent.
    2: { destruct (okx_fetch_candles_unsent _ _ _ _ _ _ _ rest_assistant
                     Hsent) as [_ [x Hx]]. congruence. }
    destruct (okx_fetch_candles_run _ _ _ _ _ _ _ rest_assistant _ Hsent)
      as [Heq _].
    rewrite Heq in Hrun. bind_step Hrun as body Hbody.
    bind_step Hrun as arr Harr.
    apply np_array_rows in Hrun as (floats & -> & Hrows).
    apply okx_fetch_candles_arr_shape in Harr as [Hten Hcount].
    destruct (Forall2_Forall_length _ _ _ Hrows Hten) as [Hten' Hlen].
    exists floats, rq, body. repeat split; [done..|].
    intros rows_value rows Hv Hiter. rewrite Hlen. by eapply Hcount.
Qed.

Lemma fetch_candles_array_shape_witness :
  exists floats,
    run (Sample.answering Sample.okx_response)
      (OKX.fetch_candles Sample.okx_constants
         (CandlesBase.ensure_timestamp_in_seconds CandlesBase.Milliseconds)
         float_of_decimal
         Sample.okx_self None (Some 1718902800) None) = Ok (NdRows floats) /\
    Forall (fun row => length row = 10%nat) floats /\
    length floats = 2%nat.
Proof.
  destruct (fetch_candles_array_shape
              (CandlesBase.ensure_timestamp_in_seconds CandlesBase.Milliseconds)
              float_of_decimal
              Sample.hl_constants Sample.okx_constants
              (Sample.answering Sample.okx_response)) as [_ Hokx].
  destruct (run (Sample.answering Sample.okx_response)
              (OKX.fetch_candles Sample.okx_constants
              (CandlesBase.ensure_timestamp_in_seconds CandlesBase.Milliseconds)
                 float_of_decimal
                 Sample.okx_self None (Some 1718902800) None))
    as [nd|x] eqn:Hrun; [|vm_compute in Hrun; discriminate].
  destruct (Hokx _ _ _ _ _ Hrun)
    as (floats & rq & body & -> & Hten & Hsent & Hbody & Hcount).
  exists floats. split; [reflexivity|]. split; [exact Hten|].
  injection Hbody as <-.
  exact (Hcount _ _ eq_refl eq_refl).
Defined.

(** ** Responses that leave no row *)

(** With a listed interval Hyperliquid's [fetch_candles] always gets as
    far as its request. *)
Lemma hl_fetch_candles_sends
    (ensure_timestamp_in_seconds : pyval -> result Z)
    (float_of_str : string -> option npfloat)
    (CONSTANTS : Hyperliquid.constants)
    (self : Hyperliquid.HyperliquidPerpetualCandles) (native : string)
    (start_time end_time : option Z) :
  CONSTANTS.(Hyperliquid.INTERVALS) !! self.(Hyperliquid.interval)
    = Some native ->
  exists rq,
    sent_request
      (Hyperliquid.fetch_candles CONSTANTS ensure_timestamp_in_seconds
         float_of_str self start_time end_time) = Some rq.
Proof.
  intros Hnative.
  unfold Hyperliquid.fetch_candles, Hyperliquid.fetch_candles_reqs,
    intervals_getitem.
  rewrite Hnative. destruct start_time, end_time; cbn; eauto.
Qed.

(** With a listed interval and an end OKX's [fetch_candles] gets as far as
    its request. *)
Lemma okx_fetch_candles_sends
    (ensure_timestamp_in_seconds : pyval -> result Z)
    (float_of_str : string -> option npfloat)
    (CONSTANTS : OKX.constants) (self : OKX.OKXSpotCandles)
    (native : string) (start_time limit : option Z) (e : Z) :
  CONSTANTS.(OKX.INTERVALS) !! self.(OKX.interval) = Some native ->
  exists rq,
    sent_request
      (OKX.fetch_candles CONSTANTS ensure_timestamp_in_seconds float_of_str
         self start_time (Some e) limit) = Some rq.
Proof.
  intros Hnative.
  unfold OKX.fetch_candles, OKX.fetch_candles_params, intervals_getitem.
  rewrite Hnative.
  destruct start_time as [s|]; cbn; [destruct (s =? 0); cbn|]; eauto.
Qed.

(** X7.  A response from Hyperliquid that is not empty but holds only
    candles at or after the end bound is parsed into the empty list, and
    [fetch_candles] returns the array without rows. *)
Theorem hl_fetch_candles_all_rows_at_or_after_end
    (ensure_timestamp_in_seconds : pyval -> result Z)
    (float_of_str : string -> option npfloat)
    (CONSTANTS : Hyperliquid.constants)
    (self : Hyperliquid.HyperliquidPerpetualCandles) (native : string)
    (start_time : option Z) (e : Z)
    (rest_assistant : request -> result pyval) (rows : list pyval)
    (ts : list Z) :
  CONSTANTS.(Hyperliquid.INTERVALS) !! self.(Hyperliquid.interval)
    = Some native ->
  (forall rq, rest_assistant rq = Ok (VList rows)) ->
  rows <> [] ->
  wire_times ensure_timestamp_in_seconds
    (fun row => getitem_str row "t") rows = Ok ts ->
  Forall (fun t => e <= t) ts ->
  Hyperliquid._parse_rest_candles ensure_timestamp_in_seconds (VList rows)
    (Some e) = Ok (Some []) /\
  run rest_assistant
    (Hyperliquid.fetch_candles CONSTANTS ensure_timestamp_in_seconds
       float_of_str self start_time (Some e)) = Ok (NdRows []).
Proof.
  intros Hnative Hra Hne Hts Hafter.
  assert (Hparse :
    Hyperliquid._parse_rest_candles ensure_timestamp_in_seconds (VList rows)
      (Some e) = Ok (Some [])).
  { unfold Hyperliquid._parse_rest_candles. cbn -[Z.ltb].
    rewrite length_pos_ltb by done.
    rewrite comprehension_none; [reflexivity|].
    apply comprehension_all_Ok in Hts.
    clear Hne Hra. induction Hts as [|row t rows ts Ht _ IH];
      [constructor|].
    apply Forall_cons in Hafter as [Hle Hafter].
    constructor; [|by apply IH].
    rewrite (hl_rest_row_kept_of_time _ _ _ _ Ht).
    by destruct (Z.ltb_spec t e) as [?|_]; [lia|]. }
  split; [exact Hparse|].
  destruct (hl_fetch_candles_sends ensure_timestamp_in_seconds float_of_str
              CONSTANTS self native start_time (Some e) Hnative)
    as [rq Hsent].
  destruct (hl_fetch_candles_run _ _ _ _ _ _ rest_assistant _ Hsent)
    as [-> _].
  rewrite Hra. cbn -[Hyperliquid._parse_rest_candles]. by rewrite Hparse.
Qed.

Lemma hl_fetch_candles_all_rows_at_or_after_end_witness :
  Sample.hl_constants.(Hyperliquid.INTERVALS) !! "1m" = Some "1m" /\
  wire_times (CandlesBase.ensure_timestamp_in_seconds CandlesBase.Milliseconds)
    (fun row => getitem_str row "t")
    [Sample.hl_candle 1718895660000 754 "3512.6" "3514.1" "3510.4" "3513.8"
       "271.93"] = Ok [1718895660] /\
  Forall (fun t => 1718895660 <= t) [1718895660] /\
  run (Sample.answering
         (VList [Sample.hl_candle 1718895660000 754 "3512.6" "3514.1"
                   "3510.4" "3513.8" "271.93"]))
    (Hyperliquid.fetch_candles Sample.hl_constants
       (CandlesBase.ensure_timestamp_in_seconds CandlesBase.Milliseconds)
       float_of_decimal
       Sample.hl_self None (Some 1718895660)) = Ok (NdRows []).
Proof.
  assert (H1 : Sample.hl_constants.(Hyperliquid.INTERVALS) !! "1m"
               = Some "1m") by (vm_compute; reflexivity).
  assert (H2 : Forall (fun t => 1718895660 <= t) [1718895660])
    by (repeat constructor; discriminate).
  split; [exact H1|]. split; [reflexivity|]. split; [exact H2|].
  refine (proj2 (hl_fetch_candles_all_rows_at_or_after_end
              (CandlesBase.ensure_timestamp_in_seconds CandlesBase.Milliseconds)
                   float_of_decimal
                   Sample.hl_constants Sample.hl_self "1m" None 1718895660
                   (Sample.answering _)
                   [Sample.hl_candle 1718895660000 754 "3512.6" "3514.1"
                      "3510.4" "3513.8" "271.93"]
                   [1718895660] H1 (fun _ => eq_refl) _ eq_refl H2)).
  discriminate.
Defined.

(** X8.  A response from OKX whose ["data"] is an empty list gives the
    array without rows, not an error.  A response without a ["data"] entry,
    such as an error reply, makes [fetch_candles] raise [KeyError] once the
    request has been answered. *)
Theorem okx_fetch_candles_without_rows
    (ensure_timestamp_in_seconds : pyval -> result Z)
    (float_of_str : string -> option npfloat)
    (CONSTANTS : OKX.constants) (self : OKX.OKXSpotCandles)
    (native : string) (start_time limit : option Z) (e : Z)
    (rest_assistant : request -> result pyval) (d : pydict) :
  CONSTANTS.(OKX.INTERVALS) !! self.(OKX.interval) = Some native ->
  (forall rq, rest_assistant rq = Ok (VDict d)) ->
  (dict_get d "data" = Some (VList []) ->
   run rest_assistant
     (OKX.fetch_candles CONSTANTS ensure_timestamp_in_seconds float_of_str
        self start_time (Some e) limit) = Ok (NdRows [])) /\
  (dict_get d "data" = None ->
   run rest_assistant
     (OKX.fetch_candles CONSTANTS ensure_timestamp_in_seconds float_of_str
        self start_time (Some e) limit) = Err KeyError).
Proof.
  intros Hnative Hra.
  destruct (okx_fetch_candles_sends ensure_timestamp_in_seconds float_of_str
              CONSTANTS self native start_time limit e Hnative)
    as [rq Hsent].
  destruct (okx_fetch_candles_run _ _ _ _ _ _ _ rest_assistant _ Hsent)
    as [-> _].
  rewrite Hra. unfold OKX.fetch_candles_arr.
  split; intros Hdata; cbn; rewrite Hdata; reflexivity.
Qed.

Lemma okx_fetch_candles_without_rows_witness :
  Sample.okx_constants.(OKX.INTERVALS) !! "1h" = Some "1H" /\
  run (Sample.answering
         (VDict [("code", VStr "0"); ("msg", VStr ""); ("data", VList [])]))
    (OKX.fetch_candles Sample.okx_constants
       (CandlesBase.ensure_timestamp_in_seconds CandlesBase.Milliseconds)
       float_of_decimal
       Sample.okx_self None (Some 1718902800) None) = Ok (NdRows []) /\
  run (Sample.answering
         (VDict [("code", VStr "51000"); ("msg", VStr "Parameter bar error")]))
    (OKX.fetch_candles Sample.okx_constants
       (CandlesBase.ensure_timestamp_in_seconds CandlesBase.Milliseconds)
       float_of_decimal
       Sample.okx_self None (Some 1718902800) None) = Err KeyError.
Proof.
  assert (H : Sample.okx_constants.(OKX.INTERVALS) !! "1h" = Some "1H")
    by (vm_compute; reflexivity).
  split; [exact H|]. split.
  - exact (proj1 (okx_fetch_candles_without_rows
              (CandlesBase.ensure_timestamp_in_seconds CandlesBase.Milliseconds)
                    float_of_decimal
                    Sample.okx_constants Sample.okx_self "1H" None None
                    1718902800 (Sample.answering _)
                    [("code", VStr "0"); ("msg", VStr "");
                     ("data", VList [])] H (fun _ => eq_refl))
             eq_refl).
  - exact (proj2 (okx_fetch_candles_without_rows
              (CandlesBase.ensure_timestamp_in_seconds CandlesBase.Milliseconds)
                    float_of_decimal
                    Sample.okx_constants Sample.okx_self "1H" None None
                    1718902800 (Sample.answering _)
                    [("code", VStr "51000");
                     ("msg", VStr "Parameter bar error")] H
                    (fun _ => eq_refl))
             eq_refl).
Defined.

(** ** Stream frames *)

Lemma seq_index_in_range {A : Type} (l : list A) (i : Z) (x : A) :
  0 <= i -> l !! Z.to_nat i = Some x -> seq_index l i = Ok x.
Proof.
  intros Hi Hx. rewrite <- (Z2Nat.id i Hi). by apply seq_index_lookup.
Qed.

Lemma seq_index_out_of_range {A : Type} (l : list A) (i : Z) :
  Z.of_nat (length l) <= i -> seq_index l i = Err IndexError.
Proof.
  intros Hi. unfold seq_index.
  destruct (Z.ltb_spec i 0) as [?|_]; [lia|].
  destruct (Z.leb_spec 0 i) as [_|?]; [|lia].
  by destruct (Z.ltb_spec i (Z.of_nat (length l))) as [?|_]; [lia|].
Qed.

(** Settles [seq_index l i] for a list [l] of known length. *)
Ltac seq_index_at i :=
  first [ rewrite (seq_index_out_of_range _ i) by (cbn; lia)
        | erewrite (seq_index_in_range _ i) by (first [lia | reflexivity])
        | idtac ].

(** X9.  OKX's stream parser reads the first candle of a frame and the
    first seven cells of that candle, nothing else: further candles in the
    frame and the cells after the quote volume (among them the flag that
    tells whether the candle is closed) have no effect on the result.  The
    historical parse reads the same seven cells of each row. *)
Theorem okx_parsers_read_seven_cells
    (ensure_timestamp_in_seconds : pyval -> result Z) (d : pydict)
    (c0 c1 c2 c3 c4 c5 c6 : pyval) (extra others : list pyval) :
  dict_get d "data"
    = Some (VList (VList (c0 :: c1 :: c2 :: c3 :: c4 :: c5 :: c6 :: extra)
                   :: others)) ->
  OKX._parse_websocket_message ensure_timestamp_in_seconds (VDict d)
  = (ts ← ensure_timestamp_in_seconds c0;
     Ok (Some (stream_dict "timestamp" "open" "high" "low" "close" "volume"
                 "quote_asset_volume" "n_trades" "taker_buy_base_volume"
                 "taker_buy_quote_volume"
                 (VInt ts) c1 c2 c3 c4 c5 c6 (VFloat 0) (VFloat 0)
                 (VFloat 0)))) /\
  OKX.rest_row ensure_timestamp_in_seconds
    (VList (c0 :: c1 :: c2 :: c3 :: c4 :: c5 :: c6 :: extra))
  = (ts ← ensure_timestamp_in_seconds c0;
     Ok (candle_row ts c1 c2 c3 c4 c5 c6 (VFloat 0) (VFloat 0) (VFloat 0))).
Proof.
  intros Hdata.
  set (candle := c0 :: c1 :: c2 :: c3 :: c4 :: c5 :: c6 :: extra) in *.
  assert (H0 : getitem_int (VList candle) 0 = Ok c0)
    by (by apply (seq_index_lookup _ 0%nat)).
  assert (H1 : getitem_int (VList candle) 1 = Ok c1)
    by (by apply (seq_index_lookup _ 1%nat)).
  assert (H2 : getitem_int (VList candle) 2 = Ok c2)
    by (by apply (seq_index_lookup _ 2%nat)).
  assert (H3 : getitem_int (VList candle) 3 = Ok c3)
    by (by apply (seq_index_lookup _ 3%nat)).
  assert (H4 : getitem_int (VList candle) 4 = Ok c4)
    by (by apply (seq_index_lookup _ 4%nat)).
  assert (H5 : getitem_int (VList candle) 5 = Ok c5)
    by (by apply (seq_index_lookup _ 5%nat)).
  assert (H6 : getitem_int (VList candle) 6 = Ok c6)
    by (by apply (seq_index_lookup _ 6%nat)).
  split.
  - unfold OKX._parse_websocket_message.
    cbn [py_contains getitem_str]. rewrite Hdata.
    rewrite bool_decide_eq_true_2 by eauto.
    assert (Hfirst :
      getitem_int (VList (VList candle :: others)) 0 = Ok (VList candle))
      by (by apply (seq_index_lookup _ 0%nat)).
    cbn -[getitem_int]. rewrite Hfirst. cbn -[getitem_int].
    rewrite H0. cbn -[getitem_int].
    destruct (ensure_timestamp_in_seconds c0) as [ts|x];
      cbn -[getitem_int]; [|reflexivity].
    rewrite H1; cbn -[getitem_int]. rewrite H2; cbn -[getitem_int].
    rewrite H3; cbn -[getitem_int]. rewrite H4; cbn -[getitem_int].
    rewrite H5; cbn -[getitem_int]. rewrite H6; cbn -[getitem_int].
    reflexivity.
  - unfold OKX.rest_row. rewrite H0. cbn -[getitem_int].
    destruct (ensure_timestamp_in_seconds c0) as [ts|x];
      cbn -[getitem_int]; [|reflexivity].
    rewrite H1; cbn -[getitem_int]. rewrite H2; cbn -[getitem_int].
    rewrite H3; cbn -[getitem_int]. rewrite H4; cbn -[getitem_int].
    rewrite H5; cbn -[getitem_int]. rewrite H6; cbn -[getitem_int].
    reflexivity.
Qed.

Lemma okx_parsers_read_seven_cells_witness :
  OKX._parse_websocket_message
    (CandlesBase.ensure_timestamp_in_seconds CandlesBase.Milliseconds)
    Sample.okx_candle_frame
  = (ts ←
    (CandlesBase.ensure_timestamp_in_seconds CandlesBase.Milliseconds)
    (VStr "1718899200000");
     Ok (Some (stream_dict "timestamp" "open" "high" "low" "close" "volume"
                 "quote_asset_volume" "n_trades" "taker_buy_base_volume"
                 "taker_buy_quote_volume"
                 (VInt ts) (VStr "64850.1") (VStr "64990.0")
                 (VStr "64800.5") (VStr "64910.2") (VStr "12.5")
                 (VStr "811000.75") (VFloat 0) (VFloat 0) (VFloat 0)))).
Proof.
  refine (proj1 (okx_parsers_read_seven_cells
              (CandlesBase.ensure_timestamp_in_seconds CandlesBase.Milliseconds)
                   _ _ _ _ _ _ _ _
                   [VStr "811000.75"; VStr "1"] [] _)).
  reflexivity.
Defined.

(** X10.  OKX's stream parser raises on a frame whose ["data"] is an empty
    list ([IndexError]) and on a frame whose first candle has fewer than
    seven cells. *)
Theorem okx_stream_parser_short_frames
    (ensure_timestamp_in_seconds : pyval -> result Z) (d : pydict) :
  (dict_get d "data" = Some (VList []) ->
   OKX._parse_websocket_message ensure_timestamp_in_seconds (VDict d)
   = Err IndexError) /\
  (forall cells others,
     dict_get d "data" = Some (VList (VList cells :: others)) ->
     (length cells < 7)%nat ->
     exists x,
       OKX._parse_websocket_message ensure_timestamp_in_seconds (VDict d)
       = Err x).
Proof.
  split.
  - intros Hdata. unfold OKX._parse_websocket_message.
    cbn [py_contains getitem_str]. rewrite Hdata.
    rewrite bool_decide_eq_true_2 by eauto. reflexivity.
  - intros cells others Hdata Hlen. unfold OKX._parse_websocket_message.
    cbn [py_contains getitem_str]. rewrite Hdata.
    rewrite bool_decide_eq_true_2 by eauto.
    assert (Hfirst :
      getitem_int (VList (VList cells :: others)) 0 = Ok (VList cells))
      by (by apply (seq_index_lookup _ 0%nat)).
    cbn -[getitem_int]. rewrite Hfirst. cbn -[getitem_int]. clear Hfirst.
    destruct cells as [|c0 [|c1 [|c2 [|c3 [|c4 [|c5 [|c6 rest]]]]]]];
      [| | | | | | |cbn in Hlen; lia];
      unfold getitem_int;
      seq_index_at 0; seq_index_at 1; seq_index_at 2; seq_index_at 3;
      seq_index_at 4; seq_index_at 5; seq_index_at 6;
      cbn; try (by eauto);
      destruct (ensure_timestamp_in_seconds c0); cbn; eauto.
Qed.

Lemma okx_stream_parser_short_frames_witness :
  OKX._parse_websocket_message
    (CandlesBase.ensure_timestamp_in_seconds CandlesBase.Milliseconds)
    (VDict [("arg", VDict [("channel", VStr "candle1H")]);
            ("data", VList [])]) = Err IndexError.
Proof.
  exact (proj1 (okx_stream_parser_short_frames
              (CandlesBase.ensure_timestamp_in_seconds CandlesBase.Milliseconds)
                  [("arg", VDict [("channel", VStr "candle1H")]);
                   ("data", VList [])]) eq_refl).
Defined.

(** X11.  Hyperliquid's stream parser raises [AttributeError] on every
    frame that is neither [None] nor an object (a text frame, a list), and
    [KeyError] on a frame of the candle channel that has no ["data"]. *)
Theorem hl_stream_parser_malformed_frames
    (ensure_timestamp_in_seconds : pyval -> result Z) :
  (forall frame,
     frame <> VNone -> (forall d, frame <> VDict d) ->
     Hyperliquid._parse_websocket_message ensure_timestamp_in_seconds frame
     = Err AttributeError) /\
  (forall d,
     dict_get d "channel" = Some (VStr "candle") ->
     dict_get d "data" = None ->
     Hyperliquid._parse_websocket_message ensure_timestamp_in_seconds
       (VDict d) = Err KeyError).
Proof.
  split.
  - intros frame Hnone Hdict.
    destruct frame as [| | | | | |d]; try reflexivity; [done|].
    by destruct (Hdict d).
  - intros d Hchannel Hdata. unfold Hyperliquid._parse_websocket_message.
    cbn. rewrite Hchannel. cbn. by rewrite Hdata.
Qed.

Lemma hl_stream_parser_malformed_frames_witness :
  Hyperliquid._parse_websocket_message
    (CandlesBase.ensure_timestamp_in_seconds CandlesBase.Milliseconds)
    (VStr "pong") = Err AttributeError /\
  Hyperliquid._parse_websocket_message
    (CandlesBase.ensure_timestamp_in_seconds CandlesBase.Milliseconds)
    (VDict [("channel", VStr "candle")]) = Err KeyError.
Proof.
  destruct (hl_stream_parser_malformed_frames
             (CandlesBase.ensure_timestamp_in_seconds CandlesBase.Milliseconds))
              as [Htext Hcandle].
  split.
  - apply Htext; [discriminate|]. intros d. discriminate.
  - apply Hcandle; reflexivity.
Defined.

(** ** The stream and the history agree *)

(** X12.  A candle that arrives on the stream is read like the same candle
    in a historical response: when the historical parse builds a row from
    it, the stream parser returns a dict, and that dict read by key in the
    order of the row is that row.  For OKX the candle is the first one of
    the frame. *)
Theorem stream_dict_is_rest_row
    (ensure_timestamp_in_seconds : pyval -> result Z) :
  (forall d candle cells,
     dict_get d "channel" = Some (VStr "candle") ->
     dict_get d "data" = Some candle ->
     Hyperliquid.rest_row ensure_timestamp_in_seconds candle = Ok cells ->
     exists dict,
       Hyperliquid._parse_websocket_message ensure_timestamp_in_seconds
         (VDict d) = Ok (Some dict) /\
       stream_row dict = Some cells) /\
  (forall d candle others cells,
     dict_get d "data" = Some (VList (candle :: others)) ->
     OKX.rest_row ensure_timestamp_in_seconds candle = Ok cells ->
     exists dict,
       OKX._parse_websocket_message ensure_timestamp_in_seconds (VDict d)
         = Ok (Some dict) /\
       stream_row dict = Some cells).
Proof.
  split.
  - intros d candle cells Hchannel Hdata Hrow.
    apply hl_rest_row_Ok in Hrow
      as (t & ts & o & h & l & c & v & n & Ht & Hts & Ho & Hh & Hl & Hc & Hv
          & Hn & ->).
    unfold Hyperliquid._parse_websocket_message.
    cbn [py_get getitem_str]. rewrite Hchannel, Hdata.
    cbn -[getitem_str]. rewrite Ht. cbn -[getitem_str].
    rewrite Hts. cbn -[getitem_str]. rewrite Ho. cbn -[getitem_str].
    rewrite Hl. cbn -[getitem_str]. rewrite Hh. cbn -[getitem_str].
    rewrite Hc. cbn -[getitem_str]. rewrite Hv. cbn -[getitem_str].
    rewrite Hn. cbn -[getitem_str].
    eexists. split; reflexivity.
  - intros d candle others cells Hdata Hrow.
    apply okx_rest_row_Ok in Hrow
      as (t & ts & o & h & l & c & v & n & Ht & Hts & Ho & Hh & Hl & Hc & Hv
          & Hn & ->).
    unfold OKX._parse_websocket_message.
    cbn [py_contains getitem_str]. rewrite Hdata.
    rewrite bool_decide_eq_true_2 by eauto.
    assert (Hfirst : getitem_int (VList (candle :: others)) 0 = Ok candle)
      by (by apply (seq_index_lookup _ 0%nat)).
    cbn -[getitem_int]. rewrite Hfirst. cbn -[getitem_int].
    rewrite Ht. cbn -[getitem_int]. rewrite Hts. cbn -[getitem_int].
    rewrite Ho. cbn -[getitem_int]. rewrite Hh. cbn -[getitem_int].
    rewrite Hl. cbn -[getitem_int]. rewrite Hc. cbn -[getitem_int].
    rewrite Hv. cbn -[getitem_int]. rewrite Hn. cbn -[getitem_int].
    eexists. split; reflexivity.
Qed.

Lemma stream_dict_is_rest_row_witness :
  exists cells dict,
    Hyperliquid.rest_row
      (CandlesBase.ensure_timestamp_in_seconds CandlesBase.Milliseconds)
      (Sample.hl_candle 1718895660000 754 "3512.6" "3514.1" "3510.4"
         "3513.8" "271.93") = Ok cells /\
    Hyperliquid._parse_websocket_message
      (CandlesBase.ensure_timestamp_in_seconds CandlesBase.Milliseconds)
      Sample.hl_candle_frame
      = Ok (Some dict) /\
    stream_row dict = Some cells.
Proof.
  eexists.
  assert (Hrow :
    Hyperliquid.rest_row
      (CandlesBase.ensure_timestamp_in_seconds CandlesBase.Milliseconds)
      (Sample.hl_candle 1718895660000 754 "3512.6" "3514.1" "3510.4"
         "3513.8" "271.93")
    = Ok (candle_row 1718895660 (VStr "3512.6") (VStr "3514.1")
            (VStr "3510.4") (VStr "3513.8") (VStr "271.93") (VFloat 0)
            (VInt 754) (VFloat 0) (VFloat 0))) by reflexivity.
  destruct (proj1 (stream_dict_is_rest_row
             (CandlesBase.ensure_timestamp_in_seconds CandlesBase.Milliseconds))
              [("channel", VStr "candle");
               ("data", Sample.hl_candle 1718895660000 754 "3512.6" "3514.1"
                          "3510.4" "3513.8" "271.93")]
              _ _ eq_refl eq_refl Hrow) as (dict & Hparse & Hstream).
  exists dict. split; [exact Hrow|]. split; [exact Hparse|exact Hstream].
Defined.

(** ** Trading pairs *)

Lemma remove_char_no_char (c : ascii) (s : string) :
  ~ In c (list_ascii_of_string (remove_char c s)).
Proof.
  induction s as [|c' s IH]; cbn; [tauto|].
  destruct (Ascii.eqb_spec c' c) as [->|Hne]; [exact IH|].
  cbn. intros [->|Hin]; [done|by apply IH].
Qed.

Lemma split_head_no_char (c : ascii) (s : string) :
  ~ In c (list_ascii_of_string (split_head c s)).
Proof.
  induction s as [|c' s IH]; cbn; [tauto|].
  destruct (Ascii.eqb_spec c' c) as [->|Hne]; cbn; [tauto|].
  intros [->|Hin]; [done|by apply IH].
Qed.

Lemma remove_char_id (c : ascii) (s : string) :
  ~ In c (list_ascii_of_string s) -> remove_char c s = s.
Proof.
  induction s as [|c' s IH]; cbn; [reflexivity|]. intros Hnot.
  destruct (Ascii.eqb_spec c' c) as [->|Hne]; [tauto|].
  rewrite IH; [reflexivity|tauto].
Qed.

Lemma split_head_prefix (c : ascii) (s : string) :
  String.prefix (split_head c s) s = true /\
  String.prefix (split_head c s) (remove_char c s) = true.
Proof.
  induction s as [|c' s [IH1 IH2]]; cbn; [done|].
  destruct (Ascii.eqb_spec c' c) as [->|Hne]; cbn.
  - split; [reflexivity|]. by destruct (remove_char c s).
  - destruct (Ascii.ascii_dec c' c') as [_|?]; [done|tauto].
Qed.

(** X13.  Hyperliquid's exchange trading pair never holds a dash, and the
    base asset that [__init__] takes from the trading pair holds none
    either; the base asset is the beginning of the trading pair and of the
    exchange trading pair. *)
Theorem hl_base_asset_and_exchange_pair (trading_pair : string) :
  ~ In "-"%char
      (list_ascii_of_string
         (Hyperliquid.get_exchange_trading_pair trading_pair)) /\
  ~ In "-"%char
      (list_ascii_of_string (snd (Hyperliquid.init_attributes trading_pair)))
  /\
  String.prefix (snd (Hyperliquid.init_attributes trading_pair)) trading_pair
    = true /\
  String.prefix (snd (Hyperliquid.init_attributes trading_pair))
    (Hyperliquid.get_exchange_trading_pair trading_pair) = true.
Proof.
  unfold Hyperliquid.get_exchange_trading_pair, Hyperliquid.init_attributes.
  cbn [snd].
  split; [apply remove_char_no_char|].
  split; [apply split_head_no_char|].
  apply split_head_prefix.
Qed.

(** X14.  For a trading pair written base, dash, quote, with no dash in
    either part, [__init__] takes the base as the base asset and the
    exchange trading pair is the base followed by the quote. *)
Theorem hl_trading_pair_parts (base quote : string) :
  ~ In "-"%char (list_ascii_of_string base) ->
  ~ In "-"%char (list_ascii_of_string quote) ->
  snd (Hyperliquid.init_attributes
         (String.append base (String "-" quote))) = base /\
  Hyperliquid.get_exchange_trading_pair
    (String.append base (String "-" quote)) = String.append base quote.
Proof.
  unfold Hyperliquid.get_exchange_trading_pair, Hyperliquid.init_attributes.
  cbn [snd]. intros Hbase Hquote.
  induction base as [|c base IH].
  - change (String.append "" (String "-" quote)) with (String "-" quote).
    change (String.append "" quote) with quote.
    cbn [split_head remove_char]. rewrite Ascii.eqb_refl.
    split; [reflexivity|]. by apply remove_char_id.
  - change (String.append (String c base) (String "-" quote))
      with (String c (String.append base (String "-" quote))).
    change (String.append (String c base) quote)
      with (String c (String.append base quote)).
    cbn [split_head remove_char]. cbn in Hbase.
    destruct (Ascii.eqb_spec c "-"%char) as [->|Hne]; [tauto|].
    destruct IH as [IH1 IH2]; [tauto|]. by rewrite IH1, IH2.
Qed.

Lemma hl_trading_pair_parts_witness :
  ~ In "-"%char (list_ascii_of_string "BTC") /\
  ~ In "-"%char (list_ascii_of_string "USD") /\
  snd (Hyperliquid.init_attributes "BTC-USD") = "BTC" /\
  Hyperliquid.get_exchange_trading_pair "BTC-USD" = "BTCUSD".
Proof.
  assert (H1 : ~ In "-"%char (list_ascii_of_string "BTC"))
    by (cbn; intros [?|[?|[?|[]]]]; discriminate).
  assert (H2 : ~ In "-"%char (list_ascii_of_string "USD"))
    by (cbn; intros [?|[?|[?|[]]]]; discriminate).
  split; [exact H1|]. split; [exact H2|].
  exact (hl_trading_pair_parts "BTC" "USD" H1 H2).
Defined.

(** ** OKX turns the response around *)

Lemma okx_rows_times (ensure_timestamp_in_seconds : pyval -> result Z)
    (rows : list pyval) (out : list (list pyval)) :
  Forall2 (fun row cells =>
             OKX.rest_row ensure_timestamp_in_seconds row = Ok cells)
    rows out ->
  exists ts,
    wire_times ensure_timestamp_in_seconds
      (fun row => getitem_int row 0) rows = Ok ts /\
    Forall2 (fun cells t => row_timestamp cells = Some t) out ts.
Proof.
  unfold wire_times, comprehension_all.
  induction 1 as [|row cells rows out Hrow _ (ts & Hts & Hout)].
  - exists []. split; [reflexivity|constructor].
  - apply okx_rest_row_Ok in Hrow
      as (t & ts0 & o & h & l & c & v & n & Ht & Hts0 & _ & _ & _ & _ & _ & _
          & ->).
    exists (ts0 :: ts). split.
    + cbn -[getitem_int]. rewrite Ht. cbn -[getitem_int].
      rewrite Hts0. cbn. by rewrite Hts.
    + by constructor.
Qed.

(** X15.  OKX's historical parse returns the rows of the response in the
    opposite order, whatever order they came in: it reverses, it does not
    sort.  The timestamps of the result are the times of the response read
    backwards. *)
Theorem okx_fetch_candles_arr_reverses
    (ensure_timestamp_in_seconds : pyval -> result Z)
    (candles rows_value : pyval) (rows : list pyval)
    (arr : list (list pyval)) :
  getitem_str candles "data" = Ok rows_value ->
  py_iter rows_value = Ok rows ->
  OKX.fetch_candles_arr ensure_timestamp_in_seconds candles = Ok arr ->
  exists ts,
    wire_times ensure_timestamp_in_seconds
      (fun row => getitem_int row 0) rows = Ok ts /\
    row_timestamps arr = Some (reverse ts).
Proof.
  intros Hv Hrows H.
  apply okx_fetch_candles_arr_Ok in H as (v' & rows' & Hv' & Hrows' & H).
  rewrite Hv in Hv'. injection Hv' as <-.
  rewrite Hrows in Hrows'. injection Hrows' as <-.
  apply okx_rows_times in H as (ts & Hts & Hout).
  exists ts. split; [exact Hts|].
  apply row_timestamps_Forall2.
  rewrite <- (reverse_involutive arr). by apply Forall2_reverse.
Qed.

Lemma okx_fetch_candles_arr_reverses_witness :
  exists arr ts,
    OKX.fetch_candles_arr
      (CandlesBase.ensure_timestamp_in_seconds CandlesBase.Milliseconds)
      Sample.okx_response = Ok arr /\
    ts = [1718899200; 1718895600] /\
    row_timestamps arr = Some (reverse ts).
Proof.
  destruct (okx_fetch_candles_arr_reverses
              (CandlesBase.ensure_timestamp_in_seconds CandlesBase.Milliseconds)
              Sample.okx_response
              _ _ _ eq_refl eq_refl okx_fetch_candles_arr_sample)
    as (ts & Hts & Harr).
  eexists. exists ts. split; [exact okx_fetch_candles_arr_sample|].
  split; [|exact Harr].
  vm_compute in Hts. by injection Hts as <-.
Defined.

(** ** The [limit] of OKX *)

(** X16.  The [limit] argument of OKX's [fetch_candles] has no effect: the
    coroutine is the same for every [limit], and no request carries an
    entry for it; the parameters sent are the instrument, the bar,
    [before] if there is one, and [after]. *)
Theorem okx_limit_ignored
    (ensure_timestamp_in_seconds : pyval -> result Z)
    (float_of_str : string -> option npfloat)
    (CONSTANTS : OKX.constants) (self : OKX.OKXSpotCandles)
    (start_time end_time : option Z) :
  (forall limit limit',
     OKX.fetch_candles CONSTANTS ensure_timestamp_in_seconds float_of_str
       self start_time end_time limit
     = OKX.fetch_candles CONSTANTS ensure_timestamp_in_seconds float_of_str
         self start_time end_time limit') /\
  (forall limit rq,
     sent_request
       (OKX.fetch_candles CONSTANTS ensure_timestamp_in_seconds float_of_str
          self start_time end_time limit) = Some rq ->
     exists p,
       rq.(params) = Some p /\
       dict_keys p
       = (["instId"; "bar"]
          ++ (if truthy start_time then ["before"] else [])
          ++ ["after"])%list).
Proof.
  split; [reflexivity|].
  intros limit rq.
  unfold OKX.fetch_candles, OKX.fetch_candles_params.
  destruct (intervals_getitem _ _) as [native|x]; cbn; [|discriminate].
  destruct start_time as [s|], end_time as [e|]; cbn;
    try destruct (s =? 0); cbn; try discriminate;
    intros [= <-]; eexists; split; reflexivity.
Qed.

Lemma okx_limit_ignored_witness :
  exists rq p,
    sent_request
      (OKX.fetch_candles Sample.okx_constants
         (CandlesBase.ensure_timestamp_in_seconds CandlesBase.Milliseconds)
         float_of_decimal
         Sample.okx_self (Some 1718895600) (Some 1718902800) (Some 5))
    = Some rq /\
    rq.(params) = Some p /\
    dict_keys p = ["instId"; "bar"; "before"; "after"].
Proof.
  eexists.
  assert (Hsent :
    sent_request
      (OKX.fetch_candles Sample.okx_constants
         (CandlesBase.ensure_timestamp_in_seconds CandlesBase.Milliseconds)
         float_of_decimal
         Sample.okx_self (Some 1718895600) (Some 1718902800) (Some 5))
    = Some (okx_history_request Sample.okx_constants Sample.okx_self "1H"
              [("before", VInt 1718895600000);
               ("after", VInt 1718902800000)]))
    by (vm_compute; reflexivity).
  destruct (proj2 (okx_limit_ignored
              (CandlesBase.ensure_timestamp_in_seconds CandlesBase.Milliseconds)
                     float_of_decimal
                     Sample.okx_constants Sample.okx_self (Some 1718895600)
                     (Some 1718902800)) _ _ Hsent) as (p & Hp & Hkeys).
  exists p. split; [exact Hsent|]. split; [exact Hp|exact Hkeys].
Defined.

(** ** The class loggers *)

Lemma logger_calls_cached {Logger : Type}
    (getLogger : nat -> string -> Logger) (module_name : string) (n : nat)
    (cached : Logger) :
  logger_calls getLogger module_name n (Some cached)
  = (replicate n cached, Some cached).
Proof.
  induction n as [|n IH]; cbn; [reflexivity|]. by rewrite IH.
Qed.

(** X17.  The logger of a class is made once: over any run of calls of
    [logger], every call returns the same logger, the one the class
    attribute holds afterwards.  If the attribute held a logger before
    the first call, it is that one; if not, it is the one
    [logging.getLogger] makes at the first call, whatever it would make
    later. *)
Theorem logger_made_once {Logger : Type}
    (getLogger : nat -> string -> Logger) (module_name : string) (n : nat)
    (_logger : option Logger) :
  exists l,
    logger_calls getLogger module_name (S n) _logger
    = (replicate (S n) l, Some l) /\
    (forall cached, _logger = Some cached -> l = cached) /\
    (_logger = None -> l = getLogger n module_name).
Proof.
  destruct _logger as [cached|].
  - exists cached. rewrite logger_calls_cached.
    split; [reflexivity|]. split; [by intros ? [= <-]|done].
  - exists (getLogger n module_name).
    cbn [logger_calls logger]. rewrite logger_calls_cached.
    split; [reflexivity|]. split; [done|reflexivity].
Qed.
